(** * lindbladmpo: the Python front end of the Lindblad MPO solver

    A shallow embedding of [lindbladmpo/LindbladMPOSolver.py]: the parameter
    validator ([verify_parameters]), the input-file writer ([build]), the
    process invoker ([execute], [solve]) and the output reader
    ([load_output], [_read_data_file], [_read_data_line]).

    Python values are an inductive type [PyVal]; Python exceptions are the
    [Raise] outcome of the [res] monad; the instance fields, the file system
    and the console are threaded explicitly.  Floats are IEEE binary64
    numbers ([spec_float] at precision 53, [emax] 1024).

    Where the embedding stops: texts are strings of ASCII characters, so
    [lower], [strip] and [split] know the letters and the blanks of ASCII
    only; integers are unbounded and [str_of_Z] and [parse_int] convert
    numerals of any length, where CPython raises [ValueError] beyond 4300
    digits; the keys of a dictionary are strings, where Python takes any
    hashable value and the solver raises [TypeError] on a key that is not
    a string once it puts the key into a message or a line. *)

From Stdlib Require Import ZArith List String Ascii Bool Lia SpecFloat.
From Stdlib Require Import DecimalString DecimalZ.
From stdpp Require Import base strings gmap list.
Import ListNotations.

Open Scope string_scope.
Open Scope Z_scope.

(** ** Characters and strings, as the Python [str] methods use them *)

Module PyStr.

Definition chr (n : nat) : ascii := ascii_of_nat n.
Definition nl : string := String (chr 10) "".
Definition tab : string := String (chr 9) "".
Definition dquote : string := String (chr 34) "".
Definition squote : string := String (chr 39) "".
Definition backslash : string := String (chr 92) "".

Definition chars (s : string) : list ascii := list_ascii_of_string s.
Definition of_chars (l : list ascii) : string := string_of_list_ascii l.

(** [str.isspace] on one character (ASCII range). *)
Definition is_space (c : ascii) : bool :=
  let n := nat_of_ascii c in
  ((9 <=? n)%nat && (n <=? 13)%nat) || ((28 <=? n)%nat && (n <=? 32)%nat).

Definition is_digit (c : ascii) : bool :=
  let n := nat_of_ascii c in (48 <=? n)%nat && (n <=? 57)%nat.

Definition lower_char (c : ascii) : ascii :=
  let n := nat_of_ascii c in
  if (65 <=? n)%nat && (n <=? 90)%nat then ascii_of_nat (n + 32) else c.

(** [s.lower()], on ASCII letters *)
Definition lower (s : string) : string := of_chars (map lower_char (chars s)).

Fixpoint drop_while (p : ascii -> bool) (l : list ascii) : list ascii :=
  match l with
  | [] => []
  | c :: r => if p c then drop_while p r else l
  end.

Definition strip_list (p : ascii -> bool) (l : list ascii) : list ascii :=
  rev (drop_while p (rev (drop_while p l))).

(** [s.strip()] *)
Definition strip (s : string) : string := of_chars (strip_list is_space (chars s)).

Definition mem_char (c : ascii) (set : string) : bool :=
  existsb (Ascii.eqb c) (chars set).

(** [s.strip(set)] *)
Definition strip_chars (set : string) (s : string) : string :=
  of_chars (strip_list (fun c => mem_char c set) (chars s)).

(** [s.split()]: maximal runs of non-blank characters. *)
Fixpoint split_ws_aux (l : list ascii) (cur : list ascii) : list string :=
  match l with
  | [] => match cur with [] => [] | _ => [of_chars (rev cur)] end
  | c :: r =>
      if is_space c
      then match cur with
           | [] => split_ws_aux r []
           | _ => of_chars (rev cur) :: split_ws_aux r []
           end
      else split_ws_aux r (c :: cur)
  end.

Definition split_ws (s : string) : list string := split_ws_aux (chars s) [].

(** [s.replace(c, new)] for a one-character pattern [c]. *)
Definition replace_char (c : ascii) (new : string) (s : string) : string :=
  of_chars (flat_map (fun x => if Ascii.eqb x c then chars new else [x]) (chars s)).

Fixpoint is_prefix (p l : list ascii) : bool :=
  match p, l with
  | [], _ => true
  | _ :: _, [] => false
  | a :: p', b :: l' => Ascii.eqb a b && is_prefix p' l'
  end.

Fixpoint contains_list (p l : list ascii) : bool :=
  is_prefix p l || match l with [] => false | _ :: r => contains_list p r end.

(** [sub in s], which is also [s.find(sub) != -1]. *)
Definition contains (sub s : string) : bool := contains_list (chars sub) (chars s).

(** [sep.join(parts)] *)
Fixpoint join (sep : string) (parts : list string) : string :=
  match parts with
  | [] => ""
  | [x] => x
  | x :: r => x ++ sep ++ join sep r
  end.

(** [s[-1]], when [s] is not empty. *)
Definition last_char (s : string) : option ascii := last (chars s).

(** The lines a text-mode file object yields: universal newlines turn
    CR LF and a lone CR into LF; every line but possibly the last ends
    with LF. *)
Fixpoint universal_newlines (l : list ascii) : list ascii :=
  match l with
  | [] => []
  | c :: r =>
      if Ascii.eqb c (chr 13)
      then chr 10 :: match r with
                     | d :: r' => if Ascii.eqb d (chr 10) then universal_newlines r'
                                  else universal_newlines r
                     | [] => []
                     end
      else c :: universal_newlines r
  end.

Fixpoint lines_aux (l : list ascii) (cur : list ascii) : list string :=
  match l with
  | [] => match cur with [] => [] | _ => [of_chars (rev cur)] end
  | c :: r =>
      if Ascii.eqb c (chr 10)
      then of_chars (rev (c :: cur)) :: lines_aux r []
      else lines_aux r (c :: cur)
  end.

Definition file_lines (content : string) : list string :=
  lines_aux (universal_newlines (chars content)) [].

End PyStr.

(** ** Python numbers: unbounded integers and binary64 floats *)

Module PyNumber.
Import PyStr.

Abbreviation float := spec_float.

(** [str(z)] for an [int], without the limit of CPython on the number of
    digits. *)
Definition str_of_Z (z : Z) : string := NilZero.string_of_int (Z.to_int z).

(** Numeric literals may hold single underscores between digits; the
    conversion functions check that and drop them. *)
Fixpoint remove_underscores (prev_digit : bool) (l : list ascii) : option (list ascii) :=
  match l with
  | [] => Some []
  | c :: r =>
      if Ascii.eqb c "_"
      then if prev_digit && match r with d :: _ => is_digit d | [] => false end
           then remove_underscores false r
           else None
      else option_map (cons c) (remove_underscores (is_digit c) r)
  end.

Definition split_sign (l : list ascii) : bool * list ascii :=
  match l with
  | c :: r => if Ascii.eqb c "-" then (true, r)
              else if Ascii.eqb c "+" then (false, r) else (false, l)
  | [] => (false, [])
  end.

Definition nat_of_digits (ds : list ascii) : option Z :=
  match ds with
  | [] => None
  | _ => option_map Z.of_uint (NilEmpty.uint_of_string (of_chars ds))
  end.

(** [int(s)] on a string: [None] stands for [ValueError].  No limit on
    the number of digits. *)
Definition parse_int (s : string) : option Z :=
  match remove_underscores false (strip_list is_space (chars s)) with
  | None => None
  | Some l =>
      let '(neg, ds) := split_sign l in
      option_map (fun n => if neg then - n else n) (nat_of_digits ds)
  end.

(** *** Decimal to binary64, correctly rounded (to nearest, ties to even) *)

Definition f64_of_Z (z : Z) : float := binary_normalize 53 1024 z 0 false.

Definition dec_to_f64 (neg : bool) (m e10 : Z) : float :=
  if m <=? 0 then S754_zero neg
  else if 0 <=? e10
  then binary_normalize 53 1024 ((if neg then - m else m) * 10 ^ e10) 0 false
  else let '(q, e', l) := SFdiv_core_binary 53 1024 m 0 (10 ^ (- e10)) 0 in
       binary_round_aux 53 1024 neg q e' l.

Fixpoint span_digits (l : list ascii) : list ascii * list ascii :=
  match l with
  | c :: r => if is_digit c then let '(d, rest) := span_digits r in (c :: d, rest)
              else ([], l)
  | [] => ([], [])
  end.

Definition digits_value (ds : list ascii) : Z :=
  match NilEmpty.uint_of_string (of_chars ds) with
  | Some u => Z.of_uint u
  | None => 0
  end.

(** The exponent part of a float literal: [e], an optional sign, digits. *)
Definition parse_exponent (l : list ascii) : option Z :=
  match l with
  | [] => Some 0
  | c :: r =>
      if Ascii.eqb (lower_char c) "e"
      then let '(neg, ds) := split_sign r in
           let '(d, rest) := span_digits ds in
           match d, rest with
           | _ :: _, [] => Some (if neg then - digits_value d else digits_value d)
           | _, _ => None
           end
      else None
  end.

Definition parse_decimal (neg : bool) (l : list ascii) : option float :=
  let '(ip, rest) := span_digits l in
  let '(fp, rest') :=
    match rest with
    | c :: r => if Ascii.eqb c "." then span_digits r else ([], rest)
    | [] => ([], [])
    end in
  match (ip ++ fp)%list with
  | [] => None
  | ds =>
      match parse_exponent rest' with
      | Some e => Some (dec_to_f64 neg (digits_value ds) (e - Z.of_nat (length fp)))
      | None => None
      end
  end.

(** [float(s)] on a string: [None] stands for [ValueError]. *)
Definition parse_float (s : string) : option float :=
  match remove_underscores false (strip_list is_space (chars s)) with
  | None => None
  | Some l =>
      let '(neg, body) := split_sign l in
      let w := lower (of_chars body) in
      if String.eqb w "inf" || String.eqb w "infinity" then Some (S754_infinity neg)
      else if String.eqb w "nan" then Some S754_nan
      else parse_decimal neg body
  end.

(** *** Exact comparison of numbers *)

Definition sf_signed (s : bool) (m : positive) : Z := if s then Zneg m else Zpos m.

Definition f64_compare (x y : float) : option comparison :=
  match x, y with
  | S754_finite s1 m1 e1, S754_finite s2 m2 e2 =>
      let e0 := Z.min e1 e2 in
      Some (sf_signed s1 m1 * 2 ^ (e1 - e0) ?= sf_signed s2 m2 * 2 ^ (e2 - e0))
  | _, _ => SFcompare x y
  end.

Definition Z_compare_f64 (z : Z) (f : float) : option comparison :=
  match f with
  | S754_nan => None
  | S754_infinity s => Some (if s then Gt else Lt)
  | S754_zero _ => Some (z ?= 0)
  | S754_finite s m e =>
      Some (if 0 <=? e then z ?= sf_signed s m * 2 ^ e
            else z * 2 ^ (- e) ?= sf_signed s m)
  end.


(** *** [repr] of a float: the shortest decimal string that reads back as
    the same float, the closest to the true value among the shortest *)

(** A positive finite value [m * 2^e] as a fraction. *)
Definition frac_of (m : positive) (e : Z) : Z * Z :=
  if 0 <=? e then (Zpos m * 2 ^ e, 1) else (Zpos m, 2 ^ (- e)).

(** [10^k <= num / den] *)
Definition pow10_le (k num den : Z) : bool :=
  if 0 <=? k then 10 ^ k * den <=? num else den <=? num * 10 ^ (- k).

(** The decimal exponent [k] with [10^k <= num/den < 10^(k+1)], searched
    around the estimate that the binary logarithm gives. *)
Definition log10_floor (num den : Z) : Z :=
  let est := (Z.log2 num - Z.log2 den) * 30103 / 100000 in
  let cands := map (fun d => est + d) [-2; -1; 0; 1; 2] in
  match List.find (fun k => pow10_le k num den && negb (pow10_le (k + 1) num den)) cands with
  | Some k => k
  | None => est
  end.

(** The decimal [c * 10^t] the search settles on at [k] significant digits,
    if one of the two [k]-digit neighbours of the value reads back as [x]. *)
Definition digits_at (x : float) (num den ex10 : Z) (k : Z) : option (Z * Z) :=
  let t := ex10 - k + 1 in
  let '(n, d) := if 0 <=? t then (num, den * 10 ^ t) else (num * 10 ^ (- t), den) in
  let lo := n / d in
  let r := n mod d in
  let back c := match f64_compare (dec_to_f64 false c t) x with
                | Some Eq => true
                | _ => false
                end in
  let ok_lo := back lo in
  let ok_hi := back (lo + 1) in
  if ok_lo && ok_hi
  then Some (match 2 * r ?= d with
             | Lt => lo
             | Gt => lo + 1
             | Eq => if Z.even lo then lo else lo + 1
             end, t)
  else if ok_lo then Some (lo, t)
  else if ok_hi then Some (lo + 1, t)
  else None.

Fixpoint shortest_from (x : float) (num den ex10 : Z) (k : Z) (fuel : nat) : Z * Z :=
  match fuel with
  | O => (0, 0)
  | S fuel' =>
      match digits_at x num den ex10 k with
      | Some ct => ct
      | None => shortest_from x num den ex10 (k + 1) fuel'
      end
  end.

(** Digits and decimal-point position of a positive finite float: the value
    is [0.d1...dn * 10^decpt]. *)
Definition shortest_digits (m : positive) (e : Z) : list ascii * Z :=
  let '(num, den) := frac_of m e in
  let '(c, t) := shortest_from (S754_finite false m e) num den (log10_floor num den) 1 17 in
  let ds := chars (str_of_Z c) in
  (rev (drop_while (Ascii.eqb "0") (rev ds)), Z.of_nat (length ds) + t).

Definition zeros (n : Z) : list ascii := repeat "0"%char (Z.to_nat n).

Definition format_repr (ds : list ascii) (decpt : Z) : string :=
  let n := Z.of_nat (length ds) in
  if (decpt <=? -4) || (16 <? decpt)
  then let ex := decpt - 1 in
       let mant := match ds with
                   | [] => []
                   | [d] => [d]
                   | d :: r => d :: "."%char :: r
                   end in
       let ea := chars (str_of_Z (Z.abs ex)) in
       let ea2 := match ea with [_] => "0"%char :: ea | _ => ea end in
       of_chars (mant ++ "e"%char :: (if ex <? 0 then "-"%char else "+"%char) :: ea2)%list
  else if decpt <=? 0
  then of_chars ("0"%char :: "."%char :: zeros (- decpt) ++ ds)%list
  else if n <=? decpt
  then of_chars (ds ++ zeros (decpt - n) ++ [ "."%char; "0"%char ])%list
  else of_chars (firstn (Z.to_nat decpt) ds ++ "."%char :: skipn (Z.to_nat decpt) ds)%list.

(** [repr(x)], which is also [str(x)], for a float. *)
Definition repr_f64 (x : float) : string :=
  match x with
  | S754_nan => "nan"
  | S754_infinity s => if s then "-inf" else "inf"
  | S754_zero s => if s then "-0.0" else "0.0"
  | S754_finite s m e =>
      let '(ds, decpt) := shortest_digits m e in
      (if s then "-" else "") ++ format_repr ds decpt
  end.

End PyNumber.

(** ** Python values, exceptions and the operations the solver applies *)

Module Py.
Import PyStr PyNumber.

Inductive exn : Type :=
  | TypeError
  | ValueError
  | IndexError
  | KeyError
  | OverflowError
  | FileNotFoundError
  | Exception (msg : string).

(** The outcome of a Python expression or call: a value, or a raised
    exception. *)
Inductive res (A : Type) : Type :=
  | Ok (a : A)
  | Raise (e : exn).
Arguments Ok {A} a.
Arguments Raise {A} e.

Definition bind {A B} (x : res A) (f : A -> res B) : res B :=
  match x with
  | Ok a => f a
  | Raise e => Raise e
  end.

Notation "'do' x <- c ; k" := (bind c (fun x => k))
  (at level 10, x name, c at level 100, k at level 200).
Notation "'do' ' p <- c ; k" := (bind c (fun x => match x with p => k end))
  (at level 10, p pattern, c at level 100, k at level 200).

Definition of_option {A} (e : exn) (o : option A) : res A :=
  match o with
  | Some a => Ok a
  | None => Raise e
  end.

(** A number: a Python [int] (or an integer array element) or a float. *)
Inductive num : Type :=
  | NInt (z : Z)
  | NFloat (f : float).

(** A NumPy array of numbers: the name its [dtype] prints as, its shape, and
    its elements in row-major order ([length data] is the product of
    [shape]). *)
Record ndarray : Type := {
  dtype : string;
  shape : list nat;
  data : list num
}.

#[warnings="-register-all"]
Inductive PyVal : Type :=
  | VNone
  | VBool (b : bool)
  | VInt (z : Z)
  | VFloat (f : float)
  | VStr (s : string)
  | VList (l : list PyVal)
  | VTuple (l : list PyVal)
  | VArray (a : ndarray).

(** [isinstance(v, bool)], [isinstance(v, str)] *)
Definition is_bool (v : PyVal) : bool := match v with VBool _ => true | _ => false end.
Definition is_str (v : PyVal) : bool := match v with VStr _ => true | _ => false end.

(** The integer an [int] instance holds; [bool] is a subclass of [int] with
    [True == 1] and [False == 0]. *)
Definition as_int (v : PyVal) : option Z :=
  match v with
  | VBool b => Some (Z.b2z b)
  | VInt z => Some z
  | _ => None
  end.

Definition as_num (v : PyVal) : option num :=
  match v with
  | VBool b => Some (NInt (Z.b2z b))
  | VInt z => Some (NInt z)
  | VFloat f => Some (NFloat f)
  | _ => None
  end.

(** Comparison of two numbers, exact also between an [int] and a float;
    [None] when a NaN is involved (every ordering test is then false). *)
Definition num_compare (x y : num) : option comparison :=
  match x, y with
  | NInt a, NInt b => Some (a ?= b)
  | NInt a, NFloat g => Z_compare_f64 a g
  | NFloat f, NInt b => option_map CompOpp (Z_compare_f64 b f)
  | NFloat f, NFloat g => f64_compare f g
  end.

Definition num_lt (x y : num) : bool :=
  match num_compare x y with Some Lt => true | _ => false end.
Definition num_gt (x y : num) : bool :=
  match num_compare x y with Some Gt => true | _ => false end.
Definition num_le (x y : num) : bool :=
  match num_compare x y with Some Lt | Some Eq => true | _ => false end.
Definition num_ge (x y : num) : bool :=
  match num_compare x y with Some Gt | Some Eq => true | _ => false end.
Definition num_eqb (x y : num) : bool :=
  match num_compare x y with Some Eq => true | _ => false end.

(** [x != 0] on a number (true for a NaN). *)
Definition num_nonzero (x : num) : bool := negb (num_eqb x (NInt 0)).

(** [a * b]: an [int] meeting a float is first converted to a float, which
    raises [OverflowError] beyond the float range. *)
Definition float_of_int (z : Z) : res float :=
  match f64_of_Z z with
  | S754_infinity _ => Raise OverflowError
  | f => Ok f
  end.

Definition num_mul (x y : num) : res num :=
  match x, y with
  | NInt a, NInt b => Ok (NInt (a * b))
  | NInt a, NFloat g => do f <- float_of_int a; Ok (NFloat (SFmul 53 1024 f g))
  | NFloat f, NInt b => do g <- float_of_int b; Ok (NFloat (SFmul 53 1024 f g))
  | NFloat f, NFloat g => Ok (NFloat (SFmul 53 1024 f g))
  end.

(** *** Arrays *)

Definition nd_size (a : ndarray) : nat := fold_right Nat.mul 1%nat (shape a).

(** [a.shape[k]] *)
Definition nd_shape_at (a : ndarray) (k : nat) : res nat :=
  of_option IndexError (nth_error (shape a) k).

(** [len(a)]: a zero-dimensional array has no length. *)
Definition nd_len (a : ndarray) : res nat :=
  match shape a with
  | [] => Raise TypeError
  | n :: _ => Ok n
  end.

(** The truth value of an array of truth values: only an array of exactly
    one element has one (NumPy 2.2 and later raises [ValueError] for an
    empty array as well). *)
Definition nd_truth (size : nat) (bits : list bool) : res bool :=
  match size, bits with
  | 1%nat, b :: _ => Ok b
  | _, _ => Raise ValueError
  end.

(** [a[i]] or [a[i, j]] with indices in range counted from the left: an
    element when every dimension is indexed, a sub-array otherwise. *)
Fixpoint nd_offset (sh : list nat) (idx : list nat) (dat : list num)
  : res (list nat * list num) :=
  match idx with
  | [] => Ok (sh, dat)
  | i :: idx' =>
      match sh with
      | [] => Raise IndexError
      | n :: sh' =>
          if (i <? n)%nat
          then let stride := fold_right Nat.mul 1%nat sh' in
               nd_offset sh' idx' (firstn stride (skipn (i * stride) dat))
          else Raise IndexError
      end
  end.

Definition nd_index (a : ndarray) (idx : list nat) : res ndarray :=
  do '(sh, dat) <- nd_offset (shape a) idx (data a);
  Ok {| dtype := dtype a; shape := sh; data := dat |}.

(** [a[...] != 0] used as a condition. *)
Definition nd_nonzero_truth (a : ndarray) : res bool :=
  nd_truth (nd_size a) (map num_nonzero (data a)).


(** *** Truth values, equality and hashing *)

(** [bool(v)], as [if v:] takes it. *)
Definition truthy (v : PyVal) : res bool :=
  match v with
  | VNone => Ok false
  | VBool b => Ok b
  | VInt z => Ok (negb (z =? 0))
  | VFloat f => Ok (num_nonzero (NFloat f))
  | VStr s => Ok (negb (String.eqb s ""))
  | VList l | VTuple l => Ok (match l with [] => false | _ => true end)
  | VArray a => nd_nonzero_truth a
  end.

(** [a == b] between values; two floats that are NaN are never equal. *)
Fixpoint py_eqb (a b : PyVal) {struct a} : bool :=
  let fix all_eqb (l1 l2 : list PyVal) {struct l1} : bool :=
    match l1, l2 with
    | [], [] => true
    | x :: r1, y :: r2 => py_eqb x y && all_eqb r1 r2
    | _, _ => false
    end in
  match a, b with
  | VNone, VNone => true
  | VStr s, VStr t => String.eqb s t
  | VList l1, VList l2 => all_eqb l1 l2
  | VTuple l1, VTuple l2 => all_eqb l1 l2
  | _, _ =>
      match as_num a, as_num b with
      | Some x, Some y => num_eqb x y
      | _, _ => false
      end
  end.

(** Lists and arrays cannot be hashed, a tuple only if its members can. *)
Fixpoint hashable (v : PyVal) : bool :=
  match v with
  | VList _ | VArray _ => false
  | VTuple l => forallb hashable l
  | _ => true
  end.

Fixpoint dedup (l : list PyVal) : list PyVal :=
  match l with
  | [] => []
  | x :: r => if existsb (py_eqb x) r then dedup r else x :: dedup r
  end.

(** [len(set(l))] *)
Definition set_len (l : list PyVal) : res nat :=
  if forallb hashable l then Ok (length (dedup l)) else Raise TypeError.

(** [v != s] used as a condition, for a string [s]: an array compares
    element by element (all different), other values as a whole. *)
Definition ne_str_truth (v : PyVal) (s : string) : res bool :=
  match v with
  | VStr t => Ok (negb (String.eqb t s))
  | VArray a => nd_truth (nd_size a) (map (fun _ => true) (data a))
  | _ => Ok true
  end.

(** [x > v] used as a condition, for a number [x]: numbers compare, an
    array compares element by element, anything else is a [TypeError]. *)
Definition num_gt_truth (x : num) (v : PyVal) : res bool :=
  match as_num v with
  | Some y => Ok (num_gt x y)
  | None =>
      match v with
      | VArray a => nd_truth (nd_size a) (map (num_gt x) (data a))
      | _ => Raise TypeError
      end
  end.

(** *** What the program takes from its environment

    The host platform, the random token of [uuid.uuid4().hex], NumPy's
    printers for whole arrays and for floats narrower or wider than 64
    bits, and the child process that [subprocess.Popen] starts: given the
    command line and the files on disk, its exit code and the files it
    leaves. *)
Record env : Type := {
  platform_system : string;
  module_dir : string;
  uuid4_hex : string;
  np_array_str : ndarray -> string;
  np_array_repr : ndarray -> string;
  np_float_str : string -> float -> string;
  run_process : string -> gmap string string -> Z * gmap string string
}.

(** *** [str] and [repr] *)

Definition hex_digit (n : nat) : ascii :=
  if (n <? 10)%nat then ascii_of_nat (48 + n) else ascii_of_nat (87 + n).

Definition repr_char (quote : ascii) (c : ascii) : list ascii :=
  let n := nat_of_ascii c in
  if Ascii.eqb c (chr 92) then [chr 92; chr 92]
  else if Ascii.eqb c quote then [chr 92; quote]
  else if (n =? 10)%nat then [chr 92; "n"%char]
  else if (n =? 13)%nat then [chr 92; "r"%char]
  else if (n =? 9)%nat then [chr 92; "t"%char]
  else if (n <? 32)%nat || (n =? 127)%nat
  then [chr 92; "x"%char; hex_digit (n / 16); hex_digit (n mod 16)]
  else [c].

(** [repr(s)] for a string: single quotes, unless the string holds a single
    quote and no double quote. *)
Definition repr_str (s : string) : string :=
  let quote := if contains squote s && negb (contains dquote s) then chr 34 else chr 39 in
  of_chars (quote :: flat_map (repr_char quote) (chars s) ++ [quote])%list.

Fixpoint py_repr (E : env) (v : PyVal) : string :=
  match v with
  | VNone => "None"
  | VBool b => if b then "True" else "False"
  | VInt z => str_of_Z z
  | VFloat f => repr_f64 f
  | VStr s => repr_str s
  | VList l => "[" ++ join ", " (map (py_repr E) l) ++ "]"
  | VTuple l =>
      match l with
      | [x] => "(" ++ py_repr E x ++ ",)"
      | _ => "(" ++ join ", " (map (py_repr E) l) ++ ")"
      end
  | VArray a => np_array_repr E a
  end.

(** [str(v)] *)
Definition py_str (E : env) (v : PyVal) : string :=
  match v with
  | VStr s => s
  | VArray a => np_array_str E a
  | _ => py_repr E v
  end.

(** [str(x)] for an element taken out of an array. *)
Definition np_scalar_str (E : env) (dt : string) (x : num) : string :=
  match x with
  | NInt z => str_of_Z z
  | NFloat f => if String.eqb dt "float64" then repr_f64 f else np_float_str E dt f
  end.

(** [str(a[idx])]: an element, or a sub-array when dimensions remain. *)
Definition np_item_str (E : env) (a : ndarray) (idx : list nat) : res string :=
  do c <- nd_index a idx;
  match shape c with
  | [] => Ok (np_scalar_str E (dtype a) (nth 0 (data c) (NInt 0)))
  | _ => Ok (np_array_str E c)
  end.

(** *** Dictionaries with string keys, in insertion order *)

Definition dict : Type := list (string * PyVal).

Fixpoint dict_get (k : string) (d : dict) : option PyVal :=
  match d with
  | [] => None
  | (k', v) :: r => if String.eqb k' k then Some v else dict_get k r
  end.

Definition dict_in (k : string) (d : dict) : bool :=
  match dict_get k d with Some _ => true | None => false end.

Definition dict_keys (d : dict) : list string := map fst d.

(** [d[k] = v]: an existing key keeps its place, a new key goes last. *)
Fixpoint dict_set (k : string) (v : PyVal) (d : dict) : dict :=
  match d with
  | [] => [(k, v)]
  | (k', v') :: r => if String.eqb k' k then (k, v) :: r else (k', v') :: dict_set k v r
  end.

(** [d[k]] *)
Definition dict_item (k : string) (d : dict) : res PyVal :=
  of_option KeyError (dict_get k d).

End Py.

(** ** The parameter validator: [LindbladMPOSolver.verify_parameters] *)

Module Validator.
Import PyStr PyNumber Py.

Definition _is_int (value : PyVal) : bool :=
  match value with
  | VBool _ | VInt _ => true
  | _ => false
  end.

Definition _is_float (value : PyVal) : bool :=
  match value with
  | VBool _ | VInt _ | VFloat _ => true
  | _ => false
  end.

(** The number of qubits; -1 when ['N'] is absent or not an [int]. *)
Definition _get_number_of_qubits (parameters : dict) : Z :=
  match dict_get "N" parameters with
  | Some v => match as_int v with
              | Some n => n
              | None => -1
              end
  | None => -1
  end.

(** The operand of an arithmetic comparison ([TypeError] if not a number). *)
Definition num_of (v : PyVal) : res num := of_option TypeError (as_num v).

(** [v <= 0], [v < 0] *)
Definition le0 (v : PyVal) : res bool := do x <- num_of v; Ok (num_le x (NInt 0)).
Definition lt0 (v : PyVal) : res bool := do x <- num_of v; Ok (num_lt x (NInt 0)).

(** The empty string is a place holder that no rule looks at. *)
Definition is_placeholder (v : PyVal) : bool :=
  match v with
  | VStr s => String.eqb "" s
  | _ => false
  end.

Definition check_N (key : string) (v : PyVal) : res string :=
  if negb (_is_int v) then Ok ("Error 120: " ++ key ++ " should be an integer" ++ nl)
  else do neg <- le0 v;
       if neg then Ok ("Error 130: " ++ key ++ " should be bigger/equal to 1 (integer)" ++ nl)
       else Ok "".

Definition check_time (parameters : dict) (key : string) (v : PyVal) : res string :=
  if negb (_is_float v) then Ok ("Error 140: " ++ key ++ " is not a float" ++ nl)
  else
    do c150 <- (if negb (String.eqb key "t_init") then le0 v else Ok false);
    if c150 then Ok ("Error 150: " ++ key ++ " must be larger than 0" ++ nl)
    else
      do c151 <- (if String.eqb key "t_init"
                  then do x <- num_of v;
                       do t_final <- dict_item "t_final" parameters;
                       num_gt_truth x t_final
                  else Ok false);
      if c151 then Ok ("Error 151: " ++ key ++ " must be equal or smaller than t_final" ++ nl)
      else Ok "".

Definition check_lattice (key : string) (v : PyVal) : res string :=
  if negb (_is_int v) then Ok ("Error 160: " ++ key ++ " should be an integer" ++ nl)
  else do neg <- lt0 v;
       if neg then Ok ("Error 170: " ++ key ++ " should be equal or larger than 1 (integer)" ++ nl)
       else Ok "".

Definition check_step (key : string) (v : PyVal) : res string :=
  if negb (_is_int v) then Ok ("Error 180: " ++ key ++ " should be an integer" ++ nl)
  else do neg <- lt0 v;
       if neg then Ok ("Error 190: " ++ key ++ " should be bigger/equal to 0 (integer)" ++ nl)
       else Ok "".

Definition names_number (a : ndarray) : bool :=
  contains "int" (dtype a) || contains "float" (dtype a).

Definition not_defined_properly : string :=
  "could not be validated because 'N' (or alternatively l_x, l_y) are not defined properly" ++ nl.

Definition not_a_vector : string :=
  "is not a float / N-length list / numpy array (of floats)" ++ nl.

(** [h_x], [h_y], [h_z], [g_0], [g_1], [g_2] *)
Definition check_site_vector (parameters : dict) (key : string) (v : PyVal) : res string :=
  if _is_float v then Ok ""
  else
    let number_of_qubits := _get_number_of_qubits parameters in
    if number_of_qubits =? -1
    then Ok ("Error 200: " ++ key ++ " " ++ not_defined_properly ++ " ")
    else
      match v with
      | VList l =>
          if negb (Z.of_nat (length l) =? number_of_qubits)
          then Ok ("Error 210: " ++ key ++ " " ++ not_a_vector)
          else if forallb _is_float l then Ok ""
          else Ok ("Error 220: " ++ key ++ not_a_vector ++ " ")
      | VArray a =>
          if negb (names_number a)
          then Ok ("Error 230: " ++ key ++ " " ++ not_a_vector)
          else if (nd_size a =? 1)%nat then Ok ""
          else
            do n0 <- nd_shape_at a 0;
            if negb (Z.of_nat n0 =? number_of_qubits) || negb (n0 =? nd_size a)%nat
            then Ok ("Error 240: " ++ key ++ " " ++ not_a_vector)
            else Ok ""
      | _ => Ok ("Error 250: " ++ key ++ " " ++ not_a_vector)
      end.

Definition not_a_matrix (what : string) : string :=
  "should be a constant, or a square matrix (nested lists/np.array) " ++ what ++ nl.

Definition of_qubits2 : string := "in the size of number_of_qubits^2 of floats".

(** The rows of a nested-list coupling matrix, up to the first bad one. *)
Fixpoint check_rows (key : string) (number_of_qubits : Z) (rows : list PyVal) : string :=
  match rows with
  | [] => ""
  | lst :: rest =>
      match lst with
      | VList vals =>
          if negb (Z.of_nat (length vals) =? number_of_qubits)
          then "Error 290: " ++ key ++ not_a_matrix "with N^2 floats"
          else if forallb _is_float vals then check_rows key number_of_qubits rest
          else "Error 300: " ++ key ++ not_a_matrix of_qubits2
      | _ => "Error 280: " ++ key ++ not_a_matrix "of floats with a size N^2" ++ " "
      end
  end.

(** [J], [J_z] *)
Definition check_coupling (parameters : dict) (key : string) (v : PyVal) : res string :=
  if _is_float v then Ok ""
  else
    let number_of_qubits := _get_number_of_qubits parameters in
    if number_of_qubits =? -1
    then Ok ("Error 260: " ++ key ++ " " ++ not_defined_properly)
    else
      match v with
      | VList l =>
          if negb (Z.of_nat (length l) =? number_of_qubits)
          then Ok ("Error 270: " ++ key ++ " " ++ not_a_matrix "of N^2 floats" ++ " ")
          else Ok (check_rows key number_of_qubits l)
      | VArray a =>
          if negb (names_number a)
          then Ok ("Error 310: " ++ key ++ not_a_matrix of_qubits2)
          else if (nd_size a =? 1)%nat then Ok ""
          else
            do n0 <- nd_shape_at a 0;
            if negb (Z.of_nat n0 =? number_of_qubits)
            then Ok ("Error 320: " ++ key ++ not_a_matrix of_qubits2)
            else if negb (n0 ^ 2 =? nd_size a)%nat
            then Ok ("Error 330: " ++ key ++ not_a_matrix of_qubits2)
            else Ok ""
      | _ => Ok ("Error 340: " ++ key
                 ++ " should be a constant, or a square matrix (nested list/np.array) "
                 ++ of_qubits2 ++ nl)
      end.

Definition allowed_init : list string := ["+x"; "-x"; "+y"; "-y"; "+z"; "-z"].

(** Every member of [init_pauli_state] is looked at; each bad one adds a
    line. *)
Fixpoint check_pauli_members (key : string) (init_list : list PyVal) : string :=
  match init_list with
  | [] => ""
  | s_init :: rest =>
      match s_init with
      | VStr s =>
          if existsb (String.eqb (lower s)) allowed_init then ""
          else "Error 370: " ++ key ++ " can only be one of: +x,-x,+y,-y,+z, z" ++ nl
      | _ => "Error 360: each member of " ++ key ++ " must be a string" ++ nl
      end ++ check_pauli_members key rest
  end.

Definition check_init_pauli_state (key : string) (v : PyVal) : res string :=
  match v with
  | VStr _ => Ok (check_pauli_members key [v])
  | VList l => Ok (check_pauli_members key l)
  | _ => Ok ("Error 350: " ++ key ++ " must not be a string or a list of strings" ++ nl)
  end.

Definition check_bool (key : string) (v : PyVal) : res string :=
  if negb (is_bool v) then Ok ("Error 390: " ++ key ++ " should be a boolean True or False" ++ nl)
  else Ok "".

Definition check_trotter_order (key : string) (v : PyVal) : res string :=
  match as_int v with
  | None => Ok ("Error 400: " ++ key ++ " should be 2, 3 or 4" ++ nl)
  | Some n =>
      if negb (n =? 2) && negb (n =? 3) && negb (n =? 4)
      then Ok ("Error 401: " ++ key ++ " should be 2, 3 or 4" ++ nl)
      else Ok ""
  end.

Definition check_max_dim_rho (key : string) (v : PyVal) : res string :=
  do bad <- (if negb (_is_int v) then Ok true else lt0 v);
  if bad then Ok ("Error 410: " ++ key ++ " must be a non-negative integer" ++ nl)
  else Ok "".

Definition check_cut_off (key : string) (v : PyVal) : res string :=
  if negb (_is_float v) then Ok ("Error 420: " ++ key ++ " is not a float" ++ nl)
  else Ok "".

Definition check_metadata (key : string) (v : PyVal) : res string :=
  match v with
  | VStr s =>
      if contains nl s
      then Ok ("Error 423: The metadata string cannot contain the new line character code ('\n'). Please reformat the string" ++ nl)
      else Ok ""
  | _ => Ok ("Error 422: " ++ key ++ " is not a string" ++ nl)
  end.

Definition check_prefix (key : string) (v : PyVal) : res string :=
  if negb (is_str v) then Ok ("Error 425: " ++ key ++ " is not a string" ++ nl)
  else Ok "".

Definition only_xyz : string := " only takes x,y,z (or a subset)" ++ nl.

(** The loop over [1q_components]: the counts of x, y and z, or the line of
    the first bad member. *)
Fixpoint count_1q (key : string) (l : list PyVal) (x_c y_c z_c : Z) : string + Z * Z * Z :=
  match l with
  | [] => inr (x_c, y_c, z_c)
  | val :: rest =>
      match val with
      | VStr s =>
          let val := lower s in
          if String.eqb val "x" then count_1q key rest (x_c + 1) y_c z_c
          else if String.eqb val "y" then count_1q key rest x_c (y_c + 1) z_c
          else if String.eqb val "z" then count_1q key rest x_c y_c (z_c + 1)
          else inl ("Error 450: " ++ key ++ only_xyz)
      | _ => inl ("Error 441: " ++ key ++ only_xyz)
      end
  end.

Definition check_1q_components (key : string) (v : PyVal) : res string :=
  match v with
  | VList l =>
      if (3 <? length l)%nat
      then Ok ("Error 440: " ++ key ++ " should be a list of size 1,2,3 with x,y,z" ++ nl)
      else
        match count_1q key l 0 0 0 with
        | inl msg => Ok msg
        | inr (x_c, y_c, z_c) =>
            if (x_c >? 1) || (y_c >? 1) || (z_c >? 1)
            then Ok ("Error 460: " ++ key ++ only_xyz)
            else Ok ""
        end
  | _ => Ok ("Error 430: " ++ key ++ " should be a list of size 1,2,3 with x,y,z" ++ nl)
  end.

Definition integer_list : string := " should be an integer list (1,2,3,4..)" ++ nl.

(** The loop over [1q_indices], up to the first bad element. *)
Fixpoint check_sites (key : string) (number_of_qubits : Z) (l : list PyVal) : string :=
  match l with
  | [] => ""
  | element :: rest =>
      match as_int element with
      | None => "Error 490: " ++ key ++ integer_list
      | Some e =>
          if e >=? number_of_qubits
          then "Error 500: " ++ key ++ " should be an integer list listing qubits, therefore integers in the range 0 to N-1" ++ nl
          else check_sites key number_of_qubits rest
      end
  end.

Definition check_1q_indices (parameters : dict) (key : string) (v : PyVal) : res string :=
  do given <- ne_str_truth v "";
  if negb given then Ok ""
  else
    match v with
    | VList l =>
        let number_of_qubits := _get_number_of_qubits parameters in
        if number_of_qubits =? -1
        then Ok ("Error 480: " ++ key ++ not_defined_properly ++ " ")
        else
          let msg := check_sites key number_of_qubits l in
          if negb (String.eqb msg "") then Ok msg
          else if Z.of_nat (length l) >? number_of_qubits
          then Ok ("Error 510: " ++ key ++ " 's length should be equal/smaller than the amount of qubits" ++ nl ++ " ")
          else
            do n <- set_len l;
            if negb (n =? length l)%nat
            then Ok ("Error 520: " ++ key ++ " 's List does not contain unique elements")
            else Ok ""
    | _ => Ok ("Error 470: " ++ key ++ integer_list)
    end.

Definition error_550 (key : string) : string :=
  "Error 550: " ++ key ++ " only accepts string from xx, yy, zz, xy, xz, yz (or a permutation thereof)" ++ nl.

(** [check_me[i] += 1] *)
Definition bump (i : nat) (check_me : list Z) : list Z :=
  match check_me !! i with
  | Some c => <[i := c + 1]> check_me
  | None => check_me
  end.

(** The loop over [2q_components]: [str.lower] raises [TypeError] on a
    member that is not a string. *)
Fixpoint count_2q (key : string) (l : list PyVal) (check_me : list Z) : res (string + list Z) :=
  match l with
  | [] => Ok (inr check_me)
  | val :: rest =>
      match val with
      | VStr s =>
          let val := lower s in
          if String.eqb val "xx" then count_2q key rest (bump 0 check_me)
          else if String.eqb val "yy" then count_2q key rest (bump 1 check_me)
          else if String.eqb val "zz" then count_2q key rest (bump 2 check_me)
          else if String.eqb val "xy" || String.eqb val "yx" then count_2q key rest (bump 3 check_me)
          else if String.eqb val "xz" || String.eqb val "zx" then count_2q key rest (bump 4 check_me)
          else if String.eqb val "yz" || String.eqb val "zy" then count_2q key rest (bump 5 check_me)
          else Ok (inl (error_550 key))
      | _ => Raise TypeError
      end
  end.

Definition check_2q_components (key : string) (v : PyVal) : res string :=
  match v with
  | VList l =>
      if (6 <? length l)%nat
      then Ok ("Error 540: " ++ key ++ " only receives xx,yy,zz,xy,xz,yz (or a subset)" ++ nl)
      else
        do counted <- count_2q key l [0; 0; 0; 0; 0; 0];
        match counted with
        | inl msg => Ok msg
        | inr check_me =>
            if existsb (fun check_val => check_val >? 1) check_me
            then Ok (error_550 key)
            else Ok ""
        end
  | _ => Ok ("Error 530: " ++ key ++ "only receives xx,yy,zz,xy,xz,yz (or a subset) as a strings list" ++ nl)
  end.

Definition tuples_of_2 : string := " should be an list of tuples of size 2, containing integers".

(** [tup[i]] *)
Definition tuple_item (items : list PyVal) (i : nat) : res PyVal :=
  of_option IndexError (items !! i).

(** The loop over [2q_indices] or [init_graph_state], up to the first bad
    member; [tup[0]] and [tup[1]] are read before the length is looked at. *)
Fixpoint check_pairs (key : string) (number_of_qubits : Z) (l : list PyVal) : res string :=
  match l with
  | [] => Ok ""
  | tup :: rest =>
      match tup with
      | VTuple items =>
          do t0 <- tuple_item items 0;
          do bad <- (if negb (_is_int t0) then Ok true
                     else do t1 <- tuple_item items 1;
                          Ok (negb (_is_int t1) || negb (length items =? 2)%nat));
          if bad then Ok ("Error 600: " ++ key ++ tuples_of_2 ++ nl ++ " ")
          else
            do t1 <- tuple_item items 1;
            do x0 <- num_of t0;
            do x1 <- num_of t1;
            if num_ge x0 (NInt number_of_qubits) || num_ge x1 (NInt number_of_qubits)
            then Ok ("Error 610: " ++ key ++ tuples_of_2
                     ++ " equal/smaller than the total number of qubits" ++ nl ++ " ")
            else check_pairs key number_of_qubits rest
      | _ => Ok ("Error 590: " ++ key ++ tuples_of_2 ++ nl ++ " ")
      end
  end.

Definition check_2q_indices (parameters : dict) (key : string) (v : PyVal) : res string :=
  match v with
  | VList l =>
      let number_of_qubits := _get_number_of_qubits parameters in
      if number_of_qubits =? -1
      then Ok ("Error 580: " ++ key ++ " " ++ not_defined_properly)
      else
        do msg <- check_pairs key number_of_qubits l;
        if negb (String.eqb msg "") then Ok msg
        else if Z.of_nat (length l) >? number_of_qubits ^ 2
        then Ok ("Error 620: " ++ key ++ " 's length should be smaller than N^2" ++ nl)
        else
          do n <- set_len l;
          if negb (n =? length l)%nat
          then Ok ("Error 630: " ++ key ++ " 's List does not contains all unique elements")
          else Ok ""
  | _ => Ok ("Error 570: " ++ key ++ tuples_of_2 ++ nl)
  end.

Definition check_unknown (ignore_params : option (list string)) (key : string) : res string :=
  match ignore_params with
  | Some ignored =>
      if existsb (String.eqb key) ignored then Ok ""
      else Ok ("Error: unknown parameter key passed: " ++ key ++ nl)
  | None => Ok ("Error: unknown parameter key passed: " ++ key ++ nl)
  end.

Definition key_in (key : string) (names : list string) : bool :=
  existsb (String.eqb key) names.

(** One turn of the loop over the keys: the text it adds to [check_msg]. *)
Definition check_key (parameters : dict) (ignore_params : option (list string))
    (key : string) : res string :=
  do v <- dict_item key parameters;
  if is_placeholder v then Ok ""
  else if String.eqb key "N" then check_N key v
  else if key_in key ["t_init"; "t_final"; "tau"] then check_time parameters key v
  else if key_in key ["l_x"; "l_y"] then check_lattice key v
  else if key_in key ["output_step"; "force_rho_hermitian_step"] then check_step key v
  else if key_in key ["h_x"; "h_y"; "h_z"; "g_0"; "g_1"; "g_2"]
  then check_site_vector parameters key v
  else if key_in key ["J_z"; "J"] then check_coupling parameters key v
  else if String.eqb key "init_pauli_state" then check_init_pauli_state key v
  else if key_in key ["b_periodic_x"; "b_periodic_y"; "b_force_rho_trace"; "b_unique_id";
                      "b_save_final_state"; "b_initial_rho_compression"]
  then check_bool key v
  else if String.eqb key "trotter_order" then check_trotter_order key v
  else if String.eqb key "max_dim_rho" then check_max_dim_rho key v
  else if key_in key ["cut_off"; "cut_off_rho"] then check_cut_off key v
  else if String.eqb key "metadata" then check_metadata key v
  else if key_in key ["load_files_prefix"; "output_files_prefix"] then check_prefix key v
  else if String.eqb key "1q_components" then check_1q_components key v
  else if String.eqb key "1q_indices" then check_1q_indices parameters key v
  else if String.eqb key "2q_components" then check_2q_components key v
  else if key_in key ["2q_indices"; "init_graph_state"] then check_2q_indices parameters key v
  else check_unknown ignore_params key.

(** The loop [for key in dict.keys(parameters)]. *)
Fixpoint check_keys (parameters : dict) (ignore_params : option (list string))
    (keys : list string) (check_msg : string) : res string :=
  match keys with
  | [] => Ok check_msg
  | key :: rest =>
      do msg <- check_key parameters ignore_params key;
      check_keys parameters ignore_params rest (check_msg ++ msg)
  end.

(** The checks across parameters that close [verify_parameters]. *)
Definition cross_checks (parameters : dict) : res string :=
  if dict_in "t_final" parameters && dict_in "tau" parameters
  then
    do tau <- dict_item "tau" parameters;
    do t_final <- dict_item "t_final" parameters;
    if _is_float tau && _is_float t_final
    then
      do x_tau <- num_of tau;
      do x_final <- num_of t_final;
      if num_gt x_tau (NInt 0) && num_gt x_final (NInt 0)
      then
        if num_gt x_tau x_final
        then Ok ("Error 640: t_final (total time) is smaller than tau (time step for time evolution)" ++ nl ++ " ")
        else
          match dict_get "output_step" parameters with
          | Some output_step =>
              match as_int output_step with
              | Some k =>
                  if k >? 0
                  then do span <- num_mul (NInt k) x_tau;
                       if num_gt span x_final
                       then Ok ("Error 650: output_step multiplied by tau is larger than t_final (output_step in units of tau, times tau is larger than the simulation time)" ++ nl ++ " ")
                       else Ok ""
                  else Ok ""
              | None => Ok ""
              end
          | None => Ok ""
          end
      else Ok ""
    else Ok ""
  else Ok "".

Definition missing_required (parameters : dict) : bool :=
  negb (dict_in "N" parameters) || negb (dict_in "t_final" parameters)
  || negb (dict_in "tau" parameters).

(** [verify_parameters(parameters, ignore_params)]: the diagnostic text,
    empty when every check passes. *)
Definition verify_parameters (parameters : option dict)
    (ignore_params : option (list string)) : res string :=
  match parameters with
  | None => Ok ("Error 100: The `parameters` dictionary must be assigned" ++ nl)
  | Some parameters =>
      if missing_required parameters
      then Ok ("Error 110: N, t_final and tau must be defined as they do not have default values" ++ nl)
      else
        do check_msg <- check_keys parameters ignore_params (dict_keys parameters) "";
        do more <- cross_checks parameters;
        Ok (check_msg ++ more)
  end.

End Validator.

(** ** The solver object: [build], [execute], [solve], [load_output] *)

Module Solver.
Import PyStr PyNumber Py Validator.

(** One output table: (observable name, site indices) to the times and the
    values read for it, in the order the keys first appear. *)
Definition obs_key : Type := string * list Z.
Definition obs_map : Type := list (obs_key * (list float * list float)).

(** The fields of a [LindbladMPOSolver] instance.  [parameters] is the
    caller's dictionary itself, not a copy: what [build] stores into it is
    what the caller sees afterwards. *)
Record solver : Type := {
  parameters : option dict;
  s_input_file : string;
  s_output_path : string;
  s_cygwin_path : string;
  s_solver_path : string;
  s_id_suffix : string;
  result : list (string * obs_map)
}.

(** The world outside the object: files by path, and the lines printed. *)
Record world : Type := {
  files : gmap string string;
  console : list string
}.

Definition print (line : string) (w : world) : world :=
  {| files := files w; console := console w ++ [line] |}.

(** Methods change the instance and the world, and may raise. *)
Definition M (A : Type) : Type := solver -> world -> res A * solver * world.

Definition st_ret {A} (a : A) : M A := fun s w => (Ok a, s, w).
Definition st_raise {A} (e : exn) : M A := fun s w => (Raise e, s, w).
Definition st_lift {A} (r : res A) : M A := fun s w => (r, s, w).
Definition st_bind {A B} (c : M A) (k : A -> M B) : M B :=
  fun s w =>
    match c s w with
    | (Ok a, s', w') => k a s' w'
    | (Raise e, s', w') => (Raise e, s', w')
    end.

Notation "'run' x <- c ; k" := (st_bind c (fun x => k))
  (at level 10, x name, c at level 100, k at level 200).
Notation "'run' ' p <- c ; k" := (st_bind c (fun x => match x with p => k end))
  (at level 10, p pattern, c at level 100, k at level 200).

Definition with_parameters (p : option dict) (s : solver) : solver :=
  {| parameters := p; s_input_file := s_input_file s;
     s_output_path := s_output_path s; s_cygwin_path := s_cygwin_path s;
     s_solver_path := s_solver_path s; s_id_suffix := s_id_suffix s;
     result := result s |}.

Definition with_paths (input_file output_path id_suffix : string) (s : solver) : solver :=
  {| parameters := parameters s; s_input_file := input_file;
     s_output_path := output_path; s_cygwin_path := s_cygwin_path s;
     s_solver_path := s_solver_path s; s_id_suffix := id_suffix;
     result := result s |}.

Definition with_result (r : list (string * obs_map)) (s : solver) : solver :=
  {| parameters := parameters s; s_input_file := s_input_file s;
     s_output_path := s_output_path s; s_cygwin_path := s_cygwin_path s;
     s_solver_path := s_solver_path s; s_id_suffix := s_id_suffix s;
     result := r |}.

(** [open(path, "w")], the writes and [close()]: the file holds [text].
    Opening the file is taken to succeed (the directory exists and can be
    written to). *)
Definition write_file (path text : string) (w : world) : world :=
  {| files := <[path := text]> (files w); console := console w |}.

Definition st_print (line : string) : M unit := fun s w => (Ok tt, s, print line w).
Definition get_parameters : M (option dict) := fun s w => (Ok (parameters s), s, w).
Definition set_parameters (p : option dict) : M unit :=
  fun s w => (Ok tt, with_parameters p s, w).
Definition set_paths (input_file output_path id_suffix : string) : M unit :=
  fun s w => (Ok tt, with_paths input_file output_path id_suffix s, w).
Definition set_result (r : list (string * obs_map)) : M unit :=
  fun s w => (Ok tt, with_result r s, w).
Definition st_write_file (path text : string) : M unit :=
  fun s w => (Ok tt, s, write_file path text w).

Definition DEFAULT_EXECUTABLE_PATH : string := "/../bin/lindbladmpo".
Definition DEFAULT_CYGWIN_PATH : string := "C:/cygwin64/bin/bash.exe".

Definition process_default_paths (E : env) (s_cygwin_path s_solver_path : option string)
  : string * string :=
  match s_cygwin_path, s_solver_path with
  | Some c, Some s => (c, s)
  | _, _ =>
      let s_solver_path1 := module_dir E in
      let s_system := lower (platform_system E) in
      let '(s_cygwin_path1, s_solver_path1) :=
        if String.eqb s_system "windows"
        then (DEFAULT_CYGWIN_PATH,
              "/cygdrive/"
              ++ replace_char (chr 92) "/" (replace_char ":"%char "" s_solver_path1)
              ++ DEFAULT_EXECUTABLE_PATH ++ ".exe")
        else ("", s_solver_path1 ++ DEFAULT_EXECUTABLE_PATH) in
      (default s_cygwin_path1 s_cygwin_path, default s_solver_path1 s_solver_path)
  end.

(** [LindbladMPOSolver(parameters, s_cygwin_path, s_solver_path)] *)
Definition __init__ (E : env) (parameters : option dict)
    (s_cygwin_path s_solver_path : option string) : solver :=
  let paths := process_default_paths E s_cygwin_path s_solver_path in
  {| parameters := parameters; s_input_file := ""; s_output_path := "";
     s_cygwin_path := fst paths; s_solver_path := snd paths; s_id_suffix := "";
     result := [] |}.

(** *** [build]: the path of the input file *)

(** [parameters.get("output_files_prefix", "")], with ["lindblad"] added
    to an empty prefix or one that ends a directory.  The validator has let
    only a string through (Error 425). *)
Definition output_prefix (p : dict) : res string :=
  match default (VStr "") (dict_get "output_files_prefix" p) with
  | VStr s =>
      if String.eqb s ""
         || match last_char s with
            | Some c => mem_char c ("/." ++ backslash)
            | None => false
            end
      then Ok (s ++ "lindblad")
      else Ok s
  | _ => Raise TypeError
  end.

(** ['.' + s_uuid] when [s_uuid != ""] *)
Definition id_suffix (s_uuid : PyVal) : res string :=
  do given <- ne_str_truth s_uuid "";
  if given
  then match s_uuid with
       | VStr u => Ok ("." ++ u)
       | _ => Raise TypeError
       end
  else Ok "".

(** *** [build]: the bond indices of the coupling matrices *)

(** [a[i, j] != 0] as a condition *)
Definition cell_nonzero (a : ndarray) (i j : nat) : res bool :=
  do c <- nd_index a [i; j];
  nd_nonzero_truth c.

Definition bonds : Type := list Z * list Z.

Definition add_bond (i j : nat) (acc : bonds) : bonds :=
  (fst acc ++ [Z.of_nat i + 1], snd acc ++ [Z.of_nat j + 1])%list.

(** The inner loop [for j in range(shape[1])] *)
Fixpoint scan_row (test : nat -> nat -> res bool) (i : nat) (js : list nat) (acc : bonds)
  : res bonds :=
  match js with
  | [] => Ok acc
  | j :: rest =>
      do hit <- test i j;
      scan_row test i rest (if hit then add_bond i j acc else acc)
  end.

(** The outer loop [for i in range(shape[0])] *)
Fixpoint scan_rows (a : ndarray) (test : nat -> nat -> res bool) (rows : list nat)
    (acc : bonds) : res bonds :=
  match rows with
  | [] => Ok acc
  | i :: rest =>
      do n1 <- nd_shape_at a 1;
      do acc' <- scan_row test i (seq 0 n1) acc;
      scan_rows a test rest acc'
  end.

Definition scan (a : ndarray) (test : nat -> nat -> res bool) : res bonds :=
  do n0 <- nd_shape_at a 0;
  scan_rows a test (seq 0 n0) ([], []).

(** [parameters[name]] when it is there and [type(...) == np.ndarray] *)
Definition interaction (p : dict) (name : string) : option ndarray :=
  match dict_get name p with
  | Some (VArray a) => Some a
  | _ => None
  end.

Definition shape_eqb (a b : ndarray) : bool :=
  bool_decide (shape a = shape b).

(** [b_bond_indices], [first_bond_indices], [second_bond_indices] *)
Definition bond_indices (p : dict) : res (bool * bonds) :=
  match interaction p "J", interaction p "J_z" with
  | Some J, Some J_z =>
      if shape_eqb J J_z
      then do b <- scan J (fun i j =>
                             do hit <- cell_nonzero J i j;
                             if hit then Ok true else cell_nonzero J_z i j);
           Ok (true, b)
      else Raise (Exception "J and J_z are not of the same size.")
  | Some a, None | None, Some a =>
      do b <- scan a (cell_nonzero a);
      Ok (true, b)
  | None, None => Ok (false, ([], []))
  end.

(** *** [build]: the text of the input file *)

(** What has been written to the file so far, and how the writing went on:
    an exception keeps the text written before it. *)
Definition out (A : Type) : Type := string * res A.

Definition emit (s : string) : out unit := (s, Ok tt).
Definition out_lift {A} (r : res A) : out A := ("", r).
Definition out_bind {A B} (c : out A) (k : A -> out B) : out B :=
  match c with
  | (s, Ok a) => let '(s', r) := k a in (s ++ s', r)
  | (s, Raise e) => (s, Raise e)
  end.

Notation "'wr' x <- c ; k" := (out_bind c (fun x => k))
  (at level 10, x name, c at level 100, k at level 200).

(** [if not_first_value: write(","); write(item)] for each item *)
Fixpoint write_sep_before {A} (item : A -> res string) (l : list A) (not_first_value : bool)
  : out unit :=
  match l with
  | [] => emit ""
  | x :: rest =>
      wr _ <- emit (if not_first_value then "," else "");
      wr s <- out_lift (item x);
      wr _ <- emit s;
      write_sep_before item rest true
  end.

(** [write(item); if i != n - 1: write(",")] for each item *)
Fixpoint write_sep_after {A} (item : A -> res string) (l : list A) : out unit :=
  match l with
  | [] => emit ""
  | x :: rest =>
      wr s <- out_lift (item x);
      wr _ <- emit s;
      wr _ <- emit (match rest with [] => "" | _ => "," end);
      write_sep_after item rest
  end.

(** [len(v)], [iter(v)], [v[i]] and [v + 1] on the values the list-like
    keys hold; an array never comes here, the writer has taken the array
    branch before. *)
Definition py_len (v : PyVal) : res nat :=
  match v with
  | VStr s => Ok (String.length s)
  | VList l | VTuple l => Ok (length l)
  | _ => Raise TypeError
  end.

Definition py_iter (v : PyVal) : res (list PyVal) :=
  match v with
  | VStr s => Ok (map (fun c => VStr (String c "")) (chars s))
  | VList l | VTuple l => Ok l
  | _ => Raise TypeError
  end.

Definition py_item (v : PyVal) (i : nat) : res PyVal :=
  match v with
  | VStr s => of_option IndexError (option_map (fun c => VStr (String c "")) (chars s !! i))
  | VList l | VTuple l => of_option IndexError (l !! i)
  | _ => Raise TypeError
  end.

Definition py_add1 (v : PyVal) : res PyVal :=
  match v with
  | VBool b => Ok (VInt (Z.b2z b + 1))
  | VInt z => Ok (VInt (z + 1))
  | VFloat f => Ok (VFloat (SFadd 53 1024 f (f64_of_Z 1)))
  | _ => Raise TypeError
  end.

(** [str(site + 1)] *)
Definition site_text (E : env) (site : PyVal) : res string :=
  do s1 <- py_add1 site;
  Ok (py_str E s1).

(** [str(t[0] + 1) + ',' + str(t[1] + 1)] *)
Definition pair_text (E : env) (t : PyVal) : res string :=
  do a <- py_item t 0;
  do sa <- site_text E a;
  do b <- py_item t 1;
  do sb <- site_text E b;
  Ok (sa ++ "," ++ sb).

(** One turn of the loop [for key in parameters.keys()] of [build]. *)
Definition write_key (E : env) (p : dict) (s_output_path : string) (b : bonds)
    (key : string) : out unit :=
  wr v <- out_lift (dict_item key p);
  if String.eqb key "b_unique_id" then emit ""
  else if String.eqb key "output_files_prefix"
  then emit (key ++ " = " ++ s_output_path ++ nl)
  else
    wr coupling <- out_lift
      (if String.eqb key "J" || String.eqb key "J_z"
       then match v with
            | VArray a => do n <- nd_len a; Ok (1 <? n)%nat
            | _ => Ok false
            end
       else Ok false);
    match v with
    | VArray a =>
        if coupling
        then
          wr _ <- emit (key ++ " = ");
          wr _ <- write_sep_before
                    (fun '(f, s) => np_item_str E a [Z.to_nat (f - 1); Z.to_nat (s - 1)])
                    (combine (fst b) (snd b)) false;
          emit nl
        else
          wr _ <- emit (key ++ " = ");
          wr n0 <- out_lift (nd_shape_at a 0);
          wr _ <- write_sep_after (fun i => np_item_str E a [i]) (seq 0 n0);
          emit nl
    | _ =>
        if key_in key ["init_pauli_state"; "1q_components"; "2q_components"]
        then
          let val_list := if is_str v then VList [v] else v in
          wr _ <- out_lift (py_len val_list);
          wr _ <- emit (key ++ " = ");
          wr items <- out_lift (py_iter val_list);
          wr _ <- write_sep_after (fun op => Ok (strip_chars squote (py_str E op))) items;
          emit nl
        else if String.eqb key "1q_indices"
        then
          wr _ <- out_lift (py_len v);
          wr _ <- emit (key ++ " = ");
          wr items <- out_lift (py_iter v);
          wr _ <- write_sep_after (site_text E) items;
          emit nl
        else if key_in key ["2q_indices"; "init_graph_state"]
        then
          wr _ <- emit (key ++ " = ");
          wr _ <- out_lift (py_len v);
          wr items <- out_lift (py_iter v);
          wr _ <- write_sep_after (pair_text E) items;
          emit nl
        else emit (key ++ " = " ++ strip_chars "[]" (py_str E v) ++ nl)
    end.

Fixpoint write_keys (E : env) (p : dict) (s_output_path : string) (b : bonds)
    (keys : list string) : out unit :=
  match keys with
  | [] => emit ""
  | key :: rest =>
      wr _ <- write_key E p s_output_path b key;
      write_keys E p s_output_path b rest
  end.

(** [str(indices).strip("[]").replace(' ', '')] *)
Definition bond_text (E : env) (indices : list Z) : string :=
  replace_char " "%char "" (strip_chars "[]" (py_str E (VList (map VInt indices)))).

(** Everything [build] writes between [open] and [close]. *)
Definition write_input (E : env) (p : dict) (s_output_path : string)
    (b_bond_indices : bool) (b : bonds) : out unit :=
  wr _ <- write_keys E p s_output_path b (dict_keys p);
  if b_bond_indices
  then
    wr _ <- emit ("first_bond_indices = " ++ bond_text E (fst b) ++ nl);
    emit ("second_bond_indices = " ++ bond_text E (snd b) ++ nl)
  else emit "".

(** *** [build] *)

(** The validation [build] runs, which a derived class may replace. *)
Definition _virtual_verify_parameters (self : solver) (ignore_params : option (list string))
  : res string :=
  verify_parameters (parameters self) ignore_params.

Definition build (E : env) (parameters_arg : option dict) : M unit :=
  run _ <- match parameters_arg with
           | Some _ => set_parameters parameters_arg
           | None => st_ret tt
           end;
  run parameters <- get_parameters;
  run check_params <- (fun self w => (_virtual_verify_parameters self None, self, w));
  if negb (String.eqb check_params "") then st_raise (Exception check_params)
  else
    run p <- st_lift (of_option TypeError parameters);
    run s_output_path <- st_lift (output_prefix p);
    run b_uuid <- st_lift (truthy (default (VBool false) (dict_get "b_unique_id" p)));
    run s_uuid <-
      (if b_uuid : bool
       then
         let s_uuid := uuid4_hex E in
         run _ <- st_print ("Generating a unique id for this simulation: " ++ s_uuid);
         run _ <- set_parameters (Some (dict_set "unique_id" (VStr s_uuid) p));
         st_ret (VStr s_uuid)
       else st_ret (default (VStr "") (dict_get "unique_id" p)));
    run s_id_suffix <- st_lift (id_suffix s_uuid);
    let s_output_path := s_output_path ++ s_id_suffix in
    let s_input_file := s_output_path ++ ".input.txt" in
    run parameters <- get_parameters;
    run p <- st_lift (of_option TypeError parameters);
    run '(b_bond_indices, b) <- st_lift (bond_indices p);
    run _ <- st_print "Creating solver input file:";
    let s_input_file := replace_char (chr 92) "/" s_input_file in
    run _ <- st_print s_input_file;
    let '(text, written) := write_input E p s_output_path b_bond_indices b in
    run _ <- st_write_file s_input_file text;
    run _ <- st_lift written;
    set_paths s_input_file s_output_path s_id_suffix.

(** *** [execute] *)

(** The command line: the solver, run through the cygwin shell when there
    is one, with the input file when there is one. *)
Definition call_string (s_cygwin_path s_solver_path s_input_file : string) : string :=
  let cygwin := negb (String.eqb s_cygwin_path "") in
  let call_string :=
    (if cygwin then s_cygwin_path ++ " --login -c " ++ dquote else "") ++ s_solver_path in
  if negb (String.eqb s_input_file "")
  then call_string ++ " input_file '" ++ s_input_file ++ "'"
       ++ (if cygwin then dquote else "")
  else call_string.

Definition execute (E : env) (s_cygwin_path s_solver_path : option string)
    (s_input_file : string) (w : world) : Z * world :=
  let paths := process_default_paths E s_cygwin_path s_solver_path in
  let command := call_string (fst paths) (snd paths) s_input_file in
  let w := print "Executing solver with command:" w in
  let w := print (tab ++ command ++ nl) w in
  let '(exit_code, fs) := run_process E command (files w) in
  let w := {| files := fs; console := console w |} in
  (exit_code,
   print ("Solver process terminated with exit code " ++ str_of_Z exit_code ++ "." ++ nl) w).

(** *** [load_output] and the readers of one file and one line *)

Definition obs_key_eqb (a b : obs_key) : bool :=
  String.eqb (fst a) (fst b) && bool_decide (snd a = snd b).

(** [result.get(key)], a fresh pair of lists when the key is new, and the
    two appends. *)
Fixpoint obs_append (k : obs_key) (t val : float) (result : obs_map) : obs_map :=
  match result with
  | [] => [(k, ([t], [val]))]
  | (k', (ts, vals)) :: rest =>
      if obs_key_eqb k' k then (k', (ts ++ [t], vals ++ [val])%list) :: rest
      else (k', (ts, vals)) :: obs_append k t val rest
  end.

(** [words[i]], [float(s)], [int(s)] *)
Definition word (words : list string) (i : nat) : res string :=
  of_option IndexError (words !! i).
Definition to_float (s : string) : res float := of_option ValueError (parse_float s).
Definition to_int (s : string) : res Z := of_option ValueError (parse_int s).

Definition _read_data_line (s_output_type : string) (words : list string) (result : obs_map)
  : res obs_map :=
  do w0 <- word words 0;
  do t <- to_float w0;
  do op <- word words 1;
  do wl <- of_option IndexError (last words);
  do val <- to_float wl;
  do q_indices <-
    (if String.eqb s_output_type "obs-1q"
     then do w2 <- word words 2;
          do i1 <- to_int w2;
          Ok [i1 - 1]
     else if String.eqb s_output_type "obs-2q"
     then do w2 <- word words 2;
          do i1 <- to_int w2;
          do w3 <- word words 3;
          do i2 <- to_int w3;
          Ok [i1 - 1; i2 - 1]
     else if String.eqb s_output_type "global" then Ok []
     else Raise (Exception ("Unknown output type " ++ s_output_type ++ ".")));
  Ok (obs_append (lower op, q_indices) t val result).

(** The loop [for line in file] *)
Fixpoint read_lines (s_output_type : string) (lines : list string) (result : obs_map)
  : res obs_map :=
  match lines with
  | [] => Ok result
  | line :: rest =>
      match split_ws (strip line) with
      | [] => read_lines s_output_type rest result
      | words =>
          do result' <- _read_data_line s_output_type words result;
          read_lines s_output_type rest result'
      end
  end.

Definition _read_data_file (s_output_path s_output_type : string) (w : world)
  : res obs_map * world :=
  let full_filename := s_output_path ++ "." ++ s_output_type ++ ".dat" in
  let w := print ("Loading output data file: " ++ full_filename) w in
  match files w !! full_filename with
  | None => (Raise FileNotFoundError, w)
  | Some content => (read_lines s_output_type (tail (file_lines content)) [], w)
  end.

Definition load_output (s_output_path : string) (w : world)
  : res (list (string * obs_map)) * world :=
  match _read_data_file s_output_path "obs-1q" w with
  | (Raise e, w) => (Raise e, w)
  | (Ok r1, w) =>
      match _read_data_file s_output_path "obs-2q" w with
      | (Raise e, w) => (Raise e, w)
      | (Ok r2, w) =>
          match _read_data_file s_output_path "global" w with
          | (Raise e, w) => (Raise e, w)
          | (Ok r3, w) => (Ok [("obs-1q", r1); ("obs-2q", r2); ("global", r3)], w)
          end
      end
  end.

(** *** [solve] *)

Definition solve (E : env) : M unit :=
  run _ <- (fun s w => if String.eqb (s_input_file s) "" then build E None s w
                       else (Ok tt, s, w));
  run exit_code <- (fun s w =>
                      let '(code, w') :=
                        execute E (Some (s_cygwin_path s)) (Some (s_solver_path s))
                                (s_input_file s) w in
                      (Ok code, s, w'));
  if negb (exit_code =? 0)
  then st_raise (Exception "There was an error executing the solver.")
  else
    run r <- (fun s w => let '(r, w') := load_output (s_output_path s) w in (r, s, w'));
    set_result r.

End Solver.

(** * Vocabulary of the statements *)

Module Spec.
Import PyStr PyNumber Py Validator Solver.

(** [str] of an integer: an optional minus sign, then digits. *)
Definition numeral_char (c : ascii) : bool := is_digit c || Ascii.eqb c "-".

Definition list_char (c : ascii) : bool :=
  numeral_char c || Ascii.eqb c "," || Ascii.eqb c " ".

(** A character that does not end a line, and the three ways a line ends
    in a file: LF, CR, CR LF. *)
Definition line_char (c : ascii) : bool :=
  negb (Ascii.eqb c (chr 10)) && negb (Ascii.eqb c (chr 13)).
Definition cr : string := String (chr 13) "".


(** The instance [build] works on: a dictionary passed to it replaces the
    stored one. *)
Definition given (parameters_arg : option dict) (s : solver) : solver :=
  match parameters_arg with
  | Some _ => with_parameters parameters_arg s
  | None => s
  end.

Definition unique_id_line (E : env) : string :=
  "Generating a unique id for this simulation: " ++ uuid4_hex E.

(** [if b_uuid:] on [parameters.get("b_unique_id", False)] *)
Definition wants_unique_id (p : dict) : res bool :=
  truthy (default (VBool false) (dict_get "b_unique_id" p)).

(** How far [build] gets before it touches anything: the output prefix and
    the unique-id flag, when validation finds nothing and both can be
    read. *)
Definition prepared (parameters : option dict) : option (string * bool) :=
  match parameters with
  | Some p0 =>
      match verify_parameters (Some p0) None, output_prefix p0, wants_unique_id p0 with
      | Ok EmptyString, Ok op, Ok b => Some (op, b)
      | _, _, _ => None
      end
  | None => None
  end.

(** The dictionary after [build]: the unique id is stored in it once
    [build] has got as far as a set [b_unique_id]. *)
Definition mapping_after (E : env) (p0 : dict) : dict :=
  match prepared (Some p0) with
  | Some (_, true) => dict_set "unique_id" (VStr (uuid4_hex E)) p0
  | _ => p0
  end.

(** The path of the input file for an output path. *)
Definition input_path (s_output_path : string) : string :=
  replace_char (chr 92) "/" (s_output_path ++ ".input.txt").

(** The floats 1.0, 0.5 and 0.732. *)
Definition f64_one : float := S754_finite false 4503599627370496 (-52).
Definition f64_half : float := S754_finite false 4503599627370496 (-53).
Definition f64_0732 : float := S754_finite false 6593269854470406 (-53).

(** The configuration [{N: 2, t_final: 1.0, tau: 0.5}]. *)
Definition minimal : dict :=
  [("N", VInt 2); ("t_final", VFloat f64_one); ("tau", VFloat f64_half)].

(** An environment to run examples in: a Linux host, printers that give
    the empty text (no statement about an example depends on them), and a
    solver process that touches no file and ends with the given exit
    code. *)
Definition example_env (exit_code : Z) : env :=
  {| platform_system := "Linux";
     module_dir := "/opt/lindbladmpo";
     uuid4_hex := "4a1f0c2e9b7d4e6f8a3b5c7d9e1f2a3b";
     np_array_str := fun _ => "";
     np_array_repr := fun _ => "";
     np_float_str := fun _ _ => "";
     run_process := fun _ fs => (exit_code, fs) |}.

Definition empty_world : world := {| files := ∅; console := [] |}.

(** The lines of a text, without their line ends. *)
Definition text_lines (text : string) : list string :=
  map (fun l => strip_chars nl l) (file_lines text).

(** The end-to-end scenario on [minimal]: validation finds nothing, and
    [build] leaves an input file among whose lines are the [expected]
    ones. *)
Definition scenario (E : env) (w : world) (expected : list string) : Prop :=
  verify_parameters (Some minimal) None = Ok ""
  /\ exists s' w' text,
       build E None (__init__ E (Some minimal) None None) w = (Ok tt, s', w')
       /\ files w' !! s_input_file s' = Some text
       /\ Forall (fun l => In l (text_lines text)) expected.

(** [minimal] with an empty output prefix. *)
Definition minimal_prefixed : dict :=
  (minimal ++ [("output_files_prefix", VStr "")])%list.

(** What [build] did to the instance and the world. *)
Definition built (E : env) (parameters_arg : option dict) (s : solver) (w : world)
  : solver * world :=
  let '(_, s', w') := build E parameters_arg s w in (s', w').

(** Two coupling matrices of different shapes: 2 by 2 and 1 by 1. *)
Definition J_2x2 : ndarray :=
  {| dtype := "float64"; shape := [2%nat; 2%nat];
     data := [NFloat (S754_zero false); NFloat f64_one; NFloat f64_half;
              NFloat (S754_zero false)] |}.
Definition J_1x1 : ndarray :=
  {| dtype := "float64"; shape := [1%nat; 1%nat]; data := [NFloat f64_one] |}.
Definition mismatched : dict :=
  (minimal ++ [("J", VArray J_2x2); ("J_z", VArray J_1x1)])%list.

(** [J] as a nested list, 2 by 2, with [J_z] as an array, 1 by 1. *)
Definition J_list_2x2 : PyVal :=
  VList [VList [VFloat (S754_zero false); VFloat f64_one];
         VList [VFloat f64_half; VFloat (S754_zero false)]].
Definition list_and_array : dict :=
  (minimal ++ [("J", J_list_2x2); ("J_z", VArray J_1x1)])%list.

(** [minimal] asking for a unique id. *)
Definition minimal_unique : dict := (minimal ++ [("b_unique_id", VBool true)])%list.

(** What [solve] does before it starts the solver. *)
Definition solve_prepare (E : env) (s : solver) (w : world) : res unit * solver * world :=
  if String.eqb (s_input_file s) "" then build E None s w else (Ok tt, s, w).

(** The lines [execute] prints around a run of the solver. *)
Definition execute_lines (command : string) (exit_code : Z) : list string :=
  ["Executing solver with command:"; tab ++ command ++ nl;
   "Solver process terminated with exit code " ++ str_of_Z exit_code ++ "." ++ nl].

(** A site index as [build] writes it, and a site word of an output file as
    [_read_data_line] reads it. *)
Definition serialize_site (i : Z) : string := str_of_Z (i + 1).
Definition deserialize_site (w : string) : res Z := do n <- to_int w; Ok (n - 1).

(** The path of an output file. *)
Definition data_file (s_output_path s_output_type : string) : string :=
  s_output_path ++ "." ++ s_output_type ++ ".dat".

(** The data a row of an output file stands for: its key, its time and its
    value, as [_read_data_line] stores them into an empty table. *)
Definition row : Type := obs_key * float * float.
Definition row_key (r : row) : obs_key := fst (fst r).
Definition row_time (r : row) : float := snd (fst r).
Definition row_value (r : row) : float := snd r.

Definition row_of (s_output_type : string) (words : list string) : res row :=
  do table <- _read_data_line s_output_type words [];
  match table with
  | [(k, ([t], [val]))] => Ok (k, t, val)
  | _ => Raise ValueError
  end.

(** The rows of the lines of a file, blank lines left out, up to the first
    line that cannot be read. *)
Fixpoint rows_of (s_output_type : string) (lines : list string) : res (list row) :=
  match lines with
  | [] => Ok []
  | line :: rest =>
      match split_ws (strip line) with
      | [] => rows_of s_output_type rest
      | words =>
          do r <- row_of s_output_type words;
          do rs <- rows_of s_output_type rest;
          Ok (r :: rs)
      end
  end.

Definition add_row (table : obs_map) (r : row) : obs_map :=
  obs_append (row_key r) (row_time r) (row_value r) table.

(** [result.get(key)] on a table. *)
Fixpoint obs_get (k : obs_key) (table : obs_map) : option (list float * list float) :=
  match table with
  | [] => None
  | (k', seqs) :: rest => if obs_key_eqb k' k then Some seqs else obs_get k rest
  end.


(** An output file of single-site observables with one row. *)
Definition one_row_file : string :=
  "# time operator site value" ++ (cr ++ nl) ++ "0.5 z 1 0.732" ++ (cr ++ nl).
Definition one_row_world : world :=
  {| files := {[ "run/lindblad.obs-1q.dat" := one_row_file ]}; console := [] |}.

(** The positions of an [r] by [c] matrix, row by row. *)
Definition cells (r c : nat) : list (nat * nat) :=
  flat_map (fun i => map (pair i) (seq 0 c)) (seq 0 r).

(** The entry of a matrix at a position, and whether one of two matrices is
    not zero there. *)
Definition entry (a : ndarray) (i j : nat) : num :=
  nth (i * nth 1 (shape a) 0%nat + j) (data a) (NInt 0).
Definition coupled (J J_z : ndarray) (ij : nat * nat) : bool :=
  num_nonzero (entry J (fst ij) (snd ij)) || num_nonzero (entry J_z (fst ij) (snd ij)).

(** An array holds as many elements as its shape says. *)
Definition well_formed (a : ndarray) : bool := (length (data a) =? nd_size a)%nat.

Definition one_based (l : list nat) : list Z := map (fun i => Z.of_nat i + 1) l.

(** Bonds added to the two lists. *)
Definition add_hits (hits : list (nat * nat)) (acc : bonds) : bonds :=
  (fst acc ++ one_based (map fst hits), snd acc ++ one_based (map snd hits))%list.

(** The two lines that end the input file. *)
Definition bond_lines (b : bonds) : string :=
  ("first_bond_indices = " ++ join "," (map str_of_Z (fst b)) ++ nl)
  ++ ("second_bond_indices = " ++ join "," (map str_of_Z (snd b)) ++ nl).

(** Two 2 by 2 coupling matrices, and a configuration with them. *)
Definition Jz_2x2 : ndarray :=
  {| dtype := "float64"; shape := [2%nat; 2%nat];
     data := [NFloat (S754_zero false); NFloat (S754_zero false);
              NFloat (S754_zero false); NFloat f64_one] |}.
Definition coupled_pair : dict :=
  (minimal ++ [("J", VArray J_2x2); ("J_z", VArray Jz_2x2)])%list.

(** The keys whose value has to be an [int], and those whose value has to
    be a [bool]. *)
Definition int_keys : list string :=
  ["N"; "l_x"; "l_y"; "output_step"; "force_rho_hermitian_step"; "trotter_order";
   "max_dim_rho"].
Definition bool_keys : list string :=
  ["b_periodic_x"; "b_periodic_y"; "b_force_rho_trace"; "b_unique_id";
   "b_save_final_state"; "b_initial_rho_compression"].

Definition error_390 (key : string) : string :=
  "Error 390: " ++ key ++ " should be a boolean True or False" ++ nl.

(** [{N: True, t_final: 1.0, tau: 0.5}] *)
Definition minimal_true : dict :=
  [("N", VBool true); ("t_final", VFloat f64_one); ("tau", VFloat f64_half)].

End Spec.

(** * [lindbladmpo/plot_routines.py]: the data of the plots

    The functions that take the curves to plot out of the result of
    [load_output]. *)

Module PlotRoutines.
Import PyStr PyNumber Py Validator Solver Spec.

(** The labels of the global quantities, by their names in lower case. *)
Definition LINDBLADMPO_TEX_LABELS : list (string * string) :=
  [("tr_rho", "{\rm tr}\rho");
   ("s_2", "S_2");
   ("osee_center", "OSEE_{\rm center}");
   ("max_bond_dim", "{\rm max bond-dim}");
   ("duration_ms", "{\rm duration(ms)}")].

(** [d[key]] and [d.get(key)] on a dictionary with string keys. *)
Fixpoint str_get {A} (key : string) (d : list (string * A)) : option A :=
  match d with
  | [] => None
  | (k, a) :: rest => if String.eqb k key then Some a else str_get key rest
  end.

(** The [result] argument: the tables by output type; a table may be
    [None]. *)
Definition result_dict : Type := list (string * option obs_map).

(** [s[i]] on a string, [t[i]] on a tuple of integers, for [i] from 0 on. *)
Definition char_at (s : string) (i : nat) : res string :=
  of_option IndexError (option_map (fun c => String c "") (chars s !! i)).
Definition index_at (t : list Z) (i : nat) : res Z := of_option IndexError (t !! i).

(** [f"\\sigma^{name}_{{{q}}}"] *)
Definition sigma_label (name : string) (q : Z) : string :=
  "\sigma^" ++ name ++ "_{" ++ str_of_Z q ++ "}".

(** The label of a pair: the first letter of the name with the first
    index, then the second letter with the second index. *)
Definition pair_label (s_obs_name : string) (q_indices : list Z) : res string :=
  do c0 <- char_at s_obs_name 0;
  do q0 <- index_at q_indices 0;
  do c1 <- char_at s_obs_name 1;
  do q1 <- index_at q_indices 1;
  Ok (sigma_label c0 q0 ++ " " ++ sigma_label c1 q1).

Definition prepare_curve_data (result : result_dict) (s_output_type s_obs_name : string)
    (q_indices : list Z) : res (option (list float * list float) * string) :=
  do obs_dict <- of_option KeyError (str_get s_output_type result);
  let s_obs_name := lower s_obs_name in
  match obs_dict with
  | Some obs_dict =>
      let obs_data := obs_get (s_obs_name, q_indices) obs_dict in
      do s_tex_label <-
        (if String.eqb s_output_type "obs-1q"
         then do q0 <- index_at q_indices 0; Ok (sigma_label s_obs_name q0)
         else if String.eqb s_output_type "obs-2q"
         then pair_label s_obs_name q_indices
         else if String.eqb s_output_type "global"
         then of_option KeyError (str_get s_obs_name LINDBLADMPO_TEX_LABELS)
         else Ok "");
      Ok (obs_data, s_tex_label)
  | None => Ok (None, "")
  end.

(** An operation of NumPy on two arrays of one dimension, element by
    element: the lengths are the same, or one of them is 1 and its element
    meets every element of the other array. *)
Definition np_elementwise (op : float -> float -> float) (a b : list float)
  : res (list float) :=
  if (length a =? length b)%nat then Ok (zip_with op a b)
  else
    match a, b with
    | [x], _ => Ok (map (op x) b)
    | _, [y] => Ok (map (fun x => op x y) a)
    | _, _ => Raise ValueError
    end.

(** [(np.asarray(v2) - np.asarray(v0) * np.asarray(v1)).tolist()] *)
Definition connected (v0 v1 v2 : list float) : res (list float) :=
  do product <- np_elementwise (SFmul 53 1024) v0 v1;
  np_elementwise (SFsub 53 1024) v2 product.

Definition prepare_2q_correlation_data (result : result_dict) (s_obs_name : string)
    (q_indices : list Z) : res (option (list float * list float) * string) :=
  do obs_1q_dict <- of_option KeyError (str_get "obs-1q" result);
  do obs_2q_dict <- of_option KeyError (str_get "obs-2q" result);
  let s_obs_name := lower s_obs_name in
  match obs_1q_dict, obs_2q_dict with
  | Some obs_1q_dict, Some obs_2q_dict =>
      do c0 <- char_at s_obs_name 0;
      do q0 <- index_at q_indices 0;
      let obs_0 := obs_get (c0, [q0]) obs_1q_dict in
      do c1 <- char_at s_obs_name 1;
      do q1 <- index_at q_indices 1;
      let obs_1 := obs_get (c1, [q1]) obs_1q_dict in
      let obs_2 := obs_get (s_obs_name, q_indices) obs_2q_dict in
      match obs_0, obs_1, obs_2 with
      | Some obs_0, Some obs_1, Some obs_2 =>
          if (length (fst obs_0) =? length (fst obs_1))%nat
             && (length (fst obs_0) =? length (fst obs_2))%nat
          then
            do values <- connected (snd obs_0) (snd obs_1) (snd obs_2);
            do s_tex_label <- pair_label s_obs_name q_indices;
            Ok (Some (fst obs_0, values), s_tex_label)
          else Ok (None, "")
      | _, _, _ => Ok (None, "")
      end
  | _, _ => Ok (None, "")
  end.

End PlotRoutines.

(** * Further vocabulary *)

Module Terms.
Import PyStr PyNumber Py Validator Solver Spec PlotRoutines.

(** The names [verify_parameters] has a rule for. *)
Definition recognised : list string :=
  ["N"; "t_init"; "t_final"; "tau"; "l_x"; "l_y"; "output_step";
   "force_rho_hermitian_step"; "h_x"; "h_y"; "h_z"; "g_0"; "g_1"; "g_2"; "J_z"; "J";
   "init_pauli_state"; "b_periodic_x"; "b_periodic_y"; "b_force_rho_trace";
   "b_unique_id"; "b_save_final_state"; "b_initial_rho_compression"; "trotter_order";
   "max_dim_rho"; "cut_off"; "cut_off_rho"; "metadata"; "load_files_prefix";
   "output_files_prefix"; "1q_components"; "1q_indices"; "2q_components"; "2q_indices";
   "init_graph_state"].

(** An entry that [ignore_params] silences: its key has no rule and is
    listed. *)
Definition ignored (ignore_params : list string) (key : string) : bool :=
  negb (key_in key recognised) && key_in key ignore_params.

Definition drop_ignored (ignore_params : list string) (p : dict) : dict :=
  List.filter (fun kv => negb (ignored ignore_params (fst kv))) p.

(** What the rules for [2q_components] and for the lists of pairs take for
    granted: the members of the list are strings; the tuples of the list
    have two items at least. *)
Definition members_are_str (v : PyVal) : bool :=
  match v with
  | VList l => forallb is_str l
  | _ => true
  end.

Definition tuples_have_two (v : PyVal) : bool :=
  match v with
  | VList l =>
      forallb (fun t => match t with
                        | VTuple items => (2 <=? length items)%nat
                        | _ => true
                        end) l
  | _ => true
  end.

(** The line of a key in the input file, and the lines of several keys. *)
Definition key_line (key body : string) : string := key ++ " = " ++ body ++ nl.

Fixpoint key_lines (keys bodies : list string) : string :=
  match keys, bodies with
  | key :: keys', body :: bodies' => key_line key body ++ key_lines keys' bodies'
  | _, _ => ""
  end.

(** The keys [build] writes a line for: all but the flag [b_unique_id]. *)
Definition written_keys (p : dict) : list string :=
  List.filter (fun key => negb (String.eqb key "b_unique_id")) (dict_keys p).

(** The lines of an output file that hold data: those after the first with
    a word in them. *)
Definition has_word (line : string) : bool :=
  match split_ws (strip line) with
  | [] => false
  | _ => true
  end.

Definition data_lines (content : string) : list string :=
  List.filter has_word (tail (file_lines content)).

(** The number of samples of a table, and whether every key of the table
    holds as many times as values, and one at least. *)
Definition samples (table : obs_map) : nat :=
  list_sum (map (fun e => length (fst (snd e))) table).

Definition parallel (table : obs_map) : bool :=
  forallb (fun e => (length (fst (snd e)) =? length (snd (snd e)))%nat
                    && (0 <? length (fst (snd e)))%nat) table.

(** The three output files of a run, one row each. *)
Definition three_files_world : world :=
  {| files := {[ "run/lindblad.obs-1q.dat" := one_row_file;
                 "run/lindblad.obs-2q.dat"
                   := "# time operator site site value" ++ nl ++ "0.5 zz 1 2 0.732" ++ nl;
                 "run/lindblad.global.dat"
                   := "# time quantity value" ++ nl ++ "0.5 tr_rho 1.0" ++ nl ]};
     console := [] |}.

(** The result of [load_output] as the plot routines take it. *)
Definition loaded (r : list (string * obs_map)) : result_dict :=
  map (fun kt => (fst kt, Some (snd kt))) r.

(** Whether a global quantity has a label. *)
Definition labelled (s_obs_name : string) : bool :=
  match str_get (lower s_obs_name) LINDBLADMPO_TEX_LABELS with
  | Some _ => true
  | None => false
  end.

(** The connected correlations of three sequences of one length. *)
Definition connected_values (v0 v1 v2 : list float) : list float :=
  zip_with (SFsub 53 1024) v2 (zip_with (SFmul 53 1024) v0 v1).

(** A pair of site indices, as a tuple of two integers. *)
Definition is_pair (v : PyVal) (ij : Z * Z) : Prop :=
  exists a b, v = VTuple [a; b] /\ as_int a = Some (fst ij) /\ as_int b = Some (snd ij).

(** Whether the entry of a matrix at a position is not zero. *)
Definition nonzero_at (a : ndarray) (ij : nat * nat) : bool :=
  num_nonzero (entry a (fst ij) (snd ij)).

(** Two dictionaries with the same keys in the same order and the same
    values, but for the values [v1] and [v2] under one key. *)
Definition alike_but (key : string) (v1 v2 : PyVal) (p1 p2 : dict) : Prop :=
  dict_keys p1 = dict_keys p2
  /\ dict_get key p1 = Some v1 /\ dict_get key p2 = Some v2
  /\ forall k, k <> key -> dict_get k p1 = dict_get k p2.

(** A dictionary that holds no array. *)
Definition array_free (p : dict) : Prop := forall k a, dict_get k p <> Some (VArray a).

(** CPython gives an [int] a decimal text only up to 4300 digits
    ([sys.int_info.default_max_str_digits]) and raises [ValueError] beyond
    that; [str_of_Z] has no such limit.  Whether the integers in a value
    stay within the limit, and a dictionary all of whose values do. *)
Fixpoint within_str_digits (v : PyVal) : bool :=
  match v with
  | VInt n => Z.abs n <? 10 ^ 4300
  | VList l | VTuple l => forallb within_str_digits l
  | _ => true
  end.

Definition printable (p : dict) : Prop :=
  forall k v, dict_get k p = Some v -> within_str_digits v = true.

(** The text of a loop of [build] that writes items with commas between
    them: every item has a text, and the texts are joined by commas. *)
Definition joined {A} (item : A -> res string) (l : list A) (body : string) : Prop :=
  exists texts, Forall2 (fun x t => item x = Ok t) l texts /\ body = join "," texts.

(** What stands between [key = ] and the line feed on the line of a key. *)
Definition line_body (E : env) (p : dict) (s_output_path : string) (b : bonds)
    (key body : string) : Prop :=
  exists v,
    dict_get key p = Some v
    /\ if String.eqb key "output_files_prefix" then body = s_output_path
       else
         match v with
         | VArray a =>
             exists n0,
               nd_shape_at a 0 = Ok n0
               /\ if (String.eqb key "J" || String.eqb key "J_z") && (1 <? n0)%nat
                  then joined (fun '(f, s) =>
                                 np_item_str E a [Z.to_nat (f - 1); Z.to_nat (s - 1)])
                         (combine (fst b) (snd b)) body
                  else joined (fun i => np_item_str E a [i]) (seq 0 n0) body
         | _ =>
             if key_in key ["init_pauli_state"; "1q_components"; "2q_components"]
             then exists items,
                 py_iter (if is_str v then VList [v] else v) = Ok items
                 /\ body = join "," (map (fun op => strip_chars squote (py_str E op)) items)
             else if String.eqb key "1q_indices"
             then exists items, py_iter v = Ok items /\ joined (site_text E) items body
             else if key_in key ["2q_indices"; "init_graph_state"]
             then exists items, py_iter v = Ok items /\ joined (pair_text E) items body
             else body = strip_chars "[]" (py_str E v)
         end.

(** A text without a line break. *)
Definition one_line (s : string) : bool := forallb line_char (chars s).

(** The two lines that end the input file, one by one. *)
Definition bond_line_list (b : bonds) : list string :=
  [key_line "first_bond_indices" (join "," (map str_of_Z (fst b)));
   key_line "second_bond_indices" (join "," (map str_of_Z (snd b)))].

End Terms.

(** * Properties of the embedding *)

(** ** Strings and numerals *)

Module StringFacts.
Import PyStr PyNumber Spec.

Lemma chars_app (a b : string) : chars (a ++ b) = (chars a ++ chars b)%list.
Proof.
  unfold chars. induction a as [|c a IH]; simpl; [reflexivity | now rewrite IH].
Qed.

Lemma of_chars_app (l1 l2 : list ascii) : of_chars (l1 ++ l2) = of_chars l1 ++ of_chars l2.
Proof.
  unfold of_chars. induction l1 as [|c l1 IH]; simpl; [reflexivity | now rewrite IH].
Qed.

Lemma of_chars_chars (s : string) : of_chars (chars s) = s.
Proof. apply string_of_list_ascii_of_string. Qed.

Lemma chars_of_chars (l : list ascii) : chars (of_chars l) = l.
Proof. apply list_ascii_of_string_of_list_ascii. Qed.

Lemma drop_while_none (p : ascii -> bool) (l : list ascii) :
  Forall (fun c => p c = false) l -> drop_while p l = l.
Proof. destruct 1 as [|c l Hc _]; simpl; [reflexivity | now rewrite Hc]. Qed.

Lemma strip_list_none (p : ascii -> bool) (l : list ascii) :
  Forall (fun c => p c = false) l -> strip_list p l = l.
Proof.
  intros H. unfold strip_list. rewrite (drop_while_none p l H).
  rewrite drop_while_none by now apply List.Forall_rev.
  apply rev_involutive.
Qed.

(** Stripping a text wrapped in one character of the set on each side. *)
Lemma strip_list_wrapped (p : ascii -> bool) (a b : ascii) (m : list ascii) :
  p a = true -> p b = true -> Forall (fun c => p c = false) m ->
  strip_list p (a :: m ++ [b]) = m.
Proof.
  intros Ha Hb Hm. unfold strip_list. simpl. rewrite Ha.
  destruct m as [|x m].
  - simpl. now rewrite Hb.
  - assert (Hx : p x = false) by now inversion Hm.
    change ((x :: m) ++ [b])%list with (x :: m ++ [b])%list.
    cbn [drop_while]. rewrite Hx.
    change (x :: m ++ [b])%list with ((x :: m) ++ [b])%list.
    rewrite rev_app_distr. cbn [rev app drop_while]. rewrite Hb.
    rewrite drop_while_none by (apply List.Forall_rev in Hm; exact Hm).
    apply (rev_involutive (x :: m)).
Qed.

Lemma is_digit_not_space (c : ascii) : is_digit c = true -> is_space c = false.
Proof.
  destruct c as [[] [] [] [] [] [] [] []]; vm_compute; congruence.
Qed.

Lemma is_digit_neq (c d : ascii) : is_digit c = true -> is_digit d = false -> Ascii.eqb c d = false.
Proof. intros Hc Hd. destruct (Ascii.eqb_spec c d); [congruence | reflexivity]. Qed.

(** The characters of a numeral. *)
Lemma uint_chars_digits (d : Decimal.uint) :
  Forall (fun c => is_digit c = true) (chars (NilEmpty.string_of_uint d)).
Proof. induction d; simpl; constructor; auto. Qed.

Lemma to_uint_value (p : positive) : Z.of_uint (Pos.to_uint p) = Zpos p.
Proof. exact (DecimalZ.of_to (Zpos p)). Qed.

Lemma to_uint_chars (p : positive) : chars (NilEmpty.string_of_uint (Pos.to_uint p)) <> [].
Proof.
  intros H. pose proof (to_uint_value p) as Hv.
  destruct (Pos.to_uint p); try discriminate H. discriminate Hv.
Qed.

Lemma str_of_Z_chars (z : Z) : Forall (fun c => numeral_char c = true) (chars (str_of_Z z)).
Proof.
  assert (Hd : forall d, Forall (fun c => numeral_char c = true)
                                (chars (NilEmpty.string_of_uint d))).
  { intros d. eapply List.Forall_impl; [|apply uint_chars_digits].
    intros c Hc. unfold numeral_char. now rewrite Hc. }
  unfold str_of_Z. destruct z as [|p|p]; simpl.
  - repeat constructor.
  - pose proof (to_uint_chars p) as Hne.
    destruct (Pos.to_uint p); try apply Hd. now elim Hne.
  - constructor; [reflexivity|].
    pose proof (to_uint_chars p) as Hne.
    destruct (Pos.to_uint p); try apply Hd. now elim Hne.
Qed.

Lemma remove_underscores_none (l : list ascii) (b : bool) :
  Forall (fun c => Ascii.eqb c "_" = false) l -> remove_underscores b l = Some l.
Proof.
  intros H. revert b. induction H as [|c l Hc _ IH]; intros b; simpl; [reflexivity|].
  now rewrite Hc, IH.
Qed.

Lemma numeral_char_plain (c : ascii) :
  numeral_char c = true ->
  is_space c = false /\ Ascii.eqb c "_" = false /\ Ascii.eqb c "[" = false
  /\ Ascii.eqb c "]" = false /\ Ascii.eqb c " " = false.
Proof.
  unfold numeral_char. intros H. apply orb_true_iff in H as [H|H].
  - repeat split; try (apply is_digit_neq; [exact H | reflexivity]).
    now apply is_digit_not_space.
  - apply Ascii.eqb_eq in H. subst c. repeat split.
Qed.

Lemma digits_parse (p : positive) :
  nat_of_digits (chars (NilEmpty.string_of_uint (Pos.to_uint p))) = Some (Zpos p).
Proof.
  unfold nat_of_digits.
  pose proof (to_uint_chars p) as Hne.
  destruct (chars (NilEmpty.string_of_uint (Pos.to_uint p))) as [|c l] eqn:Hc; [now elim Hne|].
  rewrite <- Hc, of_chars_chars, NilEmpty.usu. simpl. now rewrite to_uint_value.
Qed.

Lemma nilzero_to_uint (p : positive) :
  NilZero.string_of_uint (Pos.to_uint p) = NilEmpty.string_of_uint (Pos.to_uint p).
Proof.
  pose proof (to_uint_chars p) as Hne.
  destruct (Pos.to_uint p); try reflexivity. now elim Hne.
Qed.

(** [int(str(z)) == z] *)
Lemma parse_int_str_of_Z (z : Z) : parse_int (str_of_Z z) = Some z.
Proof.
  unfold parse_int.
  pose proof (str_of_Z_chars z) as Hc.
  rewrite strip_list_none
    by (eapply List.Forall_impl; [|exact Hc]; intros c H; now apply numeral_char_plain in H).
  rewrite remove_underscores_none
    by (eapply List.Forall_impl; [|exact Hc]; intros c H; now apply numeral_char_plain in H).
  unfold str_of_Z. destruct z as [|p|p]; cbn [Z.to_int NilZero.string_of_int].
  - reflexivity.
  - rewrite nilzero_to_uint.
    pose proof (uint_chars_digits (Pos.to_uint p)) as Hd.
    pose proof (digits_parse p) as Hp.
    destruct (chars (NilEmpty.string_of_uint (Pos.to_uint p))) as [|c l] eqn:Hl;
      [discriminate Hp|].
    assert (Hdc : is_digit c = true) by now inversion Hd.
    unfold split_sign.
    rewrite (is_digit_neq c "-" Hdc eq_refl), (is_digit_neq c "+" Hdc eq_refl).
    now rewrite Hp.
  - rewrite nilzero_to_uint.
    change (chars (String "-" ?s)) with ("-"%char :: chars s).
    cbn [chars list_ascii_of_string split_sign Ascii.eqb Bool.eqb].
    fold (chars (NilEmpty.string_of_uint (Pos.to_uint p))).
    rewrite digits_parse. reflexivity.
Qed.

End StringFacts.

Module TextFacts.
Import PyStr PyNumber Py Spec StringFacts.

Lemma replace_char_app (c : ascii) (new a b : string) :
  replace_char c new (a ++ b) = replace_char c new a ++ replace_char c new b.
Proof.
  unfold replace_char. now rewrite chars_app, flat_map_app, of_chars_app.
Qed.

Lemma replace_char_none (c : ascii) (new s : string) :
  Forall (fun x => Ascii.eqb x c = false) (chars s) -> replace_char c new s = s.
Proof.
  intros H. unfold replace_char. rewrite <- (of_chars_chars s) at 2. f_equal.
  induction H as [|x l Hx _ IH]; simpl; [reflexivity|]. now rewrite Hx, IH.
Qed.

Lemma str_of_Z_no_blank (z : Z) : replace_char " "%char "" (str_of_Z z) = str_of_Z z.
Proof.
  apply replace_char_none. eapply List.Forall_impl; [|apply str_of_Z_chars].
  intros c H. now apply numeral_char_plain in H.
Qed.

(** Blanks leave a list of numerals joined by a comma and a blank. *)
Lemma join_numerals_no_blank (l : list Z) :
  replace_char " "%char "" (join ", " (map str_of_Z l)) = join "," (map str_of_Z l).
Proof.
  induction l as [|z l IH]; [reflexivity|].
  destruct l as [|z' l]; [apply str_of_Z_no_blank|].
  change (join ", " (map str_of_Z (z :: z' :: l)))
    with (str_of_Z z ++ ", " ++ join ", " (map str_of_Z (z' :: l))).
  change (join "," (map str_of_Z (z :: z' :: l)))
    with (str_of_Z z ++ "," ++ join "," (map str_of_Z (z' :: l))).
  rewrite !replace_char_app, IH, str_of_Z_no_blank. reflexivity.
Qed.

Lemma join_numerals_chars (l : list Z) :
  Forall (fun c => list_char c = true) (chars (join ", " (map str_of_Z l))).
Proof.
  assert (Hn : forall z, Forall (fun c => list_char c = true) (chars (str_of_Z z))).
  { intros z. eapply List.Forall_impl; [|apply str_of_Z_chars].
    intros c H. unfold list_char. now rewrite H. }
  induction l as [|z l IH]; [constructor|].
  destruct l as [|z' l]; [apply Hn|].
  change (join ", " (map str_of_Z (z :: z' :: l)))
    with (str_of_Z z ++ ", " ++ join ", " (map str_of_Z (z' :: l))).
  rewrite !chars_app. apply List.Forall_app. split; [apply Hn|].
  apply List.Forall_app. split; [repeat constructor | exact IH].
Qed.

Lemma list_char_not_bracket (c : ascii) : list_char c = true -> mem_char c "[]" = false.
Proof.
  unfold list_char, mem_char. intros H.
  apply orb_true_iff in H as [H|H]; [apply orb_true_iff in H as [H|H]|].
  - apply numeral_char_plain in H as (_ & _ & H1 & H2 & _). simpl. now rewrite H1, H2.
  - apply Ascii.eqb_eq in H. now subst.
  - apply Ascii.eqb_eq in H. now subst.
Qed.

(** The text of a bond index list: the numerals, joined by commas. *)
Lemma bond_text_join (E : env) (l : list Z) :
  Solver.bond_text E l = join "," (map str_of_Z l).
Proof.
  unfold Solver.bond_text, py_str. cbn [py_repr].
  rewrite map_map. cbn [py_repr].
  change (map (fun x => str_of_Z x) l) with (map str_of_Z l).
  unfold strip_chars.
  change (chars ("[" ++ join ", " (map str_of_Z l) ++ "]"))
    with ("["%char :: chars (join ", " (map str_of_Z l) ++ "]")).
  rewrite chars_app. change (chars "]") with ["]"%char].
  rewrite strip_list_wrapped; try reflexivity.
  - rewrite of_chars_chars. apply join_numerals_no_blank.
  - eapply List.Forall_impl; [|apply join_numerals_chars].
    intros c H. now apply list_char_not_bracket.
Qed.

Lemma lines_aux_line (h r cur : list ascii) :
  Forall (fun c => line_char c = true) h ->
  lines_aux (h ++ chr 10 :: r) cur
  = of_chars (rev cur ++ h ++ [chr 10]) :: lines_aux r [].
Proof.
  intros H. revert cur. induction H as [|c h Hc _ IH]; intros cur.
  - reflexivity.
  - unfold line_char in Hc. apply andb_true_iff in Hc as [Hc _].
    apply negb_true_iff in Hc. simpl. simpl in Hc. rewrite Hc.
    rewrite IH. simpl. now rewrite <- app_assoc.
Qed.

Lemma universal_newlines_pass (h r : list ascii) :
  Forall (fun c => line_char c = true) h ->
  universal_newlines (h ++ r) = (h ++ universal_newlines r)%list.
Proof.
  induction 1 as [|c h Hc _ IH]; [reflexivity|].
  unfold line_char in Hc. apply andb_true_iff in Hc as [_ Hc].
  apply negb_true_iff in Hc. cbn [app universal_newlines]. rewrite Hc. now rewrite IH.
Qed.







Lemma lines_aux_pass (h r cur : list ascii) :
  Forall (fun c => line_char c = true) h ->
  lines_aux (h ++ r) cur = lines_aux r (rev h ++ cur).
Proof.
  intros H. revert cur. induction H as [|c h Hc _ IH]; intros cur; [reflexivity|].
  unfold line_char in Hc. apply andb_true_iff in Hc as [Hc _].
  apply negb_true_iff in Hc. cbn [app lines_aux]. rewrite Hc, IH.
  cbn [rev]. now rewrite <- app_assoc.
Qed.




End TextFacts.

(** ** Dictionaries and the steps of [build] *)

Module SolverFacts.
Import PyStr PyNumber Py Validator Solver Spec.

Lemma dict_get_set_ne (k k' : string) (v : PyVal) (d : dict) :
  k <> k' -> dict_get k (dict_set k' v d) = dict_get k d.
Proof.
  intros Hne. induction d as [|[k0 v0] d IH]; simpl.
  - destruct (String.eqb_spec k' k); congruence.
  - destruct (String.eqb_spec k0 k').
    + subst. simpl. destruct (String.eqb_spec k' k); congruence.
    + simpl. destruct (String.eqb_spec k0 k); congruence.
Qed.

Lemma dict_get_set_eq (k : string) (v : PyVal) (d : dict) :
  dict_get k (dict_set k v d) = Some v.
Proof.
  induction d as [|[k0 v0] d IH]; simpl.
  - now rewrite String.eqb_refl.
  - destruct (String.eqb_spec k0 k); simpl.
    + now rewrite String.eqb_refl.
    + destruct (String.eqb_spec k0 k); congruence.
Qed.

Lemma interaction_set_ne (name k : string) (v : PyVal) (p : dict) :
  name <> k -> interaction (dict_set k v p) name = interaction p name.
Proof. intros H. unfold interaction. now rewrite dict_get_set_ne. Qed.

(** Every way a call of [build] can go: it raises before anything is done,
    or after the unique id is stored, or while the file is written, or it
    returns. *)
Lemma build_cases (E : env) (parameters_arg : option dict) (s : solver) (w : world) :
  let s1 := given parameters_arg s in
  match prepared (parameters s1) with
  | None => exists e, build E parameters_arg s w = (Raise e, s1, w)
  | Some (op, b) =>
      exists p0,
        parameters s1 = Some p0
        /\ let p := if b then dict_set "unique_id" (VStr (uuid4_hex E)) p0 else p0 in
           let s2 := if b then with_parameters (Some p) s1 else s1 in
           let w2 := if b then print (unique_id_line E) w else w in
           let s_uuid := if b then VStr (uuid4_hex E)
                         else default (VStr "") (dict_get "unique_id" p0) in
           (exists e, build E parameters_arg s w = (Raise e, s2, w2))
           \/ exists sfx bb bnd,
               id_suffix s_uuid = Ok sfx
               /\ bond_indices p = Ok (bb, bnd)
               /\ let path := input_path (op ++ sfx) in
                  let w3 := print path (print "Creating solver input file:" w2) in
                  let written := write_input E p (op ++ sfx) bb bnd in
                  (exists e, snd written = Raise e
                             /\ build E parameters_arg s w
                                = (Raise e, s2, write_file path (fst written) w3))
                  \/ (snd written = Ok tt
                      /\ build E parameters_arg s w
                         = (Ok tt, with_paths path (op ++ sfx) sfx s2,
                            write_file path (fst written) w3))
  end.
Proof.
  intros s1.
  assert (Hb : build E parameters_arg s w = build E None s1 w).
  { destruct parameters_arg; reflexivity. }
  rewrite Hb. clearbody s1. clear Hb.
  unfold build, prepared.
  cbv beta iota delta [st_bind get_parameters st_lift st_print set_parameters st_ret
                       st_write_file set_paths st_raise _virtual_verify_parameters].
  destruct (parameters s1) as [p0|] eqn:Hp0; [|eexists; reflexivity].
  destruct (verify_parameters (Some p0) None) as [msg|e] eqn:Hv; [|eauto].
  destruct msg as [|c msg]; cbn [String.eqb negb]; [|eauto].
  cbn [of_option].
  destruct (output_prefix p0) as [op|e] eqn:Hop; [|eauto].
  fold (wants_unique_id p0).
  destruct (wants_unique_id p0) as [b|e] eqn:Hb; [|eauto].
  exists p0. split; [reflexivity|].
  destruct b; cbv zeta.
  - destruct (id_suffix (VStr (uuid4_hex E))) as [sfx|e] eqn:Hsfx; [|left; eauto].
    cbn [parameters with_parameters of_option].
    destruct (bond_indices _) as [[bb bnd]|e] eqn:Hbond; [|left; eauto].
    right. exists sfx, bb, bnd. repeat split; auto.
    destruct (write_input E _ (op ++ sfx) bb bnd) as [text [[]|e]] eqn:Hw; cbn [fst snd].
    + right. split; reflexivity.
    + left. exists e. split; reflexivity.
  - destruct (id_suffix _) as [sfx|e] eqn:Hsfx; [|left; eauto].
    rewrite Hp0. cbn [of_option].
    destruct (bond_indices p0) as [[bb bnd]|e] eqn:Hbond; [|left; eauto].
    right. exists sfx, bb, bnd. repeat split; auto.
    destruct (write_input E p0 (op ++ sfx) bb bnd) as [text [[]|e]] eqn:Hw; cbn [fst snd].
    + right. split; reflexivity.
    + left. exists e. split; reflexivity.
Qed.

(** A call of [build] whose preparations all succeed. *)
Lemma build_run (E : env) (parameters_arg : option dict) (s : solver) (w : world)
    (p0 : dict) (op : string) (b : bool) (sfx : string) (bb : bool) (bnd : bonds) :
  parameters (given parameters_arg s) = Some p0 ->
  verify_parameters (Some p0) None = Ok "" ->
  output_prefix p0 = Ok op ->
  wants_unique_id p0 = Ok b ->
  let p := if b then dict_set "unique_id" (VStr (uuid4_hex E)) p0 else p0 in
  let s2 := if b then with_parameters (Some p) (given parameters_arg s)
            else given parameters_arg s in
  let w2 := if b then print (unique_id_line E) w else w in
  let s_uuid := if b then VStr (uuid4_hex E)
                else default (VStr "") (dict_get "unique_id" p0) in
  id_suffix s_uuid = Ok sfx ->
  bond_indices p = Ok (bb, bnd) ->
  let path := input_path (op ++ sfx) in
  let w3 := print path (print "Creating solver input file:" w2) in
  let written := write_input E p (op ++ sfx) bb bnd in
  build E parameters_arg s w
  = (snd written,
     match snd written with
     | Ok _ => with_paths path (op ++ sfx) sfx s2
     | Raise _ => s2
     end,
     write_file path (fst written) w3).
Proof.
  intros Hp0 Hv Hop Hb p s2 w2 s_uuid Hsfx Hbond path w3 written.
  assert (Hbuild : build E parameters_arg s w = build E None (given parameters_arg s) w).
  { destruct parameters_arg; reflexivity. }
  rewrite Hbuild. subst p s2 w2 s_uuid path w3 written.
  clear Hbuild. generalize dependent (given parameters_arg s). intros s1 Hp0.
  unfold build.
  cbv beta iota delta [st_bind get_parameters st_lift st_print set_parameters st_ret
                       st_write_file set_paths st_raise _virtual_verify_parameters].
  rewrite Hp0, Hv. cbn [String.eqb negb of_option]. rewrite Hop.
  fold (wants_unique_id p0). rewrite Hb.
  destruct b; cbv zeta beta iota.
  - rewrite Hsfx. cbn [parameters with_parameters of_option]. rewrite Hbond.
    destruct (write_input E _ (op ++ sfx) bb bnd) as [text [[]|e]]; reflexivity.
  - rewrite Hsfx. rewrite Hp0. cbn [of_option]. rewrite Hbond.
    destruct (write_input E p0 (op ++ sfx) bb bnd) as [text [[]|e]]; reflexivity.
Qed.

Lemma bond_indices_mismatch (p : dict) (J J_z : ndarray) :
  interaction p "J" = Some J -> interaction p "J_z" = Some J_z ->
  shape J <> shape J_z ->
  bond_indices p = Raise (Exception "J and J_z are not of the same size.").
Proof.
  intros HJ HJz Hne. unfold bond_indices. rewrite HJ, HJz.
  unfold shape_eqb. rewrite bool_decide_eq_false_2 by assumption. reflexivity.
Qed.

Lemma files_write_file (path text : string) (w : world) :
  files (write_file path text w) !! path = Some text.
Proof. unfold write_file. cbn [files]. apply lookup_insert_eq. Qed.

(** [build] never touches the solver paths nor the stored result. *)
Lemma build_keeps (E : env) (parameters_arg : option dict) (s : solver) (w : world) :
  let s' := fst (built E parameters_arg s w) in
  s_cygwin_path s' = s_cygwin_path s /\ s_solver_path s' = s_solver_path s
  /\ result s' = result s.
Proof.
  assert (Hg : s_cygwin_path (given parameters_arg s) = s_cygwin_path s
               /\ s_solver_path (given parameters_arg s) = s_solver_path s
               /\ result (given parameters_arg s) = result s)
    by (destruct parameters_arg; repeat split).
  unfold built.
  pose proof (build_cases E parameters_arg s w) as H. cbv zeta in H.
  destruct (prepared (parameters (given parameters_arg s))) as [[op b]|].
  - destruct H as (p0 & _ & [[e H]|(sfx & bb & bnd & _ & _ & [(e & _ & H)|(_ & H)])]);
      rewrite H; cbn [fst]; destruct b; exact Hg.
  - destruct H as [e H]. rewrite H. exact Hg.
Qed.

End SolverFacts.

(** ** The writer of [build] and the reader of one line *)

Module WriterFacts.
Import PyStr PyNumber Py Validator Solver Spec StringFacts TextFacts.

Lemma append_nil_r (s : string) : s ++ "" = s.
Proof.
  induction s as [|c s IH]; [reflexivity|].
  change (String c (s ++ "") = String c s). now rewrite IH.
Qed.

Lemma append_assoc (a b c : string) : (a ++ b) ++ c = a ++ b ++ c.
Proof.
  induction a as [|x a IH]; [reflexivity|].
  change (String x ((a ++ b) ++ c) = String x (a ++ b ++ c)). now rewrite IH.
Qed.

(** A loop of [build] over items that all have a text writes the texts,
    separated by commas. *)
Lemma write_sep_after_ok {A} (item : A -> res string) (text : A -> string) (l : list A) :
  Forall (fun x => item x = Ok (text x)) l ->
  write_sep_after item l = (join "," (map text l), Ok tt).
Proof.
  induction 1 as [|x l Hx _ IH]; [reflexivity|].
  cbn [write_sep_after]. rewrite Hx, IH.
  unfold out_bind, out_lift, emit. cbn [map join].
  destruct l as [|y l]; cbn [map join].
  - now rewrite !append_nil_r.
  - reflexivity.
Qed.

Lemma site_text_int (E : env) (i : Z) : site_text E (VInt i) = Ok (serialize_site i).
Proof. reflexivity. Qed.

(** The line of [1q_indices]: the sites, shifted by one, separated by
    commas. *)
Lemma write_1q_indices (E : env) (p : dict) (path : string) (b : bonds) (sites : list Z) :
  dict_get "1q_indices" p = Some (VList (map VInt sites)) ->
  write_key E p path b "1q_indices"
  = ("1q_indices = " ++ join "," (map serialize_site sites) ++ nl, Ok tt).
Proof.
  intros Hp. unfold write_key, dict_item. rewrite Hp.
  cbn [of_option out_lift out_bind String.eqb Ascii.eqb Bool.eqb Datatypes.orb key_in existsb
       is_str py_len py_iter emit].
  rewrite (write_sep_after_ok (site_text E) (fun v => match v with
                                                      | VInt i => serialize_site i
                                                      | _ => ""
                                                      end)).
  - rewrite map_map. reflexivity.
  - apply Forall_map. apply Forall_forall. intros i _. apply site_text_int.
Qed.

Lemma deserialize_serialize (i : Z) : deserialize_site (serialize_site i) = Ok i.
Proof.
  unfold deserialize_site, serialize_site, to_int. rewrite parse_int_str_of_Z.
  cbn [of_option bind]. f_equal. lia.
Qed.

(** One row of [obs-1q]: time, name, site, value. *)
Lemma read_obs_1q_row (t op site val : string) (result : obs_map) :
  _read_data_line "obs-1q" [t; op; site; val] result
  = do tt <- to_float t;
    do vv <- to_float val;
    do i <- deserialize_site site;
    Ok (obs_append (lower op, [i]) tt vv result).
Proof.
  unfold _read_data_line, deserialize_site.
  cbn [word lookup list_lookup of_option bind last String.eqb Ascii.eqb Bool.eqb].
  destruct (to_float t) as [tt|e]; cbn [bind]; [|reflexivity].
  destruct (to_float val) as [vv|e]; cbn [bind]; [|reflexivity].
  destruct (to_int site) as [n|e]; reflexivity.
Qed.

(** One row of [obs-2q]: time, name, two sites, value. *)
Lemma read_obs_2q_row (t op site1 site2 val : string) (result : obs_map) :
  _read_data_line "obs-2q" [t; op; site1; site2; val] result
  = do tt <- to_float t;
    do vv <- to_float val;
    do i <- deserialize_site site1;
    do j <- deserialize_site site2;
    Ok (obs_append (lower op, [i; j]) tt vv result).
Proof.
  unfold _read_data_line, deserialize_site.
  cbn [word lookup list_lookup of_option bind last String.eqb Ascii.eqb Bool.eqb].
  destruct (to_float t) as [tt|e]; cbn [bind]; [|reflexivity].
  destruct (to_float val) as [vv|e]; cbn [bind]; [|reflexivity].
  destruct (to_int site1) as [n|e]; cbn [bind]; [|reflexivity].
  destruct (to_int site2) as [m|e]; reflexivity.
Qed.

(** The line of [2q_indices]: the pairs of sites, shifted by one, all
    separated by commas. *)
Lemma write_2q_indices (E : env) (p : dict) (path : string) (b : bonds)
    (pairs : list (Z * Z)) :
  dict_get "2q_indices" p
  = Some (VList (map (fun ij => VTuple [VInt (fst ij); VInt (snd ij)]) pairs)) ->
  write_key E p path b "2q_indices"
  = ("2q_indices = "
     ++ join "," (map (fun ij => serialize_site (fst ij) ++ "," ++ serialize_site (snd ij))
                      pairs)
     ++ nl, Ok tt).
Proof.
  intros Hp. unfold write_key, dict_item. rewrite Hp.
  cbn [of_option out_lift out_bind String.eqb Ascii.eqb Bool.eqb Datatypes.orb key_in existsb
       is_str py_len py_iter emit].
  rewrite (write_sep_after_ok (pair_text E)
             (fun v => match v with
                       | VTuple [VInt i; VInt j] => serialize_site i ++ "," ++ serialize_site j
                       | _ => ""
                       end)).
  - rewrite map_map. reflexivity.
  - apply Forall_map. apply Forall_forall. intros ij _. reflexivity.
Qed.

End WriterFacts.

(** ** The reader of the output files *)

Module ReaderFacts.
Import PyStr PyNumber Py Validator Solver Spec StringFacts TextFacts.

Lemma obs_key_eqb_eq (a b : obs_key) : obs_key_eqb a b = true <-> a = b.
Proof.
  unfold obs_key_eqb. destruct a as [n1 i1], b as [n2 i2]. cbn [fst snd].
  rewrite andb_true_iff, String.eqb_eq, bool_decide_eq_true.
  split; [intros [-> ->]; reflexivity | intros [= -> ->]; split; reflexivity].
Qed.

(** [_read_data_line] adds the row that the words stand for. *)
Lemma read_data_line_row (ty : string) (words : list string) (result : obs_map) :
  _read_data_line ty words result
  = do r <- row_of ty words; Ok (add_row result r).
Proof.
  unfold row_of, _read_data_line.
  destruct (word words 0) as [w0|e]; cbn [bind]; [|reflexivity].
  destruct (to_float w0) as [t|e]; cbn [bind]; [|reflexivity].
  destruct (word words 1) as [op|e]; cbn [bind]; [|reflexivity].
  destruct (of_option IndexError (last words)) as [wl|e]; cbn [bind]; [|reflexivity].
  destruct (to_float wl) as [val|e]; cbn [bind]; [|reflexivity].
  match goal with |- context [bind ?c _] => destruct c as [q|e] end;
    cbn [bind]; reflexivity.
Qed.

(** The loop over the lines adds the rows in the order of the lines. *)
Lemma read_lines_rows (ty : string) (lines : list string) (result : obs_map) :
  read_lines ty lines result
  = do rows <- rows_of ty lines; Ok (fold_left add_row rows result).
Proof.
  revert result. induction lines as [|line rest IH]; intros result; [reflexivity|].
  cbn [read_lines rows_of].
  destruct (split_ws (strip line)) as [|w ws]; [apply IH|].
  rewrite read_data_line_row.
  destruct (row_of ty (w :: ws)) as [r|e]; cbn [bind]; [|reflexivity].
  rewrite IH. destruct (rows_of ty rest) as [rs|e]; reflexivity.
Qed.





(** [_read_data_file] prints one line and touches nothing else. *)
Lemma read_data_file_world (path ty : string) (w : world) :
  snd (_read_data_file path ty w)
  = print ("Loading output data file: " ++ data_file path ty) w.
Proof.
  unfold _read_data_file, data_file. cbn [print files].
  destruct (files w !! _); reflexivity.
Qed.

(** A call of [load_output] shows on the console, whatever comes of it. *)
Lemma load_output_prints (path : string) (w : world) :
  exists rest,
    console (snd (load_output path w))
    = (console w ++ ("Loading output data file: " ++ data_file path "obs-1q")%string :: rest)%list.
Proof.
  unfold load_output.
  pose proof (read_data_file_world path "obs-1q" w) as H1.
  destruct (_read_data_file path "obs-1q" w) as [[r1|e] w1]; cbn [snd] in *; subst w1.
  - pose proof (read_data_file_world path "obs-2q"
                  (print ("Loading output data file: " ++ data_file path "obs-1q") w)) as H2.
    destruct (_read_data_file path "obs-2q" _) as [[r2|e] w2]; cbn [snd] in *; subst w2.
    + pose proof (read_data_file_world path "global"
                    (print ("Loading output data file: " ++ data_file path "obs-2q")
                       (print ("Loading output data file: " ++ data_file path "obs-1q") w)))
        as H3.
      destruct (_read_data_file path "global" _) as [[r3|e] w3]; cbn [snd] in *; subst w3;
        cbn [print console]; rewrite <- !app_assoc; eexists; reflexivity.
    + cbn [print console]. rewrite <- !app_assoc. eexists; reflexivity.
  - cbn [print console]. eexists; reflexivity.
Qed.

End ReaderFacts.

(** ** The bond indices *)

Module BondFacts.
Import PyStr PyNumber Py Validator Solver Spec StringFacts TextFacts SolverFacts WriterFacts.

(** Reading one entry of a matrix. *)
Lemma cell_nonzero_entry (a : ndarray) (r c i j : nat) :
  shape a = [r; c] -> length (data a) = (r * c)%nat -> (i < r)%nat -> (j < c)%nat ->
  cell_nonzero a i j = Ok (num_nonzero (entry a i j)).
Proof.
  intros Hs Hl Hi Hj. unfold cell_nonzero, nd_index, entry. rewrite Hs.
  cbn [nd_offset fold_right nth].
  replace (i <? r)%nat with true by (symmetry; now apply Nat.ltb_lt).
  replace (j <? c)%nat with true by (symmetry; now apply Nat.ltb_lt).
  rewrite !Nat.mul_1_r. cbn [bind].
  set (rowdata := firstn c (skipn (i * c) (data a))).
  assert (Hrow : length rowdata = c).
  { subst rowdata. rewrite length_firstn, length_skipn, Hl. nia. }
  assert (Hnth : forall d, nth j rowdata d = nth (i * c + j) (data a) d).
  { intros d. subst rowdata. rewrite nth_firstn.
    replace (j <? c)%nat with true by (symmetry; now apply Nat.ltb_lt).
    now rewrite nth_skipn. }
  destruct (skipn j rowdata) as [|x rest] eqn:Hskip.
  - exfalso. apply (f_equal (@length num)) in Hskip.
    rewrite length_skipn, Hrow in Hskip. simpl in Hskip. lia.
  - assert (Hx : x = nth j rowdata (NInt 0)).
    { rewrite <- (firstn_skipn j rowdata) at 1. rewrite Hskip.
      rewrite app_nth2; rewrite length_firstn, Hrow, Nat.min_l by lia; [|lia].
      now rewrite Nat.sub_diag. }
    rewrite Hx, Hnth. reflexivity.
Qed.

Lemma add_hits_app (h1 h2 : list (nat * nat)) (acc : bonds) :
  add_hits (h1 ++ h2) acc = add_hits h2 (add_hits h1 acc).
Proof.
  unfold add_hits, one_based. cbn [fst snd].
  now rewrite !map_app, !app_assoc.
Qed.

Lemma add_hits_nil (acc : bonds) : add_hits [] acc = acc.
Proof. destruct acc. unfold add_hits. cbn. now rewrite !app_nil_r. Qed.

(** The inner loop adds the positions of its row that the test picks. *)
Lemma scan_row_hits (test : nat -> nat -> res bool) (f : nat * nat -> bool)
    (i : nat) (js : list nat) (acc : bonds) :
  Forall (fun j => test i j = Ok (f (i, j))) js ->
  scan_row test i js acc = Ok (add_hits (List.filter f (map (pair i) js)) acc).
Proof.
  intros H. revert acc. induction H as [|j js Hj _ IH]; intros acc.
  - cbn. now rewrite add_hits_nil.
  - cbn [scan_row map List.filter]. rewrite Hj. cbn [bind]. rewrite IH.
    destruct (f (i, j)); [|reflexivity].
    change ((i, j) :: List.filter f (map (pair i) js))
      with ([(i, j)] ++ List.filter f (map (pair i) js))%list.
    rewrite add_hits_app. reflexivity.
Qed.

(** The outer loop adds the positions of its rows that the test picks. *)
Lemma scan_rows_hits (a : ndarray) (test : nat -> nat -> res bool) (f : nat * nat -> bool)
    (c : nat) (rows : list nat) (acc : bonds) :
  nd_shape_at a 1 = Ok c ->
  Forall (fun i => Forall (fun j => test i j = Ok (f (i, j))) (seq 0 c)) rows ->
  scan_rows a test rows acc
  = Ok (add_hits (List.filter f (flat_map (fun i => map (pair i) (seq 0 c)) rows)) acc).
Proof.
  intros Hc H. revert acc. induction H as [|i rows Hi _ IH]; intros acc.
  - cbn. now rewrite add_hits_nil.
  - cbn [scan_rows flat_map]. rewrite Hc. cbn [bind].
    rewrite (scan_row_hits test f i (seq 0 c) acc Hi). cbn [bind].
    rewrite IH, List.filter_app, add_hits_app. reflexivity.
Qed.

Lemma scan_hits (a : ndarray) (test : nat -> nat -> res bool) (f : nat * nat -> bool)
    (r c : nat) :
  shape a = [r; c] ->
  (forall i j, (i < r)%nat -> (j < c)%nat -> test i j = Ok (f (i, j))) ->
  scan a test = Ok (add_hits (List.filter f (cells r c)) ([], [])).
Proof.
  intros Hs Ht. unfold scan, nd_shape_at. rewrite Hs. cbn [nth_error of_option bind].
  apply scan_rows_hits.
  - unfold nd_shape_at. now rewrite Hs.
  - apply List.Forall_forall. intros i Hi. apply List.Forall_forall. intros j Hj.
    apply in_seq in Hi, Hj. apply Ht; lia.
Qed.

(** The bond indices of two matrices of one shape. *)
Lemma bond_indices_pair (p : dict) (J J_z : ndarray) (r c : nat) :
  interaction p "J" = Some J -> interaction p "J_z" = Some J_z ->
  shape J = [r; c] -> shape J_z = [r; c] ->
  well_formed J = true -> well_formed J_z = true ->
  bond_indices p = Ok (true, add_hits (List.filter (coupled J J_z) (cells r c)) ([], [])).
Proof.
  intros HJ HJz Hs Hsz Hw Hwz. unfold bond_indices. rewrite HJ, HJz.
  unfold shape_eqb. rewrite bool_decide_eq_true_2 by congruence.
  unfold well_formed, nd_size in Hw, Hwz. rewrite Hs in Hw. rewrite Hsz in Hwz.
  apply Nat.eqb_eq in Hw, Hwz. cbn [fold_right] in Hw, Hwz.
  rewrite Nat.mul_1_r in Hw, Hwz.
  rewrite (scan_hits J _ (coupled J J_z) r c Hs); [reflexivity|].
  intros i j Hi Hj.
  rewrite (cell_nonzero_entry J r c i j Hs Hw Hi Hj). cbn [bind].
  unfold coupled. cbn [fst snd].
  destruct (num_nonzero (entry J i j)); [reflexivity|].
  now rewrite (cell_nonzero_entry J_z r c i j Hsz Hwz Hi Hj).
Qed.

Lemma bond_indices_set_unique_id (v : PyVal) (p : dict) :
  bond_indices (dict_set "unique_id" v p) = bond_indices p.
Proof.
  unfold bond_indices. now rewrite !interaction_set_ne by discriminate.
Qed.

(** The positions picked: those in range where a matrix is not zero. *)
Lemma coupled_cells (J J_z : ndarray) (r c i j : nat) :
  In (i, j) (List.filter (coupled J J_z) (cells r c))
  <-> (i < r)%nat /\ (j < c)%nat
      /\ (num_nonzero (entry J i j) = true \/ num_nonzero (entry J_z i j) = true).
Proof.
  rewrite List.filter_In. unfold cells, coupled. cbn [fst snd].
  rewrite in_flat_map, orb_true_iff. split.
  - intros [(i' & Hi & Hin) Hc]. apply in_map_iff in Hin as (j' & [= <- <-] & Hj).
    apply in_seq in Hi, Hj. repeat split; try lia. exact Hc.
  - intros (Hi & Hj & Hc). split; [|exact Hc].
    exists i. split; [apply in_seq; lia|]. apply in_map. apply in_seq. lia.
Qed.

(** When the writing goes through, the file ends with the two lines of the
    bond indices. *)
Lemma write_input_bond_lines (E : env) (p : dict) (path : string) (b : bonds) :
  snd (write_input E p path true b) = Ok tt ->
  exists body, fst (write_input E p path true b) = body ++ bond_lines b.
Proof.
  unfold write_input, out_bind, emit.
  destruct (write_keys E p path b (dict_keys p)) as [body [[]|e]]; [|discriminate].
  intros _. exists body. cbn [fst]. unfold bond_lines. now rewrite !bond_text_join.
Qed.

Lemma cells_NoDup (r c : nat) : List.NoDup (cells r c).
Proof.
  unfold cells.
  assert (H : forall rows, List.NoDup rows ->
                List.NoDup (flat_map (fun i => map (@pair nat nat i) (seq 0 c)) rows)).
  { induction 1 as [|i rows Hi Hnd IH]; [constructor|].
    cbn [flat_map]. apply List.NoDup_app.
    - apply List.NoDup_map_NoDup_ForallPairs; [|apply seq_NoDup].
      intros x y _ _ [= ->]. reflexivity.
    - exact IH.
    - intros [i' j'] Hin Hin'. apply in_map_iff in Hin as (j0 & [= <- <-] & _).
      apply in_flat_map in Hin' as (i0 & Hi0 & Hin').
      apply in_map_iff in Hin' as (j1 & [= <- <-] & _). contradiction. }
  apply H, seq_NoDup.
Qed.

End BondFacts.

(** ** The validator *)

Module VerifyFacts.
Import PyStr PyNumber Py Validator Solver Spec StringFacts TextFacts SolverFacts WriterFacts.

Lemma dict_keys_set (k : string) (v : PyVal) (d : dict) :
  dict_in k d = true -> dict_keys (dict_set k v d) = dict_keys d.
Proof.
  unfold dict_in, dict_keys. induction d as [|[k0 v0] d IH]; cbn; [discriminate|].
  destruct (String.eqb_spec k0 k) as [->|Hne]; cbn; [reflexivity|].
  intros H. now rewrite IH.
Qed.

Lemma dict_in_set (k k' : string) (v : PyVal) (d : dict) :
  dict_in k d = true -> dict_in k' (dict_set k v d) = dict_in k' d.
Proof.
  intros Hin. unfold dict_in in *. destruct (String.eqb_spec k' k) as [->|Hne].
  - rewrite dict_get_set_eq. destruct (dict_get k d); [reflexivity | discriminate].
  - now rewrite dict_get_set_ne.
Qed.

Lemma in_keys (k : string) (v : PyVal) (d : dict) :
  dict_get k d = Some v -> In k (dict_keys d).
Proof.
  unfold dict_keys. induction d as [|[k0 v0] d IH]; cbn; [discriminate|].
  destruct (String.eqb_spec k0 k); [now left | right; auto].
Qed.

(** A rule looks at the dictionary only for its own value, for the number
    of qubits and for [t_final]. *)
Lemma check_key_ext (p p' : dict) (ignore_params : option (list string)) (key : string) :
  dict_get key p' = dict_get key p ->
  _get_number_of_qubits p' = _get_number_of_qubits p ->
  dict_get "t_final" p' = dict_get "t_final" p ->
  check_key p' ignore_params key = check_key p ignore_params key.
Proof.
  intros Hv Hn Ht. unfold check_key, dict_item. rewrite Hv.
  destruct (dict_get key p) as [v|]; cbn [of_option bind]; [|reflexivity].
  unfold check_time, check_site_vector, check_coupling, check_1q_indices,
    check_2q_indices, dict_item.
  now rewrite Hn, Ht.
Qed.

(** Under a key for an [int], a [bool] is taken as the integer it is. *)
Lemma check_key_bool (p p' : dict) (ignore_params : option (list string))
    (k : string) (b : bool) :
  In k int_keys ->
  dict_get k p = Some (VBool b) ->
  dict_get k p' = Some (VInt (Z.b2z b)) ->
  check_key p' ignore_params k = check_key p ignore_params k.
Proof.
  intros Hk Hp Hp'. unfold check_key, dict_item. rewrite Hp, Hp'.
  cbn [of_option bind is_placeholder].
  unfold int_keys in Hk. cbn [In] in Hk.
  repeat (destruct Hk as [<-|Hk]; [destruct b; reflexivity|]).
  contradiction.
Qed.

Lemma number_of_qubits_bool (p : dict) (k : string) (b : bool) :
  dict_get k p = Some (VBool b) ->
  _get_number_of_qubits (dict_set k (VInt (Z.b2z b)) p) = _get_number_of_qubits p.
Proof.
  intros Hp. unfold _get_number_of_qubits.
  destruct (String.eqb_spec "N" k) as [<-|Hne].
  - now rewrite dict_get_set_eq, Hp.
  - now rewrite dict_get_set_ne.
Qed.

Lemma check_keys_bool (p : dict) (ignore_params : option (list string))
    (k : string) (b : bool) (keys : list string) (check_msg : string) :
  In k int_keys ->
  dict_get k p = Some (VBool b) ->
  check_keys (dict_set k (VInt (Z.b2z b)) p) ignore_params keys check_msg
  = check_keys p ignore_params keys check_msg.
Proof.
  intros Hk Hp. revert check_msg.
  induction keys as [|key keys IH]; intros check_msg; [reflexivity|].
  cbn [check_keys].
  assert (Hc : check_key (dict_set k (VInt (Z.b2z b)) p) ignore_params key
               = check_key p ignore_params key).
  { destruct (String.eqb_spec key k) as [->|Hne].
    - apply (check_key_bool p _ _ k b Hk Hp). apply dict_get_set_eq.
    - apply check_key_ext.
      + now apply dict_get_set_ne.
      + now apply number_of_qubits_bool.
      + apply dict_get_set_ne. intros <-. unfold int_keys in Hk. cbn in Hk.
        intuition discriminate. }
  rewrite Hc. destruct (check_key p ignore_params key); cbn [bind]; [apply IH | reflexivity].
Qed.

Lemma cross_checks_bool (p : dict) (k : string) (b : bool) :
  In k int_keys ->
  dict_get k p = Some (VBool b) ->
  cross_checks (dict_set k (VInt (Z.b2z b)) p) = cross_checks p.
Proof.
  intros Hk Hp.
  assert (Hin : dict_in k p = true) by (unfold dict_in; now rewrite Hp).
  assert (Ht : k <> "t_final") by (intros ->; cbn in Hk; intuition discriminate).
  assert (Hu : k <> "tau") by (intros ->; cbn in Hk; intuition discriminate).
  unfold cross_checks, dict_item.
  rewrite !(dict_in_set k _ _ p Hin).
  rewrite (dict_get_set_ne "tau") by congruence.
  rewrite (dict_get_set_ne "t_final") by congruence.
  destruct (String.eqb_spec "output_step" k) as [<-|Hne].
  - rewrite dict_get_set_eq, Hp. destruct b; reflexivity.
  - now rewrite dict_get_set_ne.
Qed.

(** The text of a key's rule is part of the text of the loop. *)
Lemma check_keys_part (p : dict) (ignore_params : option (list string)) (k : string)
    (m : string) (keys : list string) (check_msg msg : string) :
  In k keys ->
  check_key p ignore_params k = Ok m ->
  check_keys p ignore_params keys check_msg = Ok msg ->
  exists pre post, msg = pre ++ m ++ post.
Proof.
  intros Hin Hm. revert check_msg.
  assert (Hgrow : forall keys check_msg msg,
             check_keys p ignore_params keys check_msg = Ok msg ->
             exists post, msg = check_msg ++ post).
  { clear. induction keys as [|key keys IH]; intros check_msg msg H; cbn [check_keys] in H.
    - injection H as <-. exists "". now rewrite append_nil_r.
    - destruct (check_key p ignore_params key) as [m|e]; [|discriminate].
      cbn [bind] in H. apply IH in H as [post ->].
      exists (m ++ post). now rewrite append_assoc. }
  induction keys as [|key keys IH]; intros check_msg H; [contradiction|].
  cbn [check_keys] in H. destruct Hin as [->|Hin].
  - rewrite Hm in H. cbn [bind] in H. apply Hgrow in H as [post ->].
    exists check_msg, post. now rewrite append_assoc.
  - destruct (check_key p ignore_params key) as [m'|e]; [|discriminate].
    cbn [bind] in H. now apply (IH Hin) in H.
Qed.

Lemma is_prefix_app (a b : list ascii) : is_prefix a (a ++ b) = true.
Proof.
  induction a as [|c a IH]; [reflexivity|]. cbn. now rewrite Ascii.eqb_refl.
Qed.

Lemma contains_part (pre m post : string) : contains m (pre ++ m ++ post) = true.
Proof.
  unfold contains. rewrite !chars_app.
  induction (chars pre) as [|c l IH].
  - destruct (chars m ++ chars post)%list eqn:H; cbn [app contains_list];
      rewrite <- ?H, is_prefix_app; reflexivity.
  - cbn [app contains_list]. rewrite IH. apply orb_true_r.
Qed.

(** The rule of a key for a [bool], on a value that is not one. *)
Lemma check_key_not_bool (p : dict) (ignore_params : option (list string))
    (k : string) (v : PyVal) :
  In k bool_keys ->
  dict_get k p = Some v ->
  is_bool v = false ->
  is_placeholder v = false ->
  check_key p ignore_params k = Ok (error_390 k).
Proof.
  intros Hk Hp Hb Hph. unfold check_key, dict_item. rewrite Hp.
  cbn [of_option bind]. rewrite Hph.
  unfold bool_keys in Hk. cbn [In] in Hk.
  repeat (destruct Hk as [<-|Hk];
          [cbn [String.eqb Ascii.eqb Bool.eqb key_in existsb orb]; unfold check_bool;
           rewrite Hb; reflexivity|]).
  contradiction.
Qed.

(** [build] reads the output prefix after the validator has returned the
    empty text, and then the value under [output_files_prefix], if there is
    one, is a string: the prefix is defined. *)
Lemma validated_output_prefix (p : dict) (ignore_params : option (list string)) :
  verify_parameters (Some p) ignore_params = Ok "" ->
  exists s, output_prefix p = Ok s.
Proof.
  intros H. unfold output_prefix.
  destruct (dict_get "output_files_prefix" p) as [v|] eqn:Hv; cbn [default].
  2: { cbn. eauto. }
  assert (Hs : is_str v = true).
  { destruct (is_str v) eqn:Hs; [reflexivity|exfalso].
    unfold verify_parameters in H.
    destruct (missing_required p); [discriminate|].
    destruct (check_keys p ignore_params (dict_keys p) "") as [check_msg|e] eqn:Hck;
      cbn [bind] in H; [|discriminate].
    destruct (cross_checks p) as [more|e]; cbn [bind] in H; [|discriminate].
    injection H as H.
    assert (Hk : check_key p ignore_params "output_files_prefix"
                 = Ok ("Error 425: output_files_prefix is not a string" ++ nl)).
    { unfold check_key, dict_item. rewrite Hv. cbn [of_option bind].
      replace (is_placeholder v) with false by (now destruct v).
      cbn [String.eqb Ascii.eqb Bool.eqb key_in existsb orb]. unfold check_prefix.
      rewrite Hs. reflexivity. }
    destruct (check_keys_part _ _ _ _ _ _ _ (in_keys _ _ _ Hv) Hk Hck) as (pre & post & ->).
    destruct pre; discriminate H. }
  destruct v as [| | | |s| | |]; try discriminate Hs.
  unfold default, from_option, id. cbv beta iota.
  destruct (orb _ _); eauto.
Qed.

End VerifyFacts.

(** * Properties of the solver interface *)

Import PyStr PyNumber Py Validator Solver Spec.
Import StringFacts TextFacts SolverFacts WriterFacts ReaderFacts BondFacts VerifyFacts.

(** ** C1: a missing required key *)

(** C1. When one of the keys N, t_final and tau is missing, the validator
    returns the text of Error 110 and nothing else: whatever the other
    entries hold, no rule for a key and no rule across keys adds to the
    text or raises. *)
Theorem verify_parameters_missing_required (parameters : dict)
    (ignore_params : option (list string)) :
  dict_in "N" parameters = false \/ dict_in "t_final" parameters = false
  \/ dict_in "tau" parameters = false ->
  verify_parameters (Some parameters) ignore_params
  = Ok ("Error 110: N, t_final and tau must be defined as they do not have default values"
        ++ nl).
Proof.
  intros H. unfold verify_parameters.
  assert (Hm : missing_required parameters = true).
  { unfold missing_required. destruct H as [H|[H|H]]; rewrite H; simpl;
      rewrite ?orb_true_r; reflexivity. }
  now rewrite Hm.
Qed.

(** A configuration without N whose other entries would make the rules for
    t_final and 2q_components fail. *)
Lemma verify_parameters_missing_required_witness :
  verify_parameters
    (Some [("t_final", VStr "soon"); ("tau", VFloat f64_half);
           ("2q_components", VList [VInt 1])]) None
  = Ok ("Error 110: N, t_final and tau must be defined as they do not have default values"
        ++ nl).
Proof.
  apply verify_parameters_missing_required. left. reflexivity.
Defined.

(** ** C2: the smallest configuration, end to end *)

Lemma build_minimal_run (E : env) (w : world) :
  build E None (__init__ E (Some minimal) None None) w
  = (Ok tt,
     with_paths "lindblad.input.txt" "lindblad" "" (__init__ E (Some minimal) None None),
     write_file "lindblad.input.txt"
       ("N = 2" ++ nl ++ "t_final = 1.0" ++ nl ++ "tau = 0.5" ++ nl)
       (print "lindblad.input.txt" (print "Creating solver input file:" w))).
Proof.
  rewrite (build_run E None _ w minimal "lindblad" false "" false ([], []));
    [|vm_compute; reflexivity ..].
  replace (write_input E minimal ("lindblad" ++ "") false ([], []))
    with ("N = 2" ++ nl ++ "t_final = 1.0" ++ nl ++ "tau = 0.5" ++ nl, Ok tt : res unit)
    by (vm_compute; reflexivity).
  reflexivity.
Qed.

Lemma build_prefixed_run (E : env) (w : world) :
  build E None (__init__ E (Some minimal_prefixed) None None) w
  = (Ok tt,
     with_paths "lindblad.input.txt" "lindblad" ""
       (__init__ E (Some minimal_prefixed) None None),
     write_file "lindblad.input.txt"
       ("N = 2" ++ nl ++ "t_final = 1.0" ++ nl ++ "tau = 0.5" ++ nl
        ++ "output_files_prefix = lindblad" ++ nl)
       (print "lindblad.input.txt" (print "Creating solver input file:" w))).
Proof.
  rewrite (build_run E None _ w minimal_prefixed "lindblad" false "" false ([], []));
    [|vm_compute; reflexivity ..].
  replace (write_input E minimal_prefixed ("lindblad" ++ "") false ([], []))
    with ("N = 2" ++ nl ++ "t_final = 1.0" ++ nl ++ "tau = 0.5" ++ nl
          ++ "output_files_prefix = lindblad" ++ nl, Ok tt : res unit)
    by (vm_compute; reflexivity).
  reflexivity.
Qed.

(** C2, as stated, fails: the input file written for
    [{N: 2, t_final: 1.0, tau: 0.5}] has no line
    [output_files_prefix = lindblad]. *)
Lemma build_minimal_has_no_prefix_line :
  ~ scenario (example_env 0) empty_world
      ["N = 2"; "t_final = 1.0"; "tau = 0.5"; "output_files_prefix = lindblad"].
Proof.
  intros (_ & s' & w' & text & Hb & Hf & Hl).
  rewrite build_minimal_run in Hb. injection Hb as <- <-.
  cbn [s_input_file with_paths] in Hf. rewrite files_write_file in Hf.
  injection Hf as <-.
  apply Forall_inv_tail, Forall_inv_tail, Forall_inv_tail, Forall_inv in Hl.
  vm_compute in Hl. intuition discriminate.
Qed.

(** C2 (amended). For [{N: 2, t_final: 1.0, tau: 0.5}] the validator returns
    the empty text, and [build] writes the file [lindblad.input.txt], whose
    lines are exactly [N = 2], [t_final = 1.0] and [tau = 0.5], and records
    the output prefix [lindblad].  The line [output_files_prefix = lindblad]
    is written for a configuration that has the key [output_files_prefix],
    here with an empty value. *)
Theorem build_minimal_scenario (E : env) (w : world) :
  scenario E w ["N = 2"; "t_final = 1.0"; "tau = 0.5"]
  /\ (let '(s', w') := built E None (__init__ E (Some minimal) None None) w in
      s_input_file s' = "lindblad.input.txt" /\ s_output_path s' = "lindblad"
      /\ text_lines <$> files w' !! "lindblad.input.txt"
         = Some ["N = 2"; "t_final = 1.0"; "tau = 0.5"])
  /\ (let '(s', w') := built E None (__init__ E (Some minimal_prefixed) None None) w in
      s_input_file s' = "lindblad.input.txt" /\ s_output_path s' = "lindblad"
      /\ text_lines <$> files w' !! "lindblad.input.txt"
         = Some ["N = 2"; "t_final = 1.0"; "tau = 0.5";
                 "output_files_prefix = lindblad"]).
Proof.
  split; [|split].
  - split; [vm_compute; reflexivity|].
    eexists _, _, _. split; [apply build_minimal_run|].
    split; [cbn [s_input_file with_paths]; apply files_write_file|].
    repeat apply List.Forall_cons; try apply List.Forall_nil; vm_compute; auto 10.
  - unfold built. rewrite build_minimal_run. repeat split.
    rewrite files_write_file. vm_compute. reflexivity.
  - unfold built. rewrite build_prefixed_run. repeat split.
    rewrite files_write_file. vm_compute. reflexivity.
Qed.

(** ** C6: coupling matrices of different shapes *)

(** C6, as stated, fails: [build] compares the shapes only when [J] and
    [J_z] are both arrays.  With [J] a nested list of 2 by 2, which the
    validator accepts for two qubits, and [J_z] an array of 1 by 1, the
    validator finds nothing and [build] returns: it takes the bond indices
    from [J_z] alone and writes the input file, with the list under [J] on
    a line of its own. *)
Lemma build_list_and_array_returns :
  verify_parameters (Some list_and_array) None = Ok ""
  /\ files empty_world !! "lindblad.input.txt" = None
  /\ exists s' w' text,
       build (example_env 0) (Some list_and_array) (__init__ (example_env 0) None None None)
         empty_world = (Ok tt, s', w')
       /\ s_input_file s' = "lindblad.input.txt"
       /\ files w' !! "lindblad.input.txt" = Some text
       /\ Forall (fun l => In l (text_lines text))
            ["J = 0.0, 1.0], [0.5, 0.0"; "first_bond_indices = 1";
             "second_bond_indices = 1"].
Proof.
  split; [vm_compute; reflexivity|]. split; [reflexivity|].
  eexists _, _, _. split; [vm_compute; reflexivity|].
  split; [reflexivity|]. split; [vm_compute; reflexivity|].
  repeat apply List.Forall_cons; try apply List.Forall_nil; vm_compute; auto 10.
Qed.

(** C6 (amended). When [J] and [J_z] are both arrays and their shapes
    differ, [build] raises, and the files are what they were before the
    call: no input file has been created or changed. *)
Theorem build_shape_mismatch_raises (E : env) (parameters_arg : option dict)
    (s : solver) (w : world) (p : dict) (J J_z : ndarray) :
  parameters (given parameters_arg s) = Some p ->
  interaction p "J" = Some J ->
  interaction p "J_z" = Some J_z ->
  shape J <> shape J_z ->
  exists e s' w', build E parameters_arg s w = (Raise e, s', w') /\ files w' = files w.
Proof.
  intros Hp HJ HJz Hne.
  pose proof (build_cases E parameters_arg s w) as H. cbv zeta in H.
  destruct (prepared (parameters (given parameters_arg s))) as [[op b]|];
    [|destruct H as [e H]; eauto].
  destruct H as (p0 & Hp0 & [[e H]|(sfx & bb & bnd & _ & Hbond & _)]).
  - exists e. eexists _, _. split; [exact H|]. now destruct b.
  - exfalso. rewrite Hp in Hp0. injection Hp0 as <-.
    rewrite (bond_indices_mismatch _ J J_z) in Hbond; [discriminate| | |exact Hne];
      destruct b; try assumption; now rewrite interaction_set_ne.
Qed.

(** A 2 by 2 [J] with a 1 by 1 [J_z], passed to [build] itself. *)
Lemma build_shape_mismatch_raises_witness :
  exists e s' w',
    build (example_env 0) (Some mismatched) (__init__ (example_env 0) None None None)
          empty_world = (Raise e, s', w')
    /\ files w' = files empty_world.
Proof.
  apply (build_shape_mismatch_raises _ _ _ _ mismatched J_2x2 J_1x1);
    [reflexivity | reflexivity | reflexivity | vm_compute; discriminate].
Defined.

(** ** C7: a solver that fails *)

Lemma execute_known_paths (E : env) (c v f : string) (w : world) :
  execute E (Some c) (Some v) f w
  = (fst (run_process E (call_string c v f) (files w)),
     {| files := snd (run_process E (call_string c v f) (files w));
        console := console w
                   ++ execute_lines (call_string c v f)
                        (fst (run_process E (call_string c v f) (files w))) |}).
Proof.
  unfold execute, execute_lines, print. cbn [process_default_paths fst snd files console].
  destruct (run_process E (call_string c v f) (files w)) as [code fs].
  cbn [fst snd files console]. now rewrite <- !app_assoc.
Qed.

(** C7. When the solver ends with a non-zero exit code, [solve] raises its
    error; the instance and the world are then what they were when the
    solver ended: the stored result is the one from before the call, and the
    console holds the three lines of [execute] last, so that no output file
    has been looked for ([load_output] starts with a line on the console). *)
Theorem solve_nonzero_exit_aborts (E : env) (s : solver) (w : world)
    (s1 : solver) (w1 w2 : world) (exit_code : Z) :
  solve_prepare E s w = (Ok tt, s1, w1) ->
  execute E (Some (s_cygwin_path s1)) (Some (s_solver_path s1)) (s_input_file s1) w1
  = (exit_code, w2) ->
  exit_code <> 0 ->
  solve E s w = (Raise (Exception "There was an error executing the solver."), s1, w2)
  /\ result s1 = result s
  /\ console w2
     = (console w1
        ++ execute_lines
             (call_string (s_cygwin_path s1) (s_solver_path s1) (s_input_file s1))
             exit_code)%list
  /\ (forall (path : string) (w0 : world),
        exists rest,
          console (snd (load_output path w0))
          = (console w0
             ++ ("Loading output data file: " ++ data_file path "obs-1q")%string :: rest)%list).
Proof.
  intros Hprep Hexec Hcode. split; [|split; [|split; [|exact load_output_prints]]].
  - unfold solve, st_bind. fold (solve_prepare E s w). rewrite Hprep, Hexec.
    destruct (Z.eqb_spec exit_code 0); [contradiction | reflexivity].
  - unfold solve_prepare in Hprep. destruct (String.eqb (s_input_file s) "").
    + pose proof (build_keeps E None s w) as (_ & _ & Hr). unfold built in Hr.
      now rewrite Hprep in Hr.
    + now injection Hprep as <- <-.
  - rewrite execute_known_paths in Hexec. now injection Hexec as <- <-.
Qed.

(** The solver ends with exit code 1 on the input file of [minimal]. *)
Lemma solve_nonzero_exit_aborts_witness :
  let E := example_env 1 in
  let s := __init__ E (Some minimal) None None in
  let s1 := with_paths "lindblad.input.txt" "lindblad" "" s in
  exists w2,
    solve E s empty_world
    = (Raise (Exception "There was an error executing the solver."), s1, w2)
    /\ result s1 = result s
    /\ console w2
       = (["Creating solver input file:"; "lindblad.input.txt"]
          ++ execute_lines "/opt/lindbladmpo/../bin/lindbladmpo input_file 'lindblad.input.txt'"
               1)%list.
Proof.
  intros E s s1. eexists.
  refine ((fun H => conj (proj1 H) (conj (proj1 (proj2 H)) (proj1 (proj2 (proj2 H))))) _).
  apply (solve_nonzero_exit_aborts E s empty_world s1
           (write_file "lindblad.input.txt"
              ("N = 2" ++ nl ++ "t_final = 1.0" ++ nl ++ "tau = 0.5" ++ nl)
              (print "lindblad.input.txt"
                 (print "Creating solver input file:" empty_world))) _ 1);
    [vm_compute; reflexivity | vm_compute; reflexivity | lia].
Defined.

(** ** C8: the validator can raise *)

(** C8 fails on the code: a member of [2q_components] that is not a string
    reaches [str.lower] and the validator raises [TypeError], where the
    same member in [1q_components] is reported as Error 441. *)
Theorem verify_parameters_raises_on_2q_member :
  verify_parameters (Some (minimal ++ [("2q_components", VList [VInt 1])])%list) None
  = Raise TypeError
  /\ verify_parameters (Some (minimal ++ [("1q_components", VList [VInt 1])])%list) None
     = Ok ("Error 441: 1q_components only takes x,y,z (or a subset)" ++ nl).
Proof. split; vm_compute; reflexivity. Qed.

(** ** C9: what [build] changes *)

(** C9, as stated, fails: with [b_unique_id] set, [build] stores the
    generated id in the caller's dictionary. *)
Lemma build_unique_id_changes_mapping :
  parameters (fst (built (example_env 0) None
                     (__init__ (example_env 0) (Some minimal_unique) None None) empty_world))
  = Some (minimal_unique
          ++ [("unique_id", VStr "4a1f0c2e9b7d4e6f8a3b5c7d9e1f2a3b")])%list
  /\ parameters (fst (built (example_env 0) None
                        (__init__ (example_env 0) (Some minimal_unique) None None)
                        empty_world))
     <> Some minimal_unique.
Proof. split; [vm_compute; reflexivity | vm_compute; discriminate]. Qed.

(** C9 (amended). [build] leaves the solver paths and the stored result as
    they are and only adds lines to the console.  Its dictionary is the one
    it was given, in which it stores the generated id under [unique_id] once
    it has got as far as a set [b_unique_id], and which is otherwise the
    same.  When it returns, the files are the ones from before with the
    input file at the recorded path written; when it raises, at most one
    file has been written and the recorded input path, output prefix and id
    suffix are unchanged. *)
Theorem build_effects (E : env) (parameters_arg : option dict) (s : solver) (w : world) :
  let '(r, s', w') := build E parameters_arg s w in
  s_cygwin_path s' = s_cygwin_path s /\ s_solver_path s' = s_solver_path s
  /\ result s' = result s
  /\ parameters s' = mapping_after E <$> parameters (given parameters_arg s)
  /\ (exists lines, console w' = console w ++ lines)%list
  /\ match r with
     | Ok _ => exists text, files w' = <[s_input_file s' := text]> (files w)
     | Raise _ =>
         (files w' = files w \/ exists path text, files w' = <[path := text]> (files w))
         /\ s_input_file s' = s_input_file s /\ s_output_path s' = s_output_path s
         /\ s_id_suffix s' = s_id_suffix s
     end.
Proof.
  assert (Hg : s_cygwin_path (given parameters_arg s) = s_cygwin_path s
               /\ s_solver_path (given parameters_arg s) = s_solver_path s
               /\ result (given parameters_arg s) = result s
               /\ s_input_file (given parameters_arg s) = s_input_file s
               /\ s_output_path (given parameters_arg s) = s_output_path s
               /\ s_id_suffix (given parameters_arg s) = s_id_suffix s)
    by (destruct parameters_arg; repeat split).
  destruct Hg as (Hc & Hv & Hr & Hi & Ho & Hs).
  pose proof (build_cases E parameters_arg s w) as H. cbv zeta in H.
  destruct (prepared (parameters (given parameters_arg s))) as [[op b]|] eqn:Hprep.
  - destruct H as (p0 & Hp0 & H). rewrite Hp0 in Hprep |- *.
    assert (Hm : mapping_after E p0
                 = if b then dict_set "unique_id" (VStr (uuid4_hex E)) p0 else p0)
      by (unfold mapping_after; rewrite Hprep; now destruct b).
    cbn [fmap option_fmap option_map]. rewrite Hm.
    destruct H as [[e H]|(sfx & bb & bnd & _ & _ & [(e & _ & H)|(_ & H)])]; rewrite H.
    + destruct b; cbn; repeat split; auto;
        solve [eexists; reflexivity | exists []; now rewrite app_nil_r].
    + destruct b; cbn; repeat split; auto;
        try solve [right; eexists _, _; reflexivity];
        eexists; rewrite <- ?app_assoc; reflexivity.
    + destruct b; cbn; repeat split; auto;
        try solve [eexists; reflexivity];
        eexists; rewrite <- ?app_assoc; reflexivity.
  - destruct H as [e H]. rewrite H. repeat split; auto.
    + destruct (parameters (given parameters_arg s)) as [p0|]; [|reflexivity].
      cbn [fmap option_fmap option_map]. unfold mapping_after. now rewrite Hprep.
    + exists []. now rewrite app_nil_r.
Qed.

(** ** C4: site indices, written and read back *)

(** C4. [build] writes a site index [i] as the numeral of [i + 1], in the
    line of [1q_indices] and in that of [2q_indices]; [_read_data_line]
    takes a site word [w] as [int(w) - 1].  The second undoes the first: a
    list of indices written and read back is the list itself, and a row
    whose site words are written indices is stored under those indices. *)
Theorem site_index_round_trip (E : env) (p : dict) (path : string) (b : bonds)
    (sites : list Z) (pairs : list (Z * Z)) :
  write_key E (dict_set "1q_indices" (VList (map VInt sites)) p) path b "1q_indices"
  = ("1q_indices = " ++ join "," (map serialize_site sites) ++ nl, Ok tt)
  /\ write_key E
       (dict_set "2q_indices"
          (VList (map (fun ij => VTuple [VInt (fst ij); VInt (snd ij)]) pairs)) p)
       path b "2q_indices"
     = ("2q_indices = "
        ++ join ","
             (map (fun ij => serialize_site (fst ij) ++ "," ++ serialize_site (snd ij))
                  pairs)
        ++ nl, Ok tt)
  /\ map deserialize_site (map serialize_site sites) = map Ok sites
  /\ (forall (i : Z) (t op val : string) (result : obs_map),
        _read_data_line "obs-1q" [t; op; serialize_site i; val] result
        = do tt <- to_float t;
          do vv <- to_float val;
          Ok (obs_append (lower op, [i]) tt vv result))
  /\ (forall (i j : Z) (t op val : string) (result : obs_map),
        _read_data_line "obs-2q" [t; op; serialize_site i; serialize_site j; val] result
        = do tt <- to_float t;
          do vv <- to_float val;
          Ok (obs_append (lower op, [i; j]) tt vv result)).
Proof.
  repeat split.
  - apply write_1q_indices, dict_get_set_eq.
  - apply write_2q_indices, dict_get_set_eq.
  - rewrite map_map. apply map_ext. intros i. apply deserialize_serialize.
  - intros. rewrite read_obs_1q_row, deserialize_serialize. reflexivity.
  - intros. rewrite read_obs_2q_row, !deserialize_serialize. reflexivity.
Qed.

(** ** C3: reading an output file *)




(** ** C5: the bond indices of two coupling matrices *)

(** C5. For matrices [J] and [J_z] of one shape, [r] by [c], the two bond
    index lists that [build] computes are the row and the column numbers,
    counted from 1, of the positions where [J] or [J_z] is not zero: every
    such position once, row by row, the two lists side by side and so of
    one length.  When [build] returns, the input file ends with the two
    lists, written as numerals separated by commas. *)
Theorem bond_indices_of_matrices (E : env) (parameters_arg : option dict) (s : solver)
    (w : world) (p : dict) (J J_z : ndarray) (r c : nat) :
  parameters (given parameters_arg s) = Some p ->
  interaction p "J" = Some J ->
  interaction p "J_z" = Some J_z ->
  shape J = [r; c] ->
  shape J_z = [r; c] ->
  well_formed J = true ->
  well_formed J_z = true ->
  let hits := List.filter (coupled J J_z) (cells r c) in
  let b := (one_based (map fst hits), one_based (map snd hits)) in
  bond_indices p = Ok (true, b)
  /\ length (fst b) = length (snd b)
  /\ List.NoDup hits
  /\ (forall i j : nat,
        In (i, j) hits
        <-> (i < r)%nat /\ (j < c)%nat
            /\ (num_nonzero (entry J i j) = true \/ num_nonzero (entry J_z i j) = true))
  /\ match build E parameters_arg s w with
     | (Ok _, s', w') =>
         exists body, files w' !! s_input_file s' = Some (body ++ bond_lines b)
     | (Raise _, _, _) => True
     end.
Proof.
  intros Hp HJ HJz Hs Hsz Hw Hwz hits b.
  assert (Hb : bond_indices p = Ok (true, b))
    by (rewrite (bond_indices_pair p J J_z r c); auto).
  split; [exact Hb|]. split; [|split; [|split]].
  - unfold b, one_based. cbn [fst snd]. now rewrite !length_map.
  - apply List.NoDup_filter, cells_NoDup.
  - intros i j. apply coupled_cells.
  - pose proof (build_cases E parameters_arg s w) as H. cbv zeta in H.
    destruct (prepared (parameters (given parameters_arg s))) as [[op u]|];
      [|destruct H as [e ->]; exact I].
    destruct H as (p0 & Hp0 & [[e ->]|(sfx & bb & bnd & _ & Hbond & H)]); [exact I|].
    rewrite Hp in Hp0. injection Hp0 as <-.
    assert (Hbb : (bb, bnd) = (true, b)).
    { destruct u; [rewrite bond_indices_set_unique_id in Hbond|]; congruence. }
    injection Hbb as -> ->.
    destruct H as [(e & _ & ->)|(Hok & ->)]; [exact I|].
    apply write_input_bond_lines in Hok as [body Hbody].
    exists body. cbn [s_input_file with_paths]. now rewrite files_write_file, Hbody.
Qed.

(** A 2 by 2 [J] with entries at (0,1) and (1,0), and a [J_z] with one at
    (1,1). *)
Lemma bond_indices_of_matrices_witness :
  bond_indices coupled_pair = Ok (true, ([1; 2; 2], [2; 1; 2]))
  /\ exists body,
       files (snd (built (example_env 0) None
                     (__init__ (example_env 0) (Some coupled_pair) None None) empty_world))
       !! "lindblad.input.txt"
       = Some (body ++ bond_lines ([1; 2; 2], [2; 1; 2])).
Proof.
  pose proof (bond_indices_of_matrices (example_env 0) None
                (__init__ (example_env 0) (Some coupled_pair) None None) empty_world
                coupled_pair J_2x2 Jz_2x2 2 2
                eq_refl eq_refl eq_refl eq_refl eq_refl eq_refl eq_refl)
    as (Hb & _ & _ & _ & Hfile).
  split; [exact Hb|].
  exact Hfile.
Defined.

(** ** C10: a [bool] under a key for an [int] *)


(** C10, as stated, fails in its last part: a key for a [bool] that holds
    the empty string is not rejected, the validator skips the entry. *)
Lemma verify_skips_placeholder_under_bool_key :
  verify_parameters (Some (minimal ++ [("b_periodic_x", VStr "")])%list) None = Ok ""
  /\ is_bool (VStr "") = false.
Proof. split; [vm_compute; reflexivity | reflexivity]. Qed.

(** C10 (amended). Under a key for an [int] a [bool] is taken as the integer
    it is: the validator returns what it returns for the same configuration
    with 1 for [True] and 0 for [False], so [{N: True, t_final: 1.0,
    tau: 0.5}] gives the empty text.  Under a key for a [bool], a value
    that is not a [bool] and not the empty string is rejected: the text
    returned holds the line of Error 390 for the key.  The empty string is
    skipped under every key. *)
Theorem verify_bool_under_int_and_bool_keys :
  (forall (p : dict) (ignore_params : option (list string)) (k : string) (b : bool),
      In k int_keys ->
      dict_get k p = Some (VBool b) ->
      verify_parameters (Some p) ignore_params
      = verify_parameters (Some (dict_set k (VInt (Z.b2z b)) p)) ignore_params)
  /\ verify_parameters (Some minimal_true) None = Ok ""
  /\ (forall (p : dict) (ignore_params : option (list string)) (k : string) (v : PyVal),
        In k bool_keys ->
        dict_get k p = Some v ->
        is_bool v = false ->
        is_placeholder v = false ->
        missing_required p = false ->
        match verify_parameters (Some p) ignore_params with
        | Ok msg => contains (error_390 k) msg = true
        | Raise _ => True
        end)
  /\ (forall (p : dict) (ignore_params : option (list string)) (key : string),
        dict_get key p = Some (VStr "") ->
        check_key p ignore_params key = Ok "").
Proof.
  split; [|split; [|split]].
  - intros p ig k b Hk Hp.
    assert (Hin : dict_in k p = true) by (unfold dict_in; now rewrite Hp).
    unfold verify_parameters, missing_required.
    rewrite !(dict_in_set k _ _ p Hin), (dict_keys_set k _ p Hin).
    rewrite (check_keys_bool p ig k b _ _ Hk Hp), (cross_checks_bool p k b Hk Hp).
    reflexivity.
  - vm_compute. reflexivity.
  - intros p ig k v Hk Hp Hb Hph Hreq. unfold verify_parameters. rewrite Hreq.
    destruct (check_keys p ig (dict_keys p) "") as [check_msg|e] eqn:Hloop;
      cbn [bind]; [|exact I].
    destruct (cross_checks p) as [more|e]; cbn [bind]; [|exact I].
    destruct (check_keys_part p ig k (error_390 k) _ _ _ (in_keys k v p Hp)
                (check_key_not_bool p ig k v Hk Hp Hb Hph) Hloop) as (pre & post & ->).
    rewrite !append_assoc. apply contains_part.
  - intros p ig key Hp. unfold check_key, dict_item. now rewrite Hp.
Qed.

(** [N: True] next to [N: 1], and [b_periodic_x: 1]. *)
Lemma verify_bool_under_int_and_bool_keys_witness :
  verify_parameters (Some minimal_true) None
  = verify_parameters (Some (dict_set "N" (VInt 1) minimal_true)) None
  /\ match verify_parameters (Some (minimal ++ [("b_periodic_x", VInt 1)])%list) None with
     | Ok msg => contains (error_390 "b_periodic_x") msg = true
     | Raise _ => True
     end.
Proof.
  destruct verify_bool_under_int_and_bool_keys as (Hint & _ & Hbool & _).
  split.
  - apply (Hint minimal_true None "N" true); [left; reflexivity | reflexivity].
  - apply (Hbool (minimal ++ [("b_periodic_x", VInt 1)])%list None "b_periodic_x" (VInt 1));
      [left; reflexivity | reflexivity | reflexivity | reflexivity | reflexivity].
Defined.

(** * More about the validator *)

Module VerifyMore.
Import PyStr PyNumber Py Validator Solver Spec Terms.
Import StringFacts TextFacts SolverFacts WriterFacts VerifyFacts.

Lemma append_eq_nil (a b : string) : a ++ b = "" -> a = "" /\ b = "".
Proof. destruct a; [now intros <-|discriminate]. Qed.

Lemma check_keys_ext (p p' : dict) (ig ig' : option (list string)) (keys : list string)
    (check_msg : string) :
  (forall k, In k keys -> check_key p' ig' k = check_key p ig k) ->
  check_keys p' ig' keys check_msg = check_keys p ig keys check_msg.
Proof.
  revert check_msg. induction keys as [|key keys IH]; intros check_msg H; [reflexivity|].
  cbn [check_keys]. rewrite (H key) by now left.
  destruct (check_key p ig key); cbn [bind]; [|reflexivity].
  apply IH. intros k Hk. apply H. now right.
Qed.

Lemma check_keys_app (p : dict) (ig : option (list string)) (l1 l2 : list string)
    (check_msg : string) :
  check_keys p ig (l1 ++ l2) check_msg
  = bind (check_keys p ig l1 check_msg) (check_keys p ig l2).
Proof.
  revert check_msg. induction l1 as [|k l1 IH]; intros check_msg; [reflexivity|].
  cbn [check_keys app]. destruct (check_key p ig k); cbn [bind]; [apply IH|reflexivity].
Qed.

(** The loop returns the empty text when every turn adds the empty text. *)
Lemma check_keys_empty (p : dict) (ig : option (list string)) (keys : list string)
    (check_msg : string) :
  check_keys p ig keys check_msg = Ok ""
  <-> check_msg = "" /\ Forall (fun k => check_key p ig k = Ok "") keys.
Proof.
  revert check_msg. induction keys as [|key keys IH]; intros check_msg; cbn [check_keys].
  - split; [intros [= ->]; auto | now intros [-> _]].
  - destruct (check_key p ig key) as [m|e] eqn:Hk; cbn [bind].
    + rewrite IH. split.
      * intros [Hm Hf]. apply append_eq_nil in Hm as [-> ->]. auto.
      * intros [-> Hf]. inversion Hf as [|? ? Hm Hf']; subst.
        rewrite Hk in Hm. injection Hm as ->. auto.
    + split; [discriminate|]. intros [_ Hf]. inversion Hf; congruence.
Qed.

(** A configuration is accepted when the required keys are there, the rule
    of every key finds nothing and the checks across keys find nothing. *)
Lemma verify_accepts (p : dict) (ig : option (list string)) :
  verify_parameters (Some p) ig = Ok ""
  <-> missing_required p = false
      /\ Forall (fun k => check_key p ig k = Ok "") (dict_keys p)
      /\ cross_checks p = Ok "".
Proof.
  unfold verify_parameters. destruct (missing_required p).
  - split; [discriminate | now intros [? _]].
  - destruct (check_keys p ig (dict_keys p) "") as [m|e] eqn:Hk; cbn [bind].
    + destruct (cross_checks p) as [more|e]; cbn [bind].
      * split.
        -- intros [= H]. apply append_eq_nil in H as [-> ->].
           apply check_keys_empty in Hk as [_ Hf]. auto.
        -- intros (_ & Hf & [= ->]).
           assert (H : check_keys p ig (dict_keys p) "" = Ok "")
             by now apply check_keys_empty.
           rewrite H in Hk. now injection Hk as <-.
      * split; [discriminate | now intros (_ & _ & ?)].
    + split; [discriminate|]. intros (_ & Hf & _).
      assert (H : check_keys p ig (dict_keys p) "" = Ok "") by now apply check_keys_empty.
      congruence.
Qed.

Lemma cross_checks_ext (p p' : dict) :
  dict_get "t_final" p' = dict_get "t_final" p ->
  dict_get "tau" p' = dict_get "tau" p ->
  dict_get "output_step" p' = dict_get "output_step" p ->
  cross_checks p' = cross_checks p.
Proof.
  intros H1 H2 H3. unfold cross_checks, dict_in, dict_item. now rewrite H1, H2, H3.
Qed.

Lemma missing_required_ext (p p' : dict) :
  dict_get "N" p' = dict_get "N" p ->
  dict_get "t_final" p' = dict_get "t_final" p ->
  dict_get "tau" p' = dict_get "tau" p ->
  missing_required p' = missing_required p.
Proof.
  intros H1 H2 H3. unfold missing_required, dict_in. now rewrite H1, H2, H3.
Qed.

Lemma number_of_qubits_ext (p p' : dict) :
  dict_get "N" p' = dict_get "N" p ->
  _get_number_of_qubits p' = _get_number_of_qubits p.
Proof. intros H. unfold _get_number_of_qubits. now rewrite H. Qed.

(** Two dictionaries with the same value under every key are checked
    alike, key by key. *)
Lemma check_key_same (p p' : dict) (ig : option (list string)) (key : string) :
  (forall k, dict_get k p' = dict_get k p) ->
  check_key p' ig key = check_key p ig key.
Proof.
  intros H. apply check_key_ext; [apply H | apply number_of_qubits_ext, H | apply H].
Qed.

(** *** The order of the entries *)

Lemma dict_get_In (p : dict) (k : string) (v : PyVal) :
  List.NoDup (dict_keys p) -> (dict_get k p = Some v <-> In (k, v) p).
Proof.
  unfold dict_keys. induction p as [|[k0 v0] p IH]; intros Hnd; cbn.
  - split; [discriminate | contradiction].
  - inversion Hnd as [|? ? Hnot Hnd']; subst.
    destruct (String.eqb_spec k0 k) as [->|Hne].
    + split.
      * intros [= ->]. now left.
      * intros [[= ->]|Hin]; [reflexivity|].
        exfalso. apply Hnot. apply (in_map fst) in Hin. exact Hin.
    + rewrite (IH Hnd'). split; [now right|].
      intros [[= -> ->]|Hin]; [contradiction | exact Hin].
Qed.

Lemma dict_get_perm (p p' : dict) (k : string) :
  List.NoDup (dict_keys p) -> Permutation p p' -> dict_get k p' = dict_get k p.
Proof.
  intros Hnd Hp.
  assert (Hnd' : List.NoDup (dict_keys p')).
  { unfold dict_keys in *. eapply Permutation_NoDup; [|exact Hnd].
    now apply Permutation_map. }
  destruct (dict_get k p) as [v|] eqn:H.
  - apply (dict_get_In p k v Hnd) in H. apply (dict_get_In p' k v Hnd').
    eapply Permutation_in; eauto.
  - destruct (dict_get k p') as [v'|] eqn:H'; [|reflexivity].
    apply (dict_get_In p' k v' Hnd') in H'.
    apply (Permutation_in _ (Permutation_sym Hp)) in H'.
    apply (dict_get_In p k v' Hnd) in H'. congruence.
Qed.

Lemma verify_perm_accepts (p p' : dict) (ig : option (list string)) :
  List.NoDup (dict_keys p) -> Permutation p p' ->
  verify_parameters (Some p) ig = Ok "" -> verify_parameters (Some p') ig = Ok "".
Proof.
  intros Hnd Hp H. apply verify_accepts in H as (Hm & Hf & Hc). apply verify_accepts.
  assert (Hg : forall k, dict_get k p' = dict_get k p)
    by (intros k; now apply dict_get_perm).
  split; [|split].
  - now rewrite (missing_required_ext p p').
  - rewrite List.Forall_forall in Hf |- *. intros k Hk.
    rewrite (check_key_same p p') by exact Hg. apply Hf.
    unfold dict_keys in *. eapply Permutation_in; [|exact Hk].
    apply Permutation_map, Permutation_sym, Hp.
  - now rewrite (cross_checks_ext p p').
Qed.

(** *** What an accepted configuration holds under the required keys *)

Lemma placeholder_inv (v : PyVal) : is_placeholder v = true -> v = VStr "".
Proof.
  destruct v as [| | | |s| | |]; try discriminate. cbn.
  destruct s; [reflexivity | discriminate].
Qed.

(** The value under a key of an accepted configuration is a place holder
    or passes the rule of the key. *)
Lemma accepted_key (p : dict) (ig : option (list string)) (key : string) (v : PyVal) :
  verify_parameters (Some p) ig = Ok "" ->
  dict_get key p = Some v ->
  check_key p ig key = Ok "".
Proof.
  intros H Hv. apply verify_accepts in H as (_ & Hf & _).
  rewrite List.Forall_forall in Hf. apply Hf. eapply in_keys, Hv.
Qed.

Lemma required_present (p : dict) :
  missing_required p = false ->
  (exists v, dict_get "N" p = Some v) /\ (exists v, dict_get "t_final" p = Some v)
  /\ (exists v, dict_get "tau" p = Some v).
Proof.
  unfold missing_required, dict_in. intros H.
  destruct (dict_get "N" p); [|discriminate].
  destruct (dict_get "t_final" p); [|discriminate].
  destruct (dict_get "tau" p); [|discriminate]. repeat split; eauto.
Qed.

Lemma check_N_ok (key : string) (v : PyVal) :
  check_N key v = Ok "" -> exists n, as_int v = Some n /\ 0 < n.
Proof.
  unfold check_N, le0, num_of.
  destruct v as [|b|z| | | | |]; cbn; try discriminate.
  - destruct b; cbn; [|discriminate]. intros _. exists 1. split; [reflexivity|lia].
  - unfold num_le. cbn. destruct (Z.compare_spec z 0); try discriminate.
    intros _. exists z. split; [reflexivity|lia].
Qed.

Lemma check_time_ok (p : dict) (key : string) (v : PyVal) :
  key <> "t_init" ->
  check_time p key v = Ok "" -> exists x, as_num v = Some x /\ num_le x (NInt 0) = false.
Proof.
  intros Hk. unfold check_time, le0, num_of.
  apply String.eqb_neq in Hk. rewrite Hk. cbn [negb].
  destruct v as [|b|z|f| | | |]; cbn [_is_float negb as_num of_option bind];
    try discriminate.
  all: match goal with
       | |- context [num_le ?x _] => destruct (num_le x (NInt 0)) eqn:Hle
       end; [discriminate|]; intros _; eauto.
Qed.

(** A number that is neither at most 0 nor larger than 0 is a NaN, and
    is not larger than anything, nor anything larger than it. *)
Lemma not_ordered_with_zero (x : num) :
  num_le x (NInt 0) = false -> num_gt x (NInt 0) = false ->
  forall y, num_gt x y = false /\ num_gt y x = false.
Proof.
  unfold num_le, num_gt. destruct x as [a|f]; cbn [num_compare].
  - destruct (a ?= 0); discriminate.
  - destruct f as [s| s| |s m e]; cbn [Z_compare_f64 option_map].
    + destruct (0 ?= 0); cbn; discriminate.
    + destruct s; cbn; discriminate.
    + intros _ _ [b|g]; cbn [num_compare Z_compare_f64 option_map f64_compare];
        [auto|]. destruct g; cbn; auto.
    + match goal with |- context [CompOpp ?c] => destruct c end; cbn; discriminate.
Qed.

(** *** Keys without a rule, and [ignore_params] *)

Ltac split_key key :=
  repeat match goal with
         | |- context [String.eqb key ?s] =>
             destruct (String.eqb key s) eqn:?; cbn [orb andb negb];
             try (intros; reflexivity)
         end.

Lemma check_key_recognised (p : dict) (ig : option (list string)) (key : string) :
  key_in key recognised = true -> check_key p ig key = check_key p None key.
Proof.
  unfold check_key. destruct (dict_item key p) as [v|e]; cbn [bind]; [|reflexivity].
  destruct (is_placeholder v); [reflexivity|].
  cbn [key_in recognised existsb]. split_key key. discriminate.
Qed.

Lemma check_key_unrecognised (p : dict) (ig : option (list string)) (key : string)
    (v : PyVal) :
  key_in key recognised = false -> dict_get key p = Some v ->
  check_key p ig key = if is_placeholder v then Ok "" else check_unknown ig key.
Proof.
  intros H Hv. unfold check_key, dict_item. rewrite Hv. cbn [of_option bind].
  destruct (is_placeholder v); [reflexivity|].
  revert H. cbn [key_in recognised existsb]. split_key key; discriminate.
Qed.

Lemma dict_get_filter (f : string -> bool) (p : dict) (k : string) :
  dict_get k (List.filter (fun kv => f (fst kv)) p)
  = if f k then dict_get k p else None.
Proof.
  induction p as [|[k0 v0] p IH]; cbn [List.filter dict_get fst].
  - now destruct (f k).
  - destruct (String.eqb_spec k0 k) as [->|Hne].
    + destruct (f k) eqn:Hf; cbn [dict_get]; [now rewrite String.eqb_refl|].
      rewrite IH. now rewrite ?Hf.
    + destruct (f k0); cbn [dict_get]; [|exact IH].
      destruct (String.eqb_spec k0 k); [contradiction|exact IH].
Qed.

Lemma dict_keys_filter (f : string -> bool) (p : dict) :
  dict_keys (List.filter (fun kv => f (fst kv)) p) = List.filter f (dict_keys p).
Proof.
  unfold dict_keys. induction p as [|[k0 v0] p IH]; cbn [List.filter map fst];
    [reflexivity|].
  destruct (f k0); cbn [map fst]; now rewrite IH.
Qed.

Lemma ignored_not_recognised (ig : list string) (k : string) :
  key_in k recognised = true -> ignored ig k = false.
Proof. unfold ignored. now intros ->. Qed.

Lemma dict_get_drop_ignored (ig : list string) (p : dict) (k : string) :
  ignored ig k = false -> dict_get k (drop_ignored ig p) = dict_get k p.
Proof.
  intros H. unfold drop_ignored.
  rewrite (dict_get_filter (fun k => negb (ignored ig k))). now rewrite H.
Qed.

Lemma check_keys_drop_ignored (ig : list string) (p : dict) (keys : list string)
    (check_msg : string) :
  Forall (fun k => In k (dict_keys p)) keys ->
  check_keys p (Some ig) keys check_msg
  = check_keys (drop_ignored ig p) None
      (List.filter (fun k => negb (ignored ig k)) keys) check_msg.
Proof.
  revert check_msg. induction keys as [|key keys IH]; intros check_msg Hin;
    [reflexivity|].
  inversion Hin as [|? ? Hk Hin']; subst. cbn [check_keys List.filter].
  assert (Hsome : exists v, dict_get key p = Some v).
  { clear -Hk. unfold dict_keys in Hk. induction p as [|[k0 v0] p IHp]; [contradiction|].
    cbn. destruct (String.eqb_spec k0 key); [eauto|].
    destruct Hk as [Hk|Hk]; [contradiction | auto]. }
  destruct Hsome as [v Hv].
  assert (Hsame : forall k, key_in k recognised = true ->
                            dict_get k (drop_ignored ig p) = dict_get k p).
  { intros k Hr. apply dict_get_drop_ignored. now apply ignored_not_recognised. }
  destruct (ignored ig key) eqn:Hig; cbn [negb].
  - unfold ignored in Hig. apply andb_prop in Hig as [Hr Hl].
    apply negb_true_iff in Hr.
    rewrite (check_key_unrecognised p (Some ig) key v Hr Hv).
    assert (Hz : (if is_placeholder v then Ok "" else check_unknown (Some ig) key)
                 = Ok "").
    { destruct (is_placeholder v); [reflexivity|]. unfold check_unknown.
      unfold key_in in Hl. now rewrite Hl. }
    rewrite Hz. cbn [bind]. rewrite append_nil_r. now apply IH.
  - cbn [check_keys].
    assert (Hc : check_key p (Some ig) key = check_key (drop_ignored ig p) None key).
    { destruct (key_in key recognised) eqn:Hr.
      - rewrite (check_key_recognised p (Some ig) key Hr). symmetry.
        apply check_key_ext.
        + now apply dict_get_drop_ignored.
        + apply number_of_qubits_ext. now apply Hsame.
        + now apply Hsame.
      - assert (Hv' : dict_get key (drop_ignored ig p) = Some v)
          by (rewrite dict_get_drop_ignored; assumption).
        rewrite (check_key_unrecognised p (Some ig) key v Hr Hv).
        rewrite (check_key_unrecognised _ None key v Hr Hv').
        destruct (is_placeholder v); [reflexivity|].
        unfold ignored in Hig. rewrite Hr in Hig. cbn in Hig.
        unfold check_unknown. unfold key_in in Hig. now rewrite Hig. }
    rewrite Hc. destruct (check_key _ None key); cbn [bind]; [now apply IH|reflexivity].
Qed.

(** *** An entry that holds the empty string *)

Lemma dict_get_app (k : string) (p1 p2 : dict) :
  dict_get k (p1 ++ p2)%list
  = match dict_get k p1 with Some v => Some v | None => dict_get k p2 end.
Proof.
  induction p1 as [|[k0 v0] p1 IH]; cbn [app dict_get]; [reflexivity|].
  now destruct (String.eqb k0 k).
Qed.

Lemma dict_get_insert_fresh (k k' : string) (v : PyVal) (p1 p2 : dict) :
  k' <> k -> dict_get k' (p1 ++ (k, v) :: p2)%list = dict_get k' (p1 ++ p2)%list.
Proof.
  intros Hne. rewrite !dict_get_app. cbn [dict_get].
  destruct (String.eqb_spec k k'); [congruence|reflexivity].
Qed.

(** *** One more entry at the end *)

Lemma dict_get_snoc_ne (k k' : string) (v : PyVal) (p : dict) :
  k' <> k -> dict_get k' (p ++ [(k, v)])%list = dict_get k' p.
Proof.
  intros Hne. rewrite dict_get_app. cbn [dict_get].
  destruct (String.eqb_spec k k'); [congruence|]. now destruct (dict_get k' p).
Qed.

Lemma dict_get_snoc_eq (k : string) (v : PyVal) (p : dict) :
  dict_in k p = false -> dict_get k (p ++ [(k, v)])%list = Some v.
Proof.
  unfold dict_in. intros H. rewrite dict_get_app. cbn [dict_get].
  rewrite String.eqb_refl. now destruct (dict_get k p).
Qed.

Lemma in_keys_dict_in (p : dict) (k : string) : In k (dict_keys p) -> dict_in k p = true.
Proof.
  unfold dict_in, dict_keys. induction p as [|[k0 v0] p IH]; [contradiction|].
  cbn. destruct (String.eqb_spec k0 k); [reflexivity|].
  intros [H|H]; [contradiction | auto].
Qed.

(** A configuration with one more entry, under a key that is new and not
    one the checks across keys look at, is accepted when the configuration
    is and the rule of the new key finds nothing. *)
Lemma verify_extend (p : dict) (ig : option (list string)) (k : string) (v : PyVal) :
  dict_in k p = false ->
  ~ In k ["N"; "t_final"; "tau"; "output_step"] ->
  verify_parameters (Some (p ++ [(k, v)])%list) ig = Ok ""
  <-> verify_parameters (Some p) ig = Ok ""
      /\ check_key (p ++ [(k, v)])%list ig k = Ok "".
Proof.
  intros Hfresh Hk.
  assert (Hget : forall k', k' <> k -> dict_get k' (p ++ [(k, v)])%list = dict_get k' p).
  { intros k' H. now apply dict_get_snoc_ne. }
  assert (Hne : forall k', In k' ["N"; "t_final"; "tau"; "output_step"] -> k' <> k).
  { intros k' H ->. contradiction. }
  assert (Hold : forall k', In k' (dict_keys p) ->
                   check_key (p ++ [(k, v)])%list ig k' = check_key p ig k').
  { intros k' Hin. apply in_keys_dict_in in Hin.
    assert (k' <> k) by (intros ->; congruence).
    apply check_key_ext; [|apply number_of_qubits_ext|]; apply Hget; auto.
    all: apply Hne; cbn; auto. }
  rewrite !verify_accepts.
  rewrite (missing_required_ext p) by (apply Hget, Hne; cbn; auto).
  rewrite (cross_checks_ext p) by (apply Hget, Hne; cbn; auto 6).
  unfold dict_keys in *. rewrite map_app. cbn [map fst].
  rewrite List.Forall_app. split.
  - intros (Hm & (Hf & Hl) & Hc). split; [split; [exact Hm|split; [|exact Hc]]|].
    + rewrite List.Forall_forall in Hf |- *. intros k' Hin.
      rewrite <- Hold by exact Hin. now apply Hf.
    + now inversion Hl.
  - intros ((Hm & Hf & Hc) & Hl). split; [exact Hm|split; [split|exact Hc]].
    + rewrite List.Forall_forall in Hf |- *. intros k' Hin.
      rewrite Hold by exact Hin. now apply Hf.
    + now constructor.
Qed.

(** *** Lists of integers without repetition *)

Lemma py_eqb_ints (a b : PyVal) (x y : Z) :
  as_int a = Some x -> as_int b = Some y -> py_eqb a b = (x =? y).
Proof.
  intros Ha Hb.
  assert (H : forall u w, (match Some (u ?= w) with Some Eq => true | _ => false end)
                          = (u =? w)).
  { intros u w. destruct (Z.compare_spec u w); destruct (Z.eqb_spec u w);
      try reflexivity; lia. }
  destruct a as [|ba|za| | | | |]; try discriminate; destruct b as [|bb|zb| | | | |];
    try discriminate; injection Ha as <-; injection Hb as <-; cbn; unfold num_eqb; cbn;
    apply H.
Qed.

Lemma existsb_py_eqb_ints (a : PyVal) (x : Z) (l : list PyVal) (zs : list Z) :
  as_int a = Some x -> Forall2 (fun v z => as_int v = Some z) l zs ->
  existsb (py_eqb a) l = true <-> In x zs.
Proof.
  intros Ha H. induction H as [|b y l zs Hb H IH]; cbn [existsb In].
  - split; [discriminate | contradiction].
  - rewrite orb_true_iff, IH, (py_eqb_ints a b x y Ha Hb), Z.eqb_eq.
    split; intros [->|?]; auto.
Qed.

Lemma dedup_length (l : list PyVal) : (length (dedup l) <= length l)%nat.
Proof.
  induction l as [|x l IH]; cbn [dedup length]; [lia|].
  destruct (existsb (py_eqb x) l); cbn [length]; lia.
Qed.

Lemma dedup_ints (l : list PyVal) (zs : list Z) :
  Forall2 (fun v z => as_int v = Some z) l zs ->
  length (dedup l) = length l <-> List.NoDup zs.
Proof.
  intros H. induction H as [|a x l zs Ha H IH]; cbn [dedup length].
  - split; [constructor | reflexivity].
  - pose proof (existsb_py_eqb_ints a x l zs Ha H) as Hex.
    pose proof (dedup_length l) as Hlen.
    destruct (existsb (py_eqb a) l).
    + split; [lia|]. intros Hnd. inversion Hnd as [|? ? Hnot _]; subst.
      exfalso. apply Hnot. now apply Hex.
    + cbn [length]. split.
      * intros Heq. constructor; [|apply IH; lia].
        intros Hin. apply Hex in Hin. discriminate.
      * intros Hnd. inversion Hnd; subst. f_equal. now apply IH.
Qed.

Lemma ints_hashable (l : list PyVal) (zs : list Z) :
  Forall2 (fun v z => as_int v = Some z) l zs -> forallb hashable l = true.
Proof.
  intros H. induction H as [|a x l zs Ha H IH]; [reflexivity|].
  cbn [forallb]. rewrite IH. now destruct a.
Qed.

(** The loop over [1q_indices] finds nothing when every element is an
    integer below the number of qubits. *)
Lemma check_sites_empty (key : string) (n : Z) (l : list PyVal) :
  check_sites key n l = ""
  <-> exists zs, Forall2 (fun v z => as_int v = Some z) l zs /\ Forall (fun z => z < n) zs.
Proof.
  induction l as [|a l IH]; cbn [check_sites].
  - split; [exists []; split; constructor | reflexivity].
  - destruct (as_int a) as [x|] eqn:Ha.
    + destruct (Z.geb_spec x n) as [Hge|Hlt].
      * split; [discriminate|]. intros (zs & H2 & Hf).
        inversion H2 as [|? y ? zs' Hy H2']; subst. rewrite Ha in Hy. injection Hy as <-.
        inversion Hf; subst. lia.
      * rewrite IH. split.
        -- intros (zs & H2 & Hf). exists (x :: zs). split; constructor; auto.
        -- intros (zs & H2 & Hf). inversion H2 as [|? y ? zs' Hy H2']; subst.
           inversion Hf; subst. eauto.
    + split; [discriminate|]. intros (zs & H2 & _). inversion H2; subst. congruence.
Qed.

(** *** When the rules return a text *)

Ltac returns :=
  repeat first
    [ progress cbn [bind of_option negb]
    | match goal with
      | |- exists m, Ok _ = Ok m => eexists; reflexivity
      | |- exists m, (if ?b then _ else _) = Ok m => destruct b eqn:?
      | |- exists m, bind (if ?b then _ else _) _ = Ok m => destruct b eqn:?
      end ].

Lemma le0_int (v : PyVal) : _is_float v = true -> exists b, le0 v = Ok b.
Proof. destruct v; try discriminate; intros _; cbn; eauto. Qed.

Lemma lt0_int (v : PyVal) : _is_float v = true -> exists b, lt0 v = Ok b.
Proof. destruct v; try discriminate; intros _; cbn; eauto. Qed.

Lemma is_int_float (v : PyVal) : _is_int v = true -> _is_float v = true.
Proof. now destruct v. Qed.

Lemma check_N_returns (key : string) (v : PyVal) : exists m, check_N key v = Ok m.
Proof.
  unfold check_N. destruct (_is_int v) eqn:Hi; cbn [negb]; [|eauto].
  destruct (le0_int v (is_int_float v Hi)) as [b ->]. returns.
Qed.

Lemma check_lattice_returns (key : string) (v : PyVal) :
  exists m, check_lattice key v = Ok m.
Proof.
  unfold check_lattice. destruct (_is_int v) eqn:Hi; cbn [negb]; [|eauto].
  destruct (lt0_int v (is_int_float v Hi)) as [b ->]. returns.
Qed.

Lemma check_step_returns (key : string) (v : PyVal) : exists m, check_step key v = Ok m.
Proof.
  unfold check_step. destruct (_is_int v) eqn:Hi; cbn [negb]; [|eauto].
  destruct (lt0_int v (is_int_float v Hi)) as [b ->]. returns.
Qed.

Lemma check_time_returns (p : dict) (key : string) (v : PyVal) :
  (key = "t_init" -> exists t x, dict_get "t_final" p = Some t /\ as_num t = Some x) ->
  exists m, check_time p key v = Ok m.
Proof.
  intros Ht. unfold check_time. destruct (_is_float v) eqn:Hf; cbn [negb]; [|eauto].
  destruct (le0_int v Hf) as [b Hb]. rewrite Hb.
  destruct (String.eqb_spec key "t_init") as [->|Hne]; cbn [negb bind].
  - destruct (Ht eq_refl) as (t & x & Hget & Hx).
    unfold dict_item, num_of. rewrite Hget.
    assert (Hv : exists y, as_num v = Some y) by (destruct v; try discriminate; cbn; eauto).
    destruct Hv as [y ->]. cbn [of_option bind]. unfold num_gt_truth. rewrite Hx.
    returns.
  - returns.
Qed.

Lemma nd_shape_at_0 (a : ndarray) :
  (nd_size a =? 1)%nat = false -> exists n, nd_shape_at a 0 = Ok n.
Proof.
  unfold nd_size, nd_shape_at. destruct (shape a); cbn; [discriminate | eauto].
Qed.

Lemma check_site_vector_returns (p : dict) (key : string) (v : PyVal) :
  exists m, check_site_vector p key v = Ok m.
Proof.
  unfold check_site_vector. destruct (_is_float v); [eauto|].
  destruct (_get_number_of_qubits p =? -1); [eauto|].
  destruct v as [| | | | |l| |a]; eauto.
  - returns.
  - destruct (names_number a); cbn [negb]; [|eauto].
    destruct (nd_size a =? 1)%nat eqn:Hs; [eauto|].
    destruct (nd_shape_at_0 a Hs) as [n ->]. returns.
Qed.

Lemma check_coupling_returns (p : dict) (key : string) (v : PyVal) :
  exists m, check_coupling p key v = Ok m.
Proof.
  unfold check_coupling. destruct (_is_float v); [eauto|].
  destruct (_get_number_of_qubits p =? -1); [eauto|].
  destruct v as [| | | | |l| |a]; eauto.
  - returns.
  - destruct (names_number a); cbn [negb]; [|eauto].
    destruct (nd_size a =? 1)%nat eqn:Hs; [eauto|].
    destruct (nd_shape_at_0 a Hs) as [n ->]. returns.
Qed.

Lemma check_init_pauli_state_returns (key : string) (v : PyVal) :
  exists m, check_init_pauli_state key v = Ok m.
Proof. destruct v; cbn; eauto. Qed.

Lemma check_bool_returns (key : string) (v : PyVal) : exists m, check_bool key v = Ok m.
Proof. unfold check_bool. returns. Qed.

Lemma check_trotter_order_returns (key : string) (v : PyVal) :
  exists m, check_trotter_order key v = Ok m.
Proof. unfold check_trotter_order. destruct (as_int v); returns. Qed.

Lemma check_max_dim_rho_returns (key : string) (v : PyVal) :
  exists m, check_max_dim_rho key v = Ok m.
Proof.
  unfold check_max_dim_rho. destruct (_is_int v) eqn:Hi; cbn [negb bind]; [|eauto].
  destruct (lt0_int v (is_int_float v Hi)) as [b ->]. returns.
Qed.

Lemma check_cut_off_returns (key : string) (v : PyVal) :
  exists m, check_cut_off key v = Ok m.
Proof. unfold check_cut_off. returns. Qed.

Lemma check_metadata_returns (key : string) (v : PyVal) :
  exists m, check_metadata key v = Ok m.
Proof. unfold check_metadata. destruct v; eauto. returns. Qed.

Lemma check_prefix_returns (key : string) (v : PyVal) : exists m, check_prefix key v = Ok m.
Proof. unfold check_prefix. returns. Qed.

Lemma check_1q_components_returns (key : string) (v : PyVal) :
  exists m, check_1q_components key v = Ok m.
Proof.
  unfold check_1q_components. destruct v; eauto.
  destruct (3 <? length l)%nat; [eauto|].
  destruct (count_1q key l 0 0 0) as [msg|[[x y] z]]; [eauto|]. returns.
Qed.

Lemma check_1q_indices_returns (p : dict) (key : string) (v : PyVal) :
  (forall a, v <> VArray a) -> exists m, check_1q_indices p key v = Ok m.
Proof.
  intros Ha. unfold check_1q_indices.
  destruct v as [| | | |s|l| |a]; cbn [ne_str_truth bind negb]; eauto.
  - destruct (negb (s =? "")%string); cbn; eauto.
  - destruct (_get_number_of_qubits p =? -1); [eauto|].
    destruct (check_sites key (_get_number_of_qubits p) l) as [|c msg] eqn:Hs;
      cbn [String.eqb negb]; [|eauto].
    destruct (_ >? _); [eauto|].
    apply check_sites_empty in Hs as (zs & H2 & _).
    unfold set_len. rewrite (ints_hashable l zs H2). returns.
  - now destruct (Ha a).
Qed.

Lemma count_2q_returns (key : string) (l : list PyVal) (check_me : list Z) :
  forallb is_str l = true -> exists r, count_2q key l check_me = Ok r.
Proof.
  revert check_me. induction l as [|v l IH]; intros check_me H; cbn [count_2q]; [eauto|].
  cbn [forallb] in H. apply andb_prop in H as [Hv Hl].
  destruct v; try discriminate.
  repeat match goal with
         | |- exists r, (if ?b then _ else _) = Ok r => destruct b
         end; eauto.
Qed.

Lemma check_2q_components_returns (key : string) (v : PyVal) :
  members_are_str v = true -> exists m, check_2q_components key v = Ok m.
Proof.
  intros H. unfold check_2q_components. destruct v; eauto.
  destruct (6 <? length l)%nat; [eauto|].
  destruct (count_2q_returns key l [0; 0; 0; 0; 0; 0] H) as [r ->]. cbn [bind].
  destruct r; [eauto|]. returns.
Qed.

(** The loop over the pairs returns a text when every tuple has two items;
    when it finds nothing, the pairs can be put in a set. *)
Lemma check_pairs_returns (key : string) (n : Z) (l : list PyVal) :
  tuples_have_two (VList l) = true ->
  exists m, check_pairs key n l = Ok m /\ (m = "" -> forallb hashable l = true).
Proof.
  cbn [tuples_have_two]. induction l as [|t l IH]; intros H; cbn [check_pairs].
  - exists "". auto.
  - cbn [forallb] in H. apply andb_prop in H as [Ht Hl].
    destruct (IH Hl) as (m & Hm & Hh).
    destruct t as [| | | | | |items|]; try (eexists; split; [reflexivity|discriminate]).
    destruct items as [|t0 [|t1 items]]; try discriminate.
    cbn [tuple_item lookup list_lookup of_option bind].
    destruct (_is_int t0) eqn:H0; cbn [negb bind];
      [|eexists; split; [reflexivity|discriminate]].
    destruct (_is_int t1) eqn:H1; cbn [negb orb];
      [|eexists; split; [reflexivity|discriminate]].
    destruct items as [|t2 items]; cbn [length Nat.eqb negb];
      [|eexists; split; [reflexivity|discriminate]].
    assert (Hx0 : exists x, num_of t0 = Ok x) by (destruct t0; try discriminate; cbn; eauto).
    assert (Hx1 : exists x, num_of t1 = Ok x) by (destruct t1; try discriminate; cbn; eauto).
    destruct Hx0 as [x0 ->], Hx1 as [x1 ->]. cbn [bind].
    destruct (num_ge x0 (NInt n) || num_ge x1 (NInt n));
      [eexists; split; [reflexivity|discriminate]|].
    exists m. split; [exact Hm|]. intros Hz. cbn [forallb hashable].
    rewrite (Hh Hz). now destruct t0, t1.
Qed.

Lemma check_2q_indices_returns (p : dict) (key : string) (v : PyVal) :
  tuples_have_two v = true -> exists m, check_2q_indices p key v = Ok m.
Proof.
  intros H. unfold check_2q_indices. destruct v; eauto.
  destruct (_get_number_of_qubits p =? -1); [eauto|].
  destruct (check_pairs_returns key (_get_number_of_qubits p) l H) as (m & -> & Hh).
  cbn [bind]. destruct m as [|c m]; cbn [String.eqb negb]; [|eauto].
  destruct (_ >? _); [eauto|].
  unfold set_len. rewrite (Hh eq_refl). returns.
Qed.

Lemma check_unknown_returns (ig : option (list string)) (key : string) :
  exists m, check_unknown ig key = Ok m.
Proof. unfold check_unknown. destruct ig; returns. Qed.

Lemma check_keys_returns (p : dict) (ig : option (list string)) (keys : list string)
    (check_msg : string) :
  Forall (fun k => exists m, check_key p ig k = Ok m) keys ->
  exists msg, check_keys p ig keys check_msg = Ok msg.
Proof.
  revert check_msg. induction keys as [|k keys IH]; intros check_msg H; cbn [check_keys];
    [eauto|].
  inversion H as [|? ? [m Hm] H']; subst. rewrite Hm. cbn [bind]. now apply IH.
Qed.

(** *** Lists of pairs *)

(** Members of a list that stand for distinct things: [len(set(l))] is
    the length of the list when no two members are equal. *)
Lemma dedup_NoDup {T} (R : PyVal -> T -> Prop) (l : list PyVal) (xs : list T) :
  (forall a b x y, R a x -> R b y -> py_eqb a b = true <-> x = y) ->
  Forall2 R l xs ->
  length (dedup l) = length l <-> List.NoDup xs.
Proof.
  intros HR H. induction H as [|a x l xs Ha H IH]; cbn [dedup length].
  - split; [constructor | reflexivity].
  - assert (Hex : existsb (py_eqb a) l = true <-> In x xs).
    { clear IH. induction H as [|b y l xs Hb H IH]; cbn [existsb In].
      - split; [discriminate | contradiction].
      - rewrite orb_true_iff, IH, (HR a b x y Ha Hb). split; intros [->|?]; auto. }
    pose proof (dedup_length l) as Hlen.
    destruct (existsb (py_eqb a) l).
    + split; [lia|]. intros Hnd. inversion Hnd as [|? ? Hnot _]; subst.
      exfalso. apply Hnot. now apply Hex.
    + cbn [length]. split.
      * intros Heq. constructor; [|apply IH; lia].
        intros Hin. apply Hex in Hin. discriminate.
      * intros Hnd. inversion Hnd; subst. f_equal. now apply IH.
Qed.

Lemma py_eqb_pairs (a b : PyVal) (x y : Z * Z) :
  is_pair a x -> is_pair b y -> py_eqb a b = true <-> x = y.
Proof.
  intros (a0 & a1 & -> & Ha0 & Ha1) (b0 & b1 & -> & Hb0 & Hb1).
  destruct x as [x0 x1], y as [y0 y1]. cbn [fst snd] in *.
  cbn [py_eqb]. rewrite (py_eqb_ints a0 b0 x0 y0 Ha0 Hb0), (py_eqb_ints a1 b1 x1 y1 Ha1 Hb1).
  rewrite andb_true_r, andb_true_iff, !Z.eqb_eq. split; [intros [-> ->]|intros [= -> ->]]; auto.
Qed.

Lemma pairs_hashable (l : list PyVal) (xs : list (Z * Z)) :
  Forall2 is_pair l xs -> forallb hashable l = true.
Proof.
  intros H. induction H as [|a x l xs (a0 & a1 & -> & H0 & H1) H IH]; [reflexivity|].
  cbn [forallb hashable]. rewrite IH. now destruct a0, a1.
Qed.

(** The loop over the pairs finds nothing when every member is a tuple of
    two integers below the number of qubits. *)
Lemma check_pairs_empty (key : string) (n : Z) (l : list PyVal) :
  check_pairs key n l = Ok ""
  <-> exists xs, Forall2 is_pair l xs /\ Forall (fun ij => fst ij < n /\ snd ij < n) xs.
Proof.
  induction l as [|t l IH]; cbn [check_pairs].
  - split; [exists []; split; constructor | reflexivity].
  - assert (Hno : forall xs, Forall2 is_pair (t :: l) xs ->
                    exists a b x y rest, t = VTuple [a; b] /\ as_int a = Some x
                                         /\ as_int b = Some y /\ xs = (x, y) :: rest
                                         /\ Forall2 is_pair l rest).
    { intros xs H. inversion H as [|? [x y] ? rest (a & b & -> & Ha & Hb) H']; subst.
      exists a, b, x, y, rest. auto. }
    destruct t as [| | | | | |items|];
      try (split; [discriminate|];
           intros (xs & H & _); apply Hno in H as (? & ? & ? & ? & ? & Heq & _); discriminate Heq).
    destruct items as [|t0 [|t1 items]].
    { split; [discriminate|].
      intros (xs & H & _). apply Hno in H as (? & ? & ? & ? & ? & Heq & _); discriminate Heq. }
    { cbn [tuple_item lookup list_lookup of_option bind].
      destruct (_is_int t0); cbn [negb bind];
        (split; [discriminate|]);
        intros (xs & H & _); apply Hno in H as (? & ? & ? & ? & ? & Heq & _); discriminate Heq. }
    cbn [tuple_item lookup list_lookup of_option bind].
    destruct (as_int t0) as [x|] eqn:H0.
    2: { replace (_is_int t0) with false by (destruct t0; try discriminate; reflexivity).
         cbn [negb bind]. split; [discriminate|].
         intros (xs & H & _). apply Hno in H as (? & ? & ? & ? & ? & [= <- <- ->] & ? & _).
         congruence. }
    replace (_is_int t0) with true by (destruct t0; try discriminate; reflexivity).
    cbn [negb bind].
    destruct (as_int t1) as [y|] eqn:H1.
    2: { replace (_is_int t1) with false by (destruct t1; try discriminate; reflexivity).
         cbn [negb orb]. split; [discriminate|].
         intros (xs & H & _).
         apply Hno in H as (? & ? & ? & ? & ? & [= <- <- ->] & ? & ? & _). congruence. }
    replace (_is_int t1) with true by (destruct t1; try discriminate; reflexivity).
    cbn [negb orb].
    destruct items as [|t2 items]; cbn [length Nat.eqb negb].
    2: { split; [discriminate|].
         intros (xs & H & _). apply Hno in H as (? & ? & ? & ? & ? & Heq & _); discriminate Heq. }
    assert (Hx : num_of t0 = Ok (NInt x))
      by (destruct t0; try discriminate; injection H0 as <-; reflexivity).
    assert (Hy : num_of t1 = Ok (NInt y))
      by (destruct t1; try discriminate; injection H1 as <-; reflexivity).
    rewrite Hx, Hy. cbn [bind]. unfold num_ge. cbn [num_compare].
    destruct (Z.compare_spec x n) as [Hc|Hc|Hc]; cbn [orb].
    1,3: split; [discriminate|];
         intros (xs & H & Hlt);
         apply Hno in H as (? & ? & ? & ? & ? & [= <- <-] & Hx' & Hy' & -> & _);
         inversion Hlt as [|? ? [Hl _] _]; subst; cbn [fst] in Hl; 
         rewrite H0 in Hx'; injection Hx' as <-; lia.
    destruct (Z.compare_spec y n) as [Hd|Hd|Hd].
    1,3: split; [discriminate|];
         intros (xs & H & Hlt);
         apply Hno in H as (? & ? & ? & ? & ? & [= <- <-] & Hx' & Hy' & -> & _);
         inversion Hlt as [|? ? [_ Hl] _]; subst; cbn [snd] in Hl;
         rewrite H1 in Hy'; injection Hy' as <-; lia.
    rewrite IH. split.
    + intros (xs & H & Hlt). exists ((x, y) :: xs). split.
      * constructor; [|exact H]. exists t0, t1. auto.
      * constructor; [cbn; lia | exact Hlt].
    + intros (xs & H & Hlt).
      apply Hno in H as (? & ? & ? & ? & rest & _ & _ & _ & -> & H).
      inversion Hlt; subst. eauto.
Qed.

End VerifyMore.

(** * More about [build] *)

Module BuildMore.
Import PyStr PyNumber Py Validator Solver Spec Terms.
Import StringFacts TextFacts SolverFacts WriterFacts VerifyFacts VerifyMore.

(** What a call of [build] that returns has gone through. *)
Lemma build_returns_inv (E : env) (parameters_arg : option dict) (s : solver) (w : world)
    (s' : solver) (w' : world) :
  build E parameters_arg s w = (Ok tt, s', w') ->
  exists p0 op b sfx bb bnd,
    parameters (given parameters_arg s) = Some p0
    /\ verify_parameters (Some p0) None = Ok ""
    /\ output_prefix p0 = Ok op
    /\ wants_unique_id p0 = Ok b
    /\ let p := if b then dict_set "unique_id" (VStr (uuid4_hex E)) p0 else p0 in
       let s2 := if b then with_parameters (Some p) (given parameters_arg s)
                 else given parameters_arg s in
       let w2 := if b then print (unique_id_line E) w else w in
       let s_uuid := if b then VStr (uuid4_hex E)
                     else default (VStr "") (dict_get "unique_id" p0) in
       id_suffix s_uuid = Ok sfx
       /\ bond_indices p = Ok (bb, bnd)
       /\ snd (write_input E p (op ++ sfx) bb bnd) = Ok tt
       /\ s' = with_paths (input_path (op ++ sfx)) (op ++ sfx) sfx s2
       /\ w' = write_file (input_path (op ++ sfx))
                 (fst (write_input E p (op ++ sfx) bb bnd))
                 (print (input_path (op ++ sfx)) (print "Creating solver input file:" w2)).
Proof.
  intros H. pose proof (build_cases E parameters_arg s w) as Hc. cbv zeta in Hc.
  unfold prepared in Hc.
  destruct (parameters (given parameters_arg s)) as [p0|] eqn:Hp0.
  2: { destruct Hc as [e Hc]. rewrite Hc in H. discriminate. }
  destruct (verify_parameters (Some p0) None) as [[|c msg]|e] eqn:Hv.
  2,3: destruct Hc as [e' Hc]; rewrite Hc in H; discriminate.
  destruct (output_prefix p0) as [op|e] eqn:Hop.
  2: { destruct Hc as [e' Hc]. rewrite Hc in H. discriminate. }
  destruct (wants_unique_id p0) as [b|e] eqn:Hb.
  2: { destruct Hc as [e' Hc]. rewrite Hc in H. discriminate. }
  destruct Hc as (p0' & [= <-] & [[e Hc]|(sfx & bb & bnd & Hsfx & Hbond & Hc)]).
  { rewrite Hc in H. discriminate. }
  destruct Hc as [(e & _ & Hc)|(Hw & Hc)]; rewrite Hc in H; [discriminate|].
  injection H as <- <-.
  exists p0, op, b, sfx, bb, bnd. cbv zeta. repeat split; auto.
Qed.

(** A configuration the validator objects to: [build] raises with the text
    of the validator and does nothing else. *)
Lemma build_rejects (E : env) (parameters_arg : option dict) (s : solver) (w : world)
    (msg : string) :
  verify_parameters (parameters (given parameters_arg s)) None = Ok msg ->
  msg <> "" ->
  build E parameters_arg s w = (Raise (Exception msg), given parameters_arg s, w).
Proof.
  intros Hv Hne.
  assert (Hb : build E parameters_arg s w = build E None (given parameters_arg s) w)
    by (destruct parameters_arg; reflexivity).
  rewrite Hb. unfold build.
  cbv beta iota delta [st_bind get_parameters st_lift st_ret st_raise
                       _virtual_verify_parameters].
  rewrite Hv. destruct msg; [contradiction|reflexivity].
Qed.

(** *** The recorded paths *)

Lemma replace_char_removes (c : ascii) (new s : string) :
  Forall (fun x => x <> c) (chars new) ->
  Forall (fun x => x <> c) (chars (replace_char c new s)).
Proof.
  intros Hnew. unfold replace_char. rewrite chars_of_chars.
  induction (chars s) as [|x l IH]; cbn [flat_map]; [constructor|].
  apply List.Forall_app. split; [|exact IH].
  destruct (Ascii.eqb_spec x c); [exact Hnew|]. now constructor.
Qed.

Lemma replace_char_keeps (P : ascii -> Prop) (c : ascii) (new s : string) :
  Forall P (chars s) -> Forall P (chars new) -> Forall P (chars (replace_char c new s)).
Proof.
  intros Hs Hnew. unfold replace_char. rewrite chars_of_chars.
  induction Hs as [|x l Hx _ IH]; cbn [flat_map]; [constructor|].
  apply List.Forall_app. split; [|exact IH].
  destruct (Ascii.eqb x c); [exact Hnew|]. now constructor.
Qed.

Lemma replace_char_drop (c : ascii) (s : string) :
  chars (replace_char c "" s) = List.filter (fun x => negb (Ascii.eqb x c)) (chars s).
Proof.
  unfold replace_char. rewrite chars_of_chars.
  induction (chars s) as [|x l IH]; [reflexivity|].
  cbn [flat_map List.filter]. destruct (Ascii.eqb x c); cbn [negb chars app];
    [exact IH | now rewrite <- IH].
Qed.

Lemma replace_char_one (c d : ascii) (s : string) :
  chars (replace_char c (String d "") s)
  = map (fun x => if Ascii.eqb x c then d else x) (chars s).
Proof.
  unfold replace_char. rewrite chars_of_chars.
  induction (chars s) as [|x l IH]; [reflexivity|].
  cbn [flat_map map]. rewrite IH. now destruct (Ascii.eqb x c).
Qed.

Lemma last_char_app (a b : string) (c : ascii) :
  last_char b = Some c -> last_char (a ++ b) = Some c.
Proof.
  unfold last_char. rewrite chars_app. intros H.
  induction (chars a) as [|x l IH]; [exact H|].
  cbn [app]. destruct (l ++ chars b)%list eqn:Hl; [|exact IH].
  destruct l; [|discriminate]. cbn in Hl. rewrite Hl in H. discriminate.
Qed.

(** The output prefix is not empty and does not end a directory: the name
    [lindblad] has been added where it would. *)
Lemma output_prefix_base (p : dict) (op : string) :
  output_prefix p = Ok op ->
  op <> ""
  /\ forall c, last_char op = Some c -> mem_char c ("/." ++ backslash) = false.
Proof.
  unfold output_prefix. destruct (default (VStr "") (dict_get "output_files_prefix" p));
    try discriminate.
  destruct (String.eqb_spec s "") as [->|Hne]; cbn [orb].
  - intros [= <-]. split; [discriminate|]. intros c [= <-]. reflexivity.
  - destruct (last_char s) as [c0|] eqn:Hl.
    + destruct (mem_char c0 ("/." ++ backslash)) eqn:Hm.
      * intros [= <-]. split; [now destruct s|].
        intros c Hc. rewrite (last_char_app s "lindblad" "d"%char eq_refl) in Hc.
        now injection Hc as <-.
      * intros [= <-]. split; [exact Hne|]. intros c Hc. congruence.
    + intros [= <-]. split; [exact Hne|]. intros c Hc. congruence.
Qed.

(** An accepted configuration holds nothing under [unique_id], or the
    empty string. *)
Lemma accepted_unique_id (p : dict) :
  verify_parameters (Some p) None = Ok "" ->
  default (VStr "") (dict_get "unique_id" p) = VStr "".
Proof.
  intros H. destruct (dict_get "unique_id" p) as [v|] eqn:Hv; [|reflexivity].
  pose proof (accepted_key p None "unique_id" v H Hv) as Hk.
  rewrite (check_key_unrecognised p None "unique_id" v eq_refl Hv) in Hk.
  cbn [default]. destruct (is_placeholder v) eqn:Hph; [now apply placeholder_inv|].
  discriminate.
Qed.

(** *** One key whose rule finds something *)

Lemma check_keys_nothing (p : dict) (ig : option (list string)) (keys : list string)
    (check_msg : string) :
  Forall (fun k => check_key p ig k = Ok "") keys ->
  check_keys p ig keys check_msg = Ok check_msg.
Proof.
  revert check_msg. induction keys as [|k keys IH]; intros check_msg H; [reflexivity|].
  inversion H as [|? ? Hk H']; subst. cbn [check_keys]. rewrite Hk. cbn [bind].
  rewrite append_nil_r. now apply IH.
Qed.

Lemma check_keys_one (p : dict) (ig : option (list string)) (k m : string)
    (keys : list string) (check_msg : string) :
  (forall k', In k' keys -> k' <> k -> check_key p ig k' = Ok "") ->
  check_key p ig k = Ok m ->
  List.NoDup keys -> In k keys ->
  check_keys p ig keys check_msg = Ok (check_msg ++ m).
Proof.
  intros Hother Hk Hnd. revert check_msg.
  induction Hnd as [|k0 keys Hnot Hnd IH]; intros check_msg Hin; [contradiction|].
  cbn [check_keys]. destruct (String.eqb_spec k0 k) as [->|Hne].
  - rewrite Hk. cbn [bind]. apply check_keys_nothing, List.Forall_forall.
    intros k' Hk'. apply Hother; [now right|]. intros ->. contradiction.
  - rewrite (Hother k0) by (auto; now left). cbn [bind]. rewrite append_nil_r.
    apply IH.
    + intros k' Hk'. apply Hother. now right.
    + destruct Hin as [Hin|Hin]; [contradiction | exact Hin].
Qed.

Lemma dict_keys_set_new (k : string) (v : PyVal) (d : dict) :
  dict_in k d = false -> dict_keys (dict_set k v d) = (dict_keys d ++ [k])%list.
Proof.
  unfold dict_in, dict_keys. induction d as [|[k0 v0] d IH]; cbn; [reflexivity|].
  destruct (String.eqb_spec k0 k); [discriminate|]. cbn. intros H. now rewrite IH.
Qed.

Lemma dict_keys_set_cases (k : string) (v : PyVal) (d : dict) :
  List.NoDup (dict_keys d) ->
  List.NoDup (dict_keys (dict_set k v d)) /\ In k (dict_keys (dict_set k v d))
  /\ forall k', In k' (dict_keys (dict_set k v d)) -> k' <> k -> In k' (dict_keys d).
Proof.
  intros Hnd. destruct (dict_in k d) eqn:Hin.
  - rewrite (dict_keys_set k v d Hin). repeat split; auto.
    unfold dict_in in Hin. destruct (dict_get k d) eqn:Hg; [|discriminate].
    eapply in_keys, Hg.
  - rewrite (dict_keys_set_new k v d Hin). repeat split.
    + apply List.NoDup_app. repeat split; auto.
      * repeat constructor. intros [].
      * intros x Hx [<-|[]]. apply in_keys_dict_in in Hx. congruence.
    + apply in_or_app. right. now left.
    + intros k' Hk' Hne. apply in_app_or in Hk' as [Hk'|[<-|[]]]; [exact Hk'|].
      contradiction.
Qed.

(** *** The lines of the keys *)

Lemma out_bind_inv {A B} (c : out A) (k : A -> out B) (r : B) :
  snd (out_bind c k) = Ok r ->
  exists a, snd c = Ok a /\ snd (k a) = Ok r
            /\ fst (out_bind c k) = fst c ++ fst (k a).
Proof.
  destruct c as [t [a|e]]; cbn [out_bind snd fst]; [|discriminate].
  destruct (k a) as [t' r'] eqn:Hk. cbn [snd fst]. intros ->. exists a.
  rewrite Hk. auto.
Qed.

Lemma key_line_intro (key body : string) :
  (key ++ " = ") ++ body ++ nl = key_line key body.
Proof. unfold key_line. now rewrite append_assoc. Qed.

Lemma join_fold (t : string) (ts : list string) :
  join "," (t :: ts) = t ++ fold_right (fun y acc => "," ++ y ++ acc) "" ts.
Proof.
  revert t. induction ts as [|y ts IH]; intros t.
  - cbn. now rewrite append_nil_r.
  - change (join "," (t :: y :: ts)) with (t ++ "," ++ join "," (y :: ts)).
    now rewrite IH.
Qed.

Lemma write_sep_after_inv {A} (item : A -> res string) (l : list A) :
  snd (write_sep_after item l) = Ok tt -> joined item l (fst (write_sep_after item l)).
Proof.
  induction l as [|x l IH]; cbn [write_sep_after].
  - intros _. exists []. split; [constructor|reflexivity].
  - destruct (item x) as [t|e] eqn:Hx; [|discriminate].
    unfold out_bind at 1 2 3 4 5 6, out_lift, emit.
    destruct (write_sep_after item l) as [rest [[]|e]] eqn:Hrest; cbn [fst snd] in *;
      [|discriminate].
    intros _. destruct (IH eq_refl) as (texts & H2 & ->).
    exists (t :: texts). split; [now constructor|].
    destruct H2 as [|y t' l texts Hy H2]; cbn [join].
    + now rewrite !append_nil_r.
    + reflexivity.
Qed.

Lemma write_sep_before_inv {A} (item : A -> res string) (l : list A) :
  snd (write_sep_before item l false) = Ok tt ->
  joined item l (fst (write_sep_before item l false)).
Proof.
  assert (Htrue : forall l, snd (write_sep_before item l true) = Ok tt ->
            exists texts,
              Forall2 (fun x t => item x = Ok t) l texts
              /\ fst (write_sep_before item l true)
                 = fold_right (fun y acc => "," ++ y ++ acc) "" texts).
  { clear l. induction l as [|x l IH]; cbn [write_sep_before].
    - intros _. exists []. split; [constructor|reflexivity].
    - destruct (item x) as [t|e] eqn:Hx; [|discriminate].
      unfold out_bind at 1 2 3 4 5 6, out_lift, emit.
      destruct (write_sep_before item l true) as [rest [[]|e]] eqn:Hrest;
        cbn [fst snd] in *; [|discriminate].
      intros _. destruct (IH eq_refl) as (texts & H2 & ->).
      exists (t :: texts). split; [now constructor|reflexivity]. }
  destruct l as [|x l]; cbn [write_sep_before].
  - intros _. exists []. split; [constructor|reflexivity].
  - destruct (item x) as [t|e] eqn:Hx; [|discriminate].
    unfold out_bind at 1 2 3 4 5 6, out_lift, emit.
    specialize (Htrue l).
    destruct (write_sep_before item l true) as [rest [[]|e]] eqn:Hrest;
      cbn [fst snd] in *; [|discriminate].
    intros _. destruct (Htrue eq_refl) as (texts & H2 & ->).
    exists (t :: texts). split; [now constructor|]. now rewrite join_fold.
Qed.

Lemma out_lift_bind {A B} (a : A) (k : A -> out B) : out_bind (out_lift (Ok a)) k = k a.
Proof. unfold out_bind, out_lift. now destruct (k a). Qed.

Ltac out_inv H :=
  let a := fresh "a" in
  let Ha := fresh "Ha" in
  let Hf := fresh "Hf" in
  apply out_bind_inv in H as (a & Ha & H & Hf); rewrite Hf; clear Hf;
  cbv beta in H |- *; cbn [emit out_lift fst snd] in Ha |- *;
  match type of a with
  | unit => destruct a
  | _ => idtac
  end.

(** One turn of the loop of [build] writes nothing for [b_unique_id] and,
    for any other key, [key = ], the body and a line feed. *)
Lemma write_key_body (E : env) (p : dict) (s_output_path : string) (b : bonds)
    (key : string) :
  snd (write_key E p s_output_path b key) = Ok tt ->
  if String.eqb key "b_unique_id" then fst (write_key E p s_output_path b key) = ""
  else exists body,
      fst (write_key E p s_output_path b key) = key_line key body
      /\ line_body E p s_output_path b key body.
Proof.
  unfold write_key, line_body, dict_item.
  destruct (dict_get key p) as [v|]; [|discriminate].
  cbn [of_option]. rewrite out_lift_bind.
  destruct (String.eqb key "b_unique_id") eqn:Hu; [reflexivity|].
  destruct (String.eqb key "output_files_prefix") eqn:Hp.
  { intros _. exists s_output_path. split; [reflexivity|]. exists v. auto. }
  destruct v as [| | | |s|l|l|a].
  8: { (* an array *)
    destruct (String.eqb key "J" || String.eqb key "J_z") eqn:HJ.
    - destruct (nd_len a) as [n|e] eqn:Hn; cbn [bind]; [|discriminate].
      assert (Hn0 : nd_shape_at a 0 = Ok n).
      { unfold nd_len in Hn. unfold nd_shape_at. destruct (shape a); [discriminate|].
        injection Hn as <-. reflexivity. }
      rewrite out_lift_bind. destruct (1 <? n)%nat eqn:H1.
      + intros H. out_inv H. out_inv H.
        match goal with
        | Hs : snd (write_sep_before _ _ _) = Ok tt |- _ => apply write_sep_before_inv in Hs
        end.
        eexists. split; [apply key_line_intro|].
        exists (VArray a). split; [reflexivity|]. exists n. split; [exact Hn0|].
        cbn [andb]. rewrite H1. assumption.
      + intros H. out_inv H. out_inv H.
        match goal with
        | Hs : nd_shape_at a 0 = Ok _ |- _ => rewrite Hn0 in Hs; injection Hs as <-
        end.
        out_inv H.
        match goal with
        | Hs : snd (write_sep_after _ _) = Ok tt |- _ => apply write_sep_after_inv in Hs
        end.
        eexists. split; [apply key_line_intro|].
        exists (VArray a). split; [reflexivity|]. exists n. split; [exact Hn0|].
        cbn [andb]. rewrite H1. assumption.
    - rewrite out_lift_bind. intros H. out_inv H. out_inv H. out_inv H.
      match goal with
      | Hs : snd (write_sep_after _ _) = Ok tt |- _ => apply write_sep_after_inv in Hs
      end.
      eexists. split; [apply key_line_intro|].
      exists (VArray a). split; [reflexivity|].
      match goal with
      | Hs : nd_shape_at a 0 = Ok ?n |- _ => exists n; split; [exact Hs|]
      end.
      cbn [andb]. assumption. }
  all: assert (Hc : (if String.eqb key "J" || String.eqb key "J_z" then Ok false else Ok false)
                    = (Ok false : res bool)) by (destruct (_ || _); reflexivity).
  all: cbv iota; rewrite Hc, out_lift_bind; clear Hc.
  all: destruct (key_in key ["init_pauli_state"; "1q_components"; "2q_components"]) eqn:H3.
  all: try (intros H; out_inv H; out_inv H; out_inv H; out_inv H;
            rewrite (write_sep_after_ok _ (fun op => strip_chars squote (py_str E op)))
              by (apply List.Forall_forall; reflexivity);
            eexists; split; [apply key_line_intro|]; eexists; split; [reflexivity|];
            cbv iota; eexists; split; [eassumption | reflexivity]).
  all: destruct (String.eqb key "1q_indices") eqn:H1q.
  all: try (intros H; out_inv H; out_inv H; out_inv H; out_inv H;
            match goal with
            | Hs : snd (write_sep_after _ _) = Ok tt |- _ => apply write_sep_after_inv in Hs
            end;
            eexists; split; [apply key_line_intro|]; eexists; split; [reflexivity|];
            cbv iota; eexists; split; eassumption).
  all: destruct (key_in key ["2q_indices"; "init_graph_state"]) eqn:H2q.
  all: try (intros H; out_inv H; out_inv H; out_inv H; out_inv H;
            match goal with
            | Hs : snd (write_sep_after _ _) = Ok tt |- _ => apply write_sep_after_inv in Hs
            end;
            eexists; split; [apply key_line_intro|]; eexists; split; [reflexivity|];
            cbv iota; eexists; split; eassumption).
  all: intros _; eexists; (split; [|eexists; split; [reflexivity|reflexivity]]).
  all: unfold key_line, emit; cbn [fst]; reflexivity.
Qed.

Lemma write_keys_bodies (E : env) (p : dict) (s_output_path : string) (b : bonds)
    (keys : list string) :
  snd (write_keys E p s_output_path b keys) = Ok tt ->
  exists bodies,
    Forall2 (line_body E p s_output_path b)
      (List.filter (fun key => negb (String.eqb key "b_unique_id")) keys) bodies
    /\ fst (write_keys E p s_output_path b keys)
       = key_lines (List.filter (fun key => negb (String.eqb key "b_unique_id")) keys)
           bodies.
Proof.
  induction keys as [|key keys IH]; cbn [write_keys List.filter].
  - intros _. exists []. split; [constructor|reflexivity].
  - intros H. apply out_bind_inv in H as ([] & Hk & Hrest & ->).
    apply IH in Hrest as (bodies & Hb & ->). apply write_key_body in Hk.
    destruct (String.eqb key "b_unique_id"); cbn [negb].
    + rewrite Hk. exists bodies. split; [exact Hb|reflexivity].
    + destruct Hk as (body & -> & Hbody). exists (body :: bodies).
      split; [now constructor|reflexivity].
Qed.

Lemma bond_indices_flag (p : dict) (bb : bool) (bnd : bonds) :
  bond_indices p = Ok (bb, bnd) ->
  if bb then interaction p "J" <> None \/ interaction p "J_z" <> None
  else interaction p "J" = None /\ interaction p "J_z" = None.
Proof.
  unfold bond_indices.
  destruct (interaction p "J") as [J|], (interaction p "J_z") as [J_z|].
  - destruct (shape_eqb J J_z); [|discriminate].
    destruct (scan _ _); [|discriminate]. intros [= <- _]. now left.
  - destruct (scan _ _); [|discriminate]. intros [= <- _]. now left.
  - destruct (scan _ _); [|discriminate]. intros [= <- _]. now right.
  - intros [= <- _]. auto.
Qed.

(** The input path that a returning [build] records is not empty. *)
Lemma build_returns_input_file (E : env) (parameters_arg : option dict) (s : solver)
    (w : world) (s' : solver) (w' : world) :
  build E parameters_arg s w = (Ok tt, s', w') -> s_input_file s' <> "".
Proof.
  intros H. apply build_returns_inv in H
    as (p0 & op & b & sfx & bb & bnd & _ & _ & _ & _ & H).
  cbv zeta in H. destruct H as (_ & _ & _ & -> & _).
  cbn [s_input_file with_paths]. unfold input_path. rewrite replace_char_app.
  rewrite (replace_char_none _ _ ".input.txt") by (repeat constructor).
  intros Hz. apply append_eq_nil in Hz as [_ Hz]. discriminate.
Qed.

(** *** Coupling arrays *)

Lemma scan_needs_two_dimensions (a : ndarray) (test : nat -> nat -> res bool) :
  (length (shape a) < 2)%nat -> nd_size a <> 0%nat -> exists e, scan a test = Raise e.
Proof.
  unfold scan, nd_shape_at, nd_size. destruct (shape a) as [|n [|m sh]] eqn:Hs; cbn [length].
  - intros _ _. cbn. eauto.
  - intros _ Hn. cbn [nth_error of_option bind fold_right] in *.
    destruct n as [|n]; [cbn in Hn; lia|].
    cbn [seq scan_rows]. unfold nd_shape_at. rewrite Hs. cbn. eauto.
  - intros H. lia.
Qed.

Lemma bond_indices_needs_two_dimensions (p : dict) (a : ndarray) :
  interaction p "J" = Some a \/ interaction p "J_z" = Some a ->
  (length (shape a) < 2)%nat -> nd_size a <> 0%nat ->
  exists e, bond_indices p = Raise e.
Proof.
  intros Ha Hd Hn. unfold bond_indices.
  destruct (interaction p "J") as [J|] eqn:HJ;
    destruct (interaction p "J_z") as [J_z|] eqn:HJz.
  - unfold shape_eqb. destruct (bool_decide (shape J = shape J_z)) eqn:Hsh; [|eauto].
    apply bool_decide_eq_true in Hsh.
    assert (HdJ : (length (shape J) < 2)%nat /\ nd_size J <> 0%nat).
    { destruct Ha as [[= ->]|[= ->]]; [auto|]. unfold nd_size in *. now rewrite Hsh. }
    destruct (scan_needs_two_dimensions J
                (fun i j => do hit <- cell_nonzero J i j;
                            if hit then Ok true else cell_nonzero J_z i j))
      as [e ->]; [tauto|tauto|]. cbn. eauto.
  - destruct Ha as [[= ->]|[=]].
    destruct (scan_needs_two_dimensions a (cell_nonzero a) Hd Hn) as [e ->]. cbn. eauto.
  - destruct Ha as [[=]|[= ->]].
    destruct (scan_needs_two_dimensions a (cell_nonzero a) Hd Hn) as [e ->]. cbn. eauto.
  - destruct Ha as [[=]|[=]].
Qed.

(** The entry of a matrix, taken with two indices. *)
Lemma nd_index_entry (a : ndarray) (r c i j : nat) :
  shape a = [r; c] -> length (data a) = (r * c)%nat -> (i < r)%nat -> (j < c)%nat ->
  nd_index a [i; j] = Ok {| dtype := dtype a; shape := []; data := [entry a i j] |}.
Proof.
  intros Hs Hl Hi Hj. unfold nd_index, entry. rewrite Hs.
  cbn [nd_offset fold_right nth].
  replace (i <? r)%nat with true by (symmetry; now apply Nat.ltb_lt).
  replace (j <? c)%nat with true by (symmetry; now apply Nat.ltb_lt).
  rewrite !Nat.mul_1_r. cbn [bind].
  set (rowdata := firstn c (skipn (i * c) (data a))).
  assert (Hrow : length rowdata = c).
  { subst rowdata. rewrite length_firstn, length_skipn, Hl. nia. }
  assert (Hnth : forall d, nth j rowdata d = nth (i * c + j) (data a) d).
  { intros d. subst rowdata. rewrite nth_firstn.
    replace (j <? c)%nat with true by (symmetry; now apply Nat.ltb_lt).
    now rewrite nth_skipn. }
  destruct (skipn j rowdata) as [|x rest] eqn:Hskip.
  - exfalso. apply (f_equal (@length num)) in Hskip.
    rewrite length_skipn, Hrow in Hskip. simpl in Hskip. lia.
  - assert (Hx : x = nth j rowdata (NInt 0)).
    { rewrite <- (firstn_skipn j rowdata) at 1. rewrite Hskip.
      rewrite app_nth2; rewrite length_firstn, Hrow, Nat.min_l by lia; [|lia].
      now rewrite Nat.sub_diag. }
    cbn [firstn]. rewrite Hx, Hnth. reflexivity.
Qed.

Lemma np_item_str_entry (E : env) (a : ndarray) (r c i j : nat) :
  shape a = [r; c] -> length (data a) = (r * c)%nat -> (i < r)%nat -> (j < c)%nat ->
  np_item_str E a [i; j] = Ok (np_scalar_str E (dtype a) (entry a i j)).
Proof.
  intros Hs Hl Hi Hj. unfold np_item_str.
  now rewrite (nd_index_entry a r c i j Hs Hl Hi Hj).
Qed.

(** A loop of [build] that writes the comma before every item but the
    first. *)
Lemma write_sep_before_true {A} (item : A -> res string) (text : A -> string)
    (l : list A) :
  Forall (fun x => item x = Ok (text x)) l ->
  write_sep_before item l true
  = (fold_right (fun y acc => "," ++ y ++ acc) "" (map text l), Ok tt).
Proof.
  induction 1 as [|x l Hx _ IH]; [reflexivity|].
  cbn [write_sep_before]. rewrite Hx, IH. reflexivity.
Qed.

Lemma write_sep_before_ok {A} (item : A -> res string) (text : A -> string) (l : list A) :
  Forall (fun x => item x = Ok (text x)) l ->
  write_sep_before item l false = (join "," (map text l), Ok tt).
Proof.
  intros H. destruct H as [|x l Hx H]; [reflexivity|].
  cbn [write_sep_before map]. rewrite Hx, (write_sep_before_true item text l H).
  rewrite join_fold. reflexivity.
Qed.

(** *** A string for a list of one string *)

Lemma dict_keys_set_same (k : string) (v1 v2 : PyVal) (p1 p2 : dict) :
  dict_keys p1 = dict_keys p2 -> dict_keys (dict_set k v1 p1) = dict_keys (dict_set k v2 p2).
Proof.
  unfold dict_keys. revert p2.
  induction p1 as [|[k1 u1] p1 IH]; intros [|[k2 u2] p2]; cbn; try discriminate;
    [reflexivity|].
  intros [= -> H]. destruct (String.eqb k2 k); cbn; [now rewrite H|]. f_equal. now apply IH.
Qed.

Lemma alike_but_set (key : string) (v1 v2 : PyVal) (p : dict) :
  alike_but key v1 v2 (dict_set key v1 p) (dict_set key v2 p).
Proof.
  repeat split.
  - now apply dict_keys_set_same.
  - apply dict_get_set_eq.
  - apply dict_get_set_eq.
  - intros k Hk. now rewrite !dict_get_set_ne.
Qed.

Lemma alike_but_other (key : string) (v1 v2 : PyVal) (p1 p2 : dict) (k : string)
    (u : PyVal) :
  k <> key -> alike_but key v1 v2 p1 p2 ->
  alike_but key v1 v2 (dict_set k u p1) (dict_set k u p2).
Proof.
  intros Hk (Hkeys & H1 & H2 & Hget). repeat split.
  - now apply dict_keys_set_same.
  - rewrite dict_get_set_ne by congruence. exact H1.
  - rewrite dict_get_set_ne by congruence. exact H2.
  - intros k' Hk'. destruct (String.eqb_spec k' k) as [->|Hne].
    + now rewrite !dict_get_set_eq.
    + rewrite !dict_get_set_ne by assumption. now apply Hget.
Qed.

(** One turn of the loop of [build] looks at the value of its key only. *)
Lemma write_key_ext (E : env) (p p' : dict) (s_output_path : string) (b : bonds)
    (key : string) :
  dict_get key p' = dict_get key p ->
  write_key E p' s_output_path b key = write_key E p s_output_path b key.
Proof. intros H. unfold write_key, dict_item. now rewrite H. Qed.

Section StringOrList.
Variables (p1 p2 : dict) (s : string).
Hypothesis Hs : s <> "".
Hypothesis Hp : alike_but "init_pauli_state" (VStr s) (VList [VStr s]) p1 p2.

Lemma string_or_list_get (k : string) :
  k <> "init_pauli_state" -> dict_get k p1 = dict_get k p2.
Proof. destruct Hp as (_ & _ & _ & H). apply H. Qed.

Lemma string_or_list_verify (ig : option (list string)) :
  verify_parameters (Some p1) ig = verify_parameters (Some p2) ig.
Proof.
  destruct Hp as (Hkeys & H1 & H2 & _).
  unfold verify_parameters.
  rewrite (missing_required_ext p2 p1) by (apply string_or_list_get; discriminate).
  rewrite (cross_checks_ext p2 p1) by (apply string_or_list_get; discriminate).
  rewrite Hkeys.
  rewrite (check_keys_ext p2 p1 ig ig); [reflexivity|].
  intros k _. destruct (String.eqb_spec k "init_pauli_state") as [->|Hne].
  - unfold check_key, dict_item. rewrite H1, H2. cbn [of_option bind is_placeholder].
    destruct s; [contradiction|reflexivity].
  - apply check_key_ext; [|apply number_of_qubits_ext|]; apply string_or_list_get;
      try discriminate; exact Hne.
Qed.

Lemma string_or_list_write (E : env) (s_output_path : string) (bb : bool) (b : bonds) :
  write_input E p1 s_output_path bb b = write_input E p2 s_output_path bb b.
Proof.
  destruct Hp as (Hkeys & H1 & H2 & _).
  assert (Hk : forall k, write_key E p1 s_output_path b k = write_key E p2 s_output_path b k).
  { intros k. destruct (String.eqb_spec k "init_pauli_state") as [->|Hne].
    - unfold write_key, dict_item. rewrite H1, H2. reflexivity.
    - apply write_key_ext. now apply string_or_list_get. }
  assert (Hw : forall keys, write_keys E p1 s_output_path b keys
                            = write_keys E p2 s_output_path b keys).
  { induction keys as [|k keys IH]; [reflexivity|].
    cbn [write_keys]. now rewrite IH, Hk. }
  unfold write_input. now rewrite Hkeys, Hw.
Qed.

Lemma string_or_list_bonds : bond_indices p1 = bond_indices p2.
Proof.
  unfold bond_indices, interaction.
  now rewrite !(string_or_list_get "J"), !(string_or_list_get "J_z") by discriminate.
Qed.

End StringOrList.

(** *** Configurations without arrays *)

Lemma write_sep_after_returns {A} (item : A -> res string) (l : list A) :
  Forall (fun x => exists t, item x = Ok t) l -> snd (write_sep_after item l) = Ok tt.
Proof.
  induction 1 as [|x l [t Hx] _ IH]; [reflexivity|].
  cbn [write_sep_after]. rewrite Hx. unfold out_bind, out_lift, emit.
  destruct (write_sep_after item l) as [rest r]. cbn [snd] in *. now rewrite IH.
Qed.

Lemma site_text_returns (E : env) (v : PyVal) (z : Z) :
  as_int v = Some z -> exists t, site_text E v = Ok t.
Proof. destruct v; try discriminate; intros _; cbn; eauto. Qed.

Lemma snd_lift_ok {A B} (a : A) (k : A -> out B) :
  snd (out_bind (out_lift (Ok a)) k) = snd (k a).
Proof. unfold out_bind, out_lift. now destruct (k a). Qed.

Lemma snd_emit {B} (t : string) (k : unit -> out B) :
  snd (out_bind (emit t) k) = snd (k tt).
Proof. unfold out_bind, emit. now destruct (k tt). Qed.

Lemma snd_then_emit (c : out unit) (t : string) :
  snd (out_bind c (fun _ => emit t)) = snd c.
Proof. destruct c as [text [[]|e]]; reflexivity. Qed.

(** One turn of the loop of [build], on a value that is no array and that
    the validator has let through, writes its line. *)
Lemma write_key_accepted (E : env) (p p' : dict) (ig : option (list string))
    (s_output_path : string) (b : bonds) (key : string) (v : PyVal) :
  dict_get key p' = Some v ->
  (forall a, v <> VArray a) ->
  key = "unique_id" \/ (dict_get key p = Some v /\ check_key p ig key = Ok "") ->
  snd (write_key E p' s_output_path b key) = Ok tt.
Proof.
  intros Hget Harr Hok. unfold write_key, dict_item. rewrite Hget.
  cbn [of_option]. rewrite snd_lift_ok.
  destruct (String.eqb_spec key "b_unique_id") as [->|Hn1]; [reflexivity|].
  destruct (String.eqb_spec key "output_files_prefix") as [->|Hn2]; [reflexivity|].
  assert (Hc : (if (key =? "J")%string || (key =? "J_z")%string
                then match v with
                     | VArray a => do n <- nd_len a; Ok (1 <? n)%nat
                     | _ => Ok false
                     end
                else Ok false) = Ok false).
  { destruct (_ || _); [|reflexivity]. destruct v; try reflexivity. now destruct (Harr a). }
  rewrite Hc, snd_lift_ok.
  assert (Hrule : key = "unique_id"
                  \/ is_placeholder v = true
                  \/ (is_placeholder v = false /\ check_key p ig key = Ok ""
                      /\ dict_get key p = Some v)).
  { destruct Hok as [?|[? ?]]; [now left|right].
    destruct (is_placeholder v); [now left | right; auto]. }
  clear Hok Hc.
  destruct v as [| | | |s|l|l|a]; try now destruct (Harr a).
  all: cbn [key_in existsb].
  all: repeat match goal with
         | |- context [String.eqb ?x ?k] =>
             is_var x; destruct (String.eqb_spec x k) as [->|?]; cbn [orb]
         end; try reflexivity.
  all: destruct Hrule as [Hu|[Hph|(Hph & Hck & Hp)]]; try discriminate Hu;
    try discriminate Hph.
  all: try (apply placeholder_inv in Hph; injection Hph as ->; reflexivity).
  all: unfold check_key, dict_item in Hck; rewrite Hp in Hck;
    cbn [of_option bind is_placeholder] in Hck; rewrite ?Hph in Hck;
    cbn [String.eqb Ascii.eqb Bool.eqb key_in existsb orb] in Hck.
  all: try discriminate Hck.
  all: cbn [is_str py_len py_iter]; rewrite ?snd_lift_ok, ?snd_emit, ?snd_lift_ok.
  all: try (destruct s; [discriminate Hph|]; discriminate Hck).
  all: rewrite snd_then_emit; apply write_sep_after_returns.
  1-3: apply List.Forall_forall; intros; eauto.
  - unfold check_1q_indices in Hck. cbn [ne_str_truth bind negb] in Hck.
    destruct (_ =? -1); [discriminate|].
    destruct (check_sites _ _ l) as [|c msg] eqn:Hs; cbn [String.eqb negb] in Hck;
      [|discriminate].
    apply check_sites_empty in Hs as (zs & H2 & _). clear -H2.
    induction H2 as [|v z l zs Hv _ IH]; constructor; [|exact IH].
    now apply (site_text_returns E v z).
  - unfold check_2q_indices in Hck.
    destruct (_ =? -1); [discriminate|].
    destruct (check_pairs _ _ l) as [[|c msg]|e] eqn:Hs; cbn [bind String.eqb negb] in Hck;
      try discriminate.
    apply check_pairs_empty in Hs as (xs & H2 & _). clear -H2.
    induction H2 as [|v x l xs (a0 & a1 & -> & H0 & H1) _ IH]; constructor; [|exact IH].
    unfold pair_text. cbn [py_item lookup list_lookup of_option bind].
    destruct (site_text_returns E a0 _ H0) as [t0 ->].
    destruct (site_text_returns E a1 _ H1) as [t1 ->]. cbn [bind]. eauto.
  - unfold check_2q_indices in Hck.
    destruct (_ =? -1); [discriminate|].
    destruct (check_pairs _ _ l) as [[|c msg]|e] eqn:Hs; cbn [bind String.eqb negb] in Hck;
      try discriminate.
    apply check_pairs_empty in Hs as (xs & H2 & _). clear -H2.
    induction H2 as [|v x l xs (a0 & a1 & -> & H0 & H1) _ IH]; constructor; [|exact IH].
    unfold pair_text. cbn [py_item lookup list_lookup of_option bind].
    destruct (site_text_returns E a0 _ H0) as [t0 ->].
    destruct (site_text_returns E a1 _ H1) as [t1 ->]. cbn [bind]. eauto.
Qed.

Lemma write_keys_returns (E : env) (p : dict) (s_output_path : string) (b : bonds)
    (keys : list string) :
  Forall (fun k => snd (write_key E p s_output_path b k) = Ok tt) keys ->
  snd (write_keys E p s_output_path b keys) = Ok tt.
Proof.
  induction 1 as [|k keys Hk _ IH]; [reflexivity|].
  cbn [write_keys]. unfold out_bind.
  destruct (write_key E p s_output_path b k) as [t r]. cbn [snd] in Hk. subst r.
  destruct (write_keys E p s_output_path b keys) as [t' r']. exact IH.
Qed.

Lemma truthy_returns (v : PyVal) : (forall a, v <> VArray a) -> exists b, truthy v = Ok b.
Proof. destruct v; cbn; eauto. intros H. now destruct (H a). Qed.

Lemma array_free_interaction (p : dict) (name : string) :
  array_free p -> interaction p name = None.
Proof.
  intros H. unfold interaction. destruct (dict_get name p) as [v|] eqn:Hv; [|reflexivity].
  destruct v; try reflexivity. now destruct (H name a).
Qed.

Lemma array_free_set (p : dict) (k : string) (v : PyVal) :
  array_free p -> (forall a, v <> VArray a) -> array_free (dict_set k v p).
Proof.
  intros H Hv k' a. destruct (String.eqb_spec k' k) as [->|Hne].
  - rewrite dict_get_set_eq. intros [= ->]. now apply (Hv a).
  - rewrite dict_get_set_ne by exact Hne. apply H.
Qed.

End BuildMore.

(** * More about the reader of the output files *)

Module ReaderMore.
Import PyStr PyNumber Py Validator Solver Spec Terms.
Import StringFacts TextFacts SolverFacts WriterFacts ReaderFacts.

Lemma obs_append_keys (k : obs_key) (t v : float) (table : obs_map) :
  map fst (obs_append k t v table)
  = if existsb (fun k' => obs_key_eqb k' k) (map fst table) then map fst table
    else (map fst table ++ [k])%list.
Proof.
  induction table as [|[k' [ts vs]] rest IH]; cbn [obs_append map fst existsb app];
    [reflexivity|].
  destruct (obs_key_eqb k' k); cbn [orb map fst]; [reflexivity|].
  rewrite IH. now destruct (existsb _ _).
Qed.

Lemma obs_append_NoDup (k : obs_key) (t v : float) (table : obs_map) :
  List.NoDup (map fst table) -> List.NoDup (map fst (obs_append k t v table)).
Proof.
  intros H. rewrite obs_append_keys.
  destruct (existsb _ _) eqn:Hex; [exact H|].
  apply List.NoDup_app. repeat split; auto.
  - repeat constructor. intros [].
  - intros x Hx [<-|[]].
    assert (Ht : existsb (fun k' => obs_key_eqb k' k) (map fst table) = true).
    { apply existsb_exists. exists k. split; [exact Hx|]. now apply obs_key_eqb_eq. }
    congruence.
Qed.

Lemma obs_append_samples (k : obs_key) (t v : float) (table : obs_map) :
  samples (obs_append k t v table) = S (samples table).
Proof.
  unfold samples.
  unfold list_sum in *.
  induction table as [|[k' [ts vs]] rest IH];
    cbn [obs_append map fold_right fst snd length]; [reflexivity|].
  destruct (obs_key_eqb k' k); cbn [map fold_right fst snd].
  - rewrite length_app. cbn [length]. lia.
  - rewrite IH. lia.
Qed.

Lemma obs_append_parallel (k : obs_key) (t v : float) (table : obs_map) :
  parallel table = true -> parallel (obs_append k t v table) = true.
Proof.
  unfold parallel.
  induction table as [|[k' [ts vs]] rest IH]; cbn [obs_append forallb fst snd length];
    [reflexivity|].
  intros H. apply andb_prop in H as [He Hr].
  destruct (obs_key_eqb k' k); cbn [forallb fst snd].
  - rewrite Hr, andb_true_r. apply andb_prop in He as [He _].
    apply Nat.eqb_eq in He. rewrite !length_app, He. cbn [length].
    rewrite Nat.eqb_refl. cbn [andb]. apply Nat.ltb_lt. lia.
  - now rewrite He, IH.
Qed.

(** Rows added to a table: the keys stay distinct, the sequences parallel,
    and every row is one more sample. *)
Lemma add_rows_table (rows : list row) (table : obs_map) :
  List.NoDup (map fst table) -> parallel table = true ->
  List.NoDup (map fst (fold_left add_row rows table))
  /\ parallel (fold_left add_row rows table) = true
  /\ samples (fold_left add_row rows table) = (samples table + length rows)%nat.
Proof.
  revert table. induction rows as [|r rows IH]; intros table Hnd Hp; cbn [fold_left length].
  - repeat split; auto.
  - destruct (IH (add_row table r)) as (H1 & H2 & H3).
    + now apply obs_append_NoDup.
    + now apply obs_append_parallel.
    + repeat split; auto. rewrite H3. unfold add_row. rewrite obs_append_samples. lia.
Qed.

Lemma rows_of_length (ty : string) (lines : list string) (rows : list row) :
  rows_of ty lines = Ok rows -> length rows = length (List.filter has_word lines).
Proof.
  revert rows. induction lines as [|line rest IH]; intros rows; cbn [rows_of List.filter].
  - now intros [= <-].
  - unfold has_word at 1. destruct (split_ws (strip line)) as [|w ws]; [apply IH|].
    destruct (row_of ty (w :: ws)) as [r|e]; cbn [bind]; [|discriminate].
    destruct (rows_of ty rest) as [rs|e]; cbn [bind]; [|discriminate].
    intros [= <-]. cbn [length]. f_equal. now apply IH.
Qed.

(** The first line of a file, up to its line feed. *)
Lemma file_lines_first (header rest : string) :
  Forall (fun c => line_char c = true) (chars header) ->
  file_lines (header ++ nl ++ rest) = (header ++ nl) :: file_lines rest.
Proof.
  intros H. unfold file_lines. rewrite chars_app.
  change (chars (nl ++ rest)) with (chr 10 :: chars rest).
  rewrite universal_newlines_pass by exact H.
  change (universal_newlines (chr 10 :: chars rest))
    with (chr 10 :: universal_newlines (chars rest)).
  rewrite lines_aux_line by exact H.
  cbn [rev app]. now rewrite of_chars_app, of_chars_chars.
Qed.

Lemma file_lines_one (content : string) :
  Forall (fun c => line_char c = true) (chars content) ->
  tail (file_lines content) = [].
Proof.
  intros H. unfold file_lines.
  rewrite <- (app_nil_r (chars content)).
  rewrite universal_newlines_pass by exact H. cbn [universal_newlines].
  rewrite lines_aux_pass by exact H. cbn [lines_aux].
  now destruct (rev (chars content) ++ [])%list.
Qed.

(** The tables that [load_output] returns are those of the three files. *)
Lemma load_output_tables (path : string) (w : world) (r : list (string * obs_map))
    (w' : world) :
  load_output path w = (Ok r, w') ->
  exists t1 t2 t3,
    r = [("obs-1q", t1); ("obs-2q", t2); ("global", t3)]
    /\ fst (_read_data_file path "obs-1q" w) = Ok t1
    /\ fst (_read_data_file path "obs-2q" w) = Ok t2
    /\ fst (_read_data_file path "global" w) = Ok t3.
Proof.
  unfold load_output.
  assert (Hread : forall ty w0, files w0 = files w ->
             fst (_read_data_file path ty w0) = fst (_read_data_file path ty w)).
  { intros ty w0 Hw0. unfold _read_data_file. cbn [print files]. rewrite Hw0.
    now destruct (files w !! _). }
  pose proof (read_data_file_world path "obs-1q" w) as H1.
  destruct (_read_data_file path "obs-1q" w) as [[t1|e] w1] eqn:R1; [|discriminate].
  cbn [snd] in H1.
  pose proof (read_data_file_world path "obs-2q" w1) as H2.
  pose proof (Hread "obs-2q" w1) as E2.
  destruct (_read_data_file path "obs-2q" w1) as [[t2|e] w2] eqn:R2; [|discriminate].
  cbn [snd fst] in H2, E2.
  pose proof (Hread "global" w2) as E3.
  destruct (_read_data_file path "global" w2) as [[t3|e] w3] eqn:R3; [|discriminate].
  cbn [snd fst] in E3. subst w2 w1.
  specialize (E2 eq_refl). specialize (E3 eq_refl).
  intros [= <- <-]. exists t1, t2, t3. cbn [fst]. auto.
Qed.

(** The sequences of a table read from a file are parallel. *)
Lemma read_data_file_parallel (path ty : string) (w : world) (table : obs_map) :
  fst (_read_data_file path ty w) = Ok table -> parallel table = true.
Proof.
  unfold _read_data_file. cbn [print files].
  destruct (files w !! _) as [content|]; cbn [fst]; [|discriminate].
  rewrite read_lines_rows.
  destruct (rows_of ty (tail (file_lines content))) as [rows|e]; cbn [bind];
    [|discriminate].
  intros [= <-].
  now destruct (add_rows_table rows []) as (_ & H2 & _); [constructor|reflexivity|].
Qed.

End ReaderMore.

(** * More about the data of the plots *)

Module PlotFacts.
Import PyStr PyNumber Py Validator Solver Spec PlotRoutines Terms.
Import StringFacts TextFacts SolverFacts WriterFacts ReaderFacts ReaderMore.

Lemma lower_length (s : string) : length (chars (lower s)) = length (chars s).
Proof. unfold lower. rewrite chars_of_chars. apply length_map. Qed.

Lemma char_at_returns (s : string) (i : nat) :
  (exists c, char_at s i = Ok c) <-> (i < length (chars s))%nat.
Proof.
  unfold char_at. split.
  - intros [c H]. destruct (chars s !! i) eqn:Hl; [|discriminate].
    now apply lookup_lt_Some in Hl.
  - intros H. apply lookup_lt_is_Some_2 in H as [c ->]. cbn. eauto.
Qed.

Lemma index_at_returns (t : list Z) (i : nat) :
  (exists q, index_at t i = Ok q) <-> (i < length t)%nat.
Proof.
  unfold index_at. split.
  - intros [c H]. destruct (t !! i) eqn:Hl; [|discriminate].
    now apply lookup_lt_Some in Hl.
  - intros H. apply lookup_lt_is_Some_2 in H as [c ->]. cbn. eauto.
Qed.

Lemma pair_label_returns (name : string) (q : list Z) :
  (exists l, pair_label name q = Ok l)
  <-> (2 <= length (chars name))%nat /\ (2 <= length q)%nat.
Proof.
  unfold pair_label. split.
  - intros [l H].
    destruct (char_at name 0) eqn:H0; cbn [bind] in H; [|discriminate].
    destruct (index_at q 0) eqn:H1; cbn [bind] in H; [|discriminate].
    destruct (char_at name 1) eqn:H2; cbn [bind] in H; [|discriminate].
    destruct (index_at q 1) eqn:H3; cbn [bind] in H; [|discriminate].
    split; [apply (proj1 (char_at_returns name 1)) | apply (proj1 (index_at_returns q 1))];
      eauto.
  - intros [Hn Hq].
    destruct (proj2 (char_at_returns name 0)) as [c0 ->]; [lia|].
    destruct (proj2 (index_at_returns q 0)) as [q0 ->]; [lia|].
    destruct (proj2 (char_at_returns name 1)) as [c1 ->]; [lia|].
    destruct (proj2 (index_at_returns q 1)) as [q1 ->]; [lia|].
    cbn [bind]. eauto.
Qed.

(** In a table whose sequences are parallel, a key holds as many values as
    times. *)
Lemma parallel_get (table : obs_map) (k : obs_key) (ts vs : list float) :
  parallel table = true -> obs_get k table = Some (ts, vs) -> length vs = length ts.
Proof.
  unfold parallel. induction table as [|[k' [ts' vs']] rest IH]; cbn [obs_get forallb];
    [discriminate|].
  intros H. apply andb_prop in H as [He Hr].
  destruct (obs_key_eqb k' k); [|now apply IH].
  intros [= <- <-]. cbn [fst snd] in He. apply andb_prop in He as [He _].
  apply Nat.eqb_eq in He. now symmetry.
Qed.

Lemma np_elementwise_same (op : float -> float -> float) (a b : list float) :
  length a = length b -> np_elementwise op a b = Ok (zip_with op a b).
Proof. intros H. unfold np_elementwise. now rewrite H, Nat.eqb_refl. Qed.

Lemma connected_same (v0 v1 v2 : list float) :
  length v0 = length v1 -> length v0 = length v2 ->
  connected v0 v1 v2 = Ok (zip_with (SFsub 53 1024) v2 (zip_with (SFmul 53 1024) v0 v1))
  /\ length (zip_with (SFsub 53 1024) v2 (zip_with (SFmul 53 1024) v0 v1)) = length v0.
Proof.
  intros H1 H2. unfold connected. rewrite np_elementwise_same by exact H1. cbn [bind].
  assert (Hz : length (zip_with (SFmul 53 1024) v0 v1) = length v0).
  { rewrite length_zip_with. lia. }
  rewrite np_elementwise_same by lia. split; [reflexivity|].
  rewrite length_zip_with. lia.
Qed.

End PlotFacts.

(** * The lines of the input file *)

Module LineFacts.
Import PyStr PyNumber Py Validator Solver Spec Terms.
Import StringFacts TextFacts SolverFacts WriterFacts BuildMore ReaderMore.

Lemma one_line_chars (s : string) :
  one_line s = true -> Forall (fun c => line_char c = true) (chars s).
Proof.
  intros H. apply List.Forall_forall. exact (proj1 (List.forallb_forall _ _) H).
Qed.

Lemma key_line_one_line (key body rest : string) :
  one_line key = true -> one_line body = true ->
  file_lines (key_line key body ++ rest) = key_line key body :: file_lines rest.
Proof.
  intros Hk Hb. unfold key_line.
  replace ((key ++ " = " ++ body ++ nl) ++ rest)
    with ((key ++ " = " ++ body) ++ nl ++ rest) by now rewrite !append_assoc.
  rewrite file_lines_first.
  - now rewrite !append_assoc.
  - rewrite !chars_app. apply List.Forall_app. split; [now apply one_line_chars|].
    apply List.Forall_app. split; [repeat constructor | now apply one_line_chars].
Qed.

Lemma key_lines_file_lines (keys bodies : list string) (rest : string) :
  length keys = length bodies ->
  Forall (fun key => one_line key = true) keys ->
  Forall (fun body => one_line body = true) bodies ->
  file_lines (key_lines keys bodies ++ rest)
  = (zip_with key_line keys bodies ++ file_lines rest)%list.
Proof.
  revert bodies. induction keys as [|key keys IH]; intros [|body bodies] Hl Hk Hb;
    try discriminate; [reflexivity|].
  inversion Hk; inversion Hb; subst. cbn [key_lines zip_with app].
  rewrite append_assoc, key_line_one_line by assumption.
  f_equal. apply IH; auto.
Qed.

Lemma numerals_one_line (l : list Z) : one_line (join "," (map str_of_Z l)) = true.
Proof.
  unfold one_line. apply List.forallb_forall. apply List.Forall_forall.
  rewrite <- join_numerals_no_blank. apply replace_char_keeps; [|constructor].
  eapply List.Forall_impl; [|apply join_numerals_chars].
  intros c. destruct c as [[] [] [] [] [] [] [] []]; vm_compute; congruence.
Qed.

Lemma bond_lines_file_lines (b : bonds) : file_lines (bond_lines b) = bond_line_list b.
Proof.
  unfold bond_lines, bond_line_list.
  change ("first_bond_indices = " ++ join "," (map str_of_Z (fst b)) ++ nl)
    with (key_line "first_bond_indices" (join "," (map str_of_Z (fst b)))).
  rewrite key_line_one_line by (reflexivity || apply numerals_one_line).
  f_equal.
  change ("second_bond_indices = " ++ join "," (map str_of_Z (snd b)) ++ nl)
    with (key_line "second_bond_indices" (join "," (map str_of_Z (snd b)))).
  rewrite <- (append_nil_r (key_line "second_bond_indices" _)) at 1.
  rewrite key_line_one_line by (reflexivity || apply numerals_one_line).
  reflexivity.
Qed.

End LineFacts.

(** * Further properties *)

Import PyStr PyNumber Py Validator Solver Spec PlotRoutines Terms.
Import StringFacts TextFacts SolverFacts WriterFacts ReaderFacts BondFacts VerifyFacts.
Import VerifyMore BuildMore ReaderMore PlotFacts LineFacts.

(** ** The validator *)

(** X1. Whether a configuration is accepted does not depend on the order of
    its entries: two dictionaries with the same entries in different orders
    are both accepted or both not. *)
Theorem verify_accepts_any_order (p p' : dict) (ignore_params : option (list string)) :
  List.NoDup (dict_keys p) ->
  Permutation p p' ->
  verify_parameters (Some p) ignore_params = Ok ""
  <-> verify_parameters (Some p') ignore_params = Ok "".
Proof.
  intros Hnd Hp. split; [now apply verify_perm_accepts|].
  apply verify_perm_accepts; [|now apply Permutation_sym].
  unfold dict_keys in *. eapply Permutation_NoDup; [|exact Hnd].
  now apply Permutation_map.
Qed.

Lemma verify_accepts_any_order_witness :
  verify_parameters (Some minimal) None = Ok ""
  <-> verify_parameters (Some (rev minimal)) None = Ok "".
Proof.
  apply (verify_accepts_any_order minimal (rev minimal) None).
  - repeat (apply List.NoDup_cons; [vm_compute; intuition discriminate|]).
    apply List.NoDup_nil.
  - apply Permutation_rev.
Defined.

(** X2. An accepted configuration holds, under [N], a place holder or an
    integer larger than 0, and under [t_final] and [tau] a place holder or
    a number that is not at most 0; when both are numbers, [tau] is not
    larger than [t_final], and when both are larger than 0 and
    [output_step] is an integer larger than 0, [output_step * tau] can be
    computed and is not larger than [t_final]. *)
Theorem verify_accepted_required (p : dict) (ignore_params : option (list string)) :
  verify_parameters (Some p) ignore_params = Ok "" ->
  (exists v, dict_get "N" p = Some v
             /\ (v = VStr "" \/ exists n, as_int v = Some n /\ 0 < n))
  /\ (forall key, key = "t_final" \/ key = "tau" ->
        exists v, dict_get key p = Some v
                  /\ (v = VStr "" \/ exists x, as_num v = Some x
                                               /\ num_le x (NInt 0) = false))
  /\ (forall tau t_final x_tau x_final,
        dict_get "tau" p = Some tau -> dict_get "t_final" p = Some t_final ->
        as_num tau = Some x_tau -> as_num t_final = Some x_final ->
        num_gt x_tau x_final = false
        /\ forall output_step k,
             dict_get "output_step" p = Some output_step ->
             as_int output_step = Some k -> 0 < k ->
             num_gt x_tau (NInt 0) = true -> num_gt x_final (NInt 0) = true ->
             exists span, num_mul (NInt k) x_tau = Ok span
                          /\ num_gt span x_final = false).
Proof.
  intros H. pose proof H as H0. apply verify_accepts in H0 as (Hreq & _ & Hcross).
  destruct (required_present p Hreq) as ([vN HN] & [vT HT] & [vU HU]).
  assert (Htime : forall key v, key = "t_final" \/ key = "tau" -> dict_get key p = Some v ->
                    v = VStr "" \/ exists x, as_num v = Some x /\ num_le x (NInt 0) = false).
  { intros key v Hkey Hv. pose proof (accepted_key p _ key v H Hv) as Hk.
    unfold check_key, dict_item in Hk. rewrite Hv in Hk. cbn [of_option bind] in Hk.
    destruct (is_placeholder v) eqn:Hph; [left; now apply placeholder_inv|right].
    destruct Hkey as [-> | ->]; cbn in Hk; (eapply check_time_ok; [|exact Hk]);
      discriminate. }
  split; [|split].
  - exists vN. split; [exact HN|].
    pose proof (accepted_key p _ "N" vN H HN) as Hk.
    unfold check_key, dict_item in Hk. rewrite HN in Hk. cbn [of_option bind] in Hk.
    destruct (is_placeholder vN) eqn:Hph; [left; now apply placeholder_inv|right].
    cbn in Hk. now apply check_N_ok in Hk.
  - intros key [-> | ->]; eauto.
  - intros tau t_final x_tau x_final Htau Hfinal Hx_tau Hx_final.
    destruct (Htime "tau" tau (or_intror eq_refl) Htau) as [->|(x & Hx & Hle_tau)];
      [discriminate|].
    rewrite Hx_tau in Hx. injection Hx as <-.
    destruct (Htime "t_final" t_final (or_introl eq_refl) Hfinal)
      as [->|(x & Hx & Hle_final)]; [discriminate|].
    rewrite Hx_final in Hx. injection Hx as <-.
    unfold cross_checks, dict_in, dict_item in Hcross.
    rewrite Htau, Hfinal in Hcross. cbn [andb of_option bind] in Hcross.
    assert (Hf1 : _is_float tau = true) by (destruct tau; try discriminate; reflexivity).
    assert (Hf2 : _is_float t_final = true)
      by (destruct t_final; try discriminate; reflexivity).
    unfold num_of in Hcross. rewrite Hf1, Hf2, Hx_tau, Hx_final in Hcross.
    cbn [andb of_option bind] in Hcross.
    destruct (num_gt x_tau (NInt 0)) eqn:Hg1.
    + destruct (num_gt x_final (NInt 0)) eqn:Hg2; cbn [andb] in Hcross.
      * destruct (num_gt x_tau x_final) eqn:Hgt; [discriminate|].
        split; [reflexivity|].
        intros output_step k Hstep Hk Hpos _ _.
        rewrite Hstep, Hk in Hcross.
        replace (k >? 0) with true in Hcross by (symmetry; apply Z.gtb_lt; lia).
        destruct (num_mul (NInt k) x_tau) as [span|e]; cbn [bind] in Hcross;
          [|discriminate].
        exists span. split; [reflexivity|].
        now destruct (num_gt span x_final).
      * split; [|intros; discriminate].
        apply (not_ordered_with_zero x_final Hle_final Hg2).
    + split; [|intros; discriminate].
      apply (not_ordered_with_zero x_tau Hle_tau Hg1).
Qed.

Lemma verify_accepted_required_witness :
  exists v, dict_get "N" minimal = Some v
            /\ (v = VStr "" \/ exists n, as_int v = Some n /\ 0 < n).
Proof.
  apply (verify_accepted_required minimal None). vm_compute. reflexivity.
Defined.

(** X3. Listing a key without a rule in [ignore_params] is the same as
    leaving its entry out: the validator returns, or raises, what it does
    without [ignore_params] on the dictionary without the entries that are
    listed and have no rule.  A key with a rule is checked whether it is
    listed or not. *)
Theorem verify_ignore_params_drops_entries (ig : list string) (p : dict) :
  verify_parameters (Some p) (Some ig)
  = verify_parameters (Some (drop_ignored ig p)) None.
Proof.
  assert (Hsame : forall k, key_in k recognised = true ->
                            dict_get k (drop_ignored ig p) = dict_get k p).
  { intros k Hr. apply dict_get_drop_ignored. now apply ignored_not_recognised. }
  unfold verify_parameters.
  rewrite (missing_required_ext p (drop_ignored ig p)) by (apply Hsame; reflexivity).
  destruct (missing_required p); [reflexivity|].
  rewrite (cross_checks_ext p (drop_ignored ig p)) by (apply Hsame; reflexivity).
  change (dict_keys (drop_ignored ig p))
    with (dict_keys (List.filter (fun kv => negb (ignored ig (fst kv))) p)).
  rewrite (dict_keys_filter (fun k => negb (ignored ig k))).
  rewrite <- check_keys_drop_ignored; [reflexivity|].
  apply List.Forall_forall. auto.
Qed.

(** X4. An entry that holds the empty string is not looked at: a
    configuration with the required keys gets the same verdict with and
    without such an entry under a further key, wherever the entry stands
    and whether the key has a rule or not. *)
Theorem verify_placeholder_entry (p1 p2 : dict) (k : string) (ig : option (list string)) :
  dict_in k (p1 ++ p2)%list = false ->
  missing_required (p1 ++ p2)%list = false ->
  verify_parameters (Some (p1 ++ (k, VStr "") :: p2)%list) ig
  = verify_parameters (Some (p1 ++ p2)%list) ig.
Proof.
  intros Hfresh Hreq.
  assert (Hne : forall k', dict_in k' (p1 ++ p2)%list = true -> k' <> k).
  { intros k' H ->. congruence. }
  assert (Hget : forall k', k' <> k ->
                            dict_get k' (p1 ++ (k, VStr "") :: p2)%list = dict_get k' (p1 ++ p2)%list).
  { intros k' H. now apply dict_get_insert_fresh. }
  destruct (required_present _ Hreq) as ([vN HN] & [vT HT] & [vU HU]).
  assert (HkN : "N" <> k) by (apply Hne; unfold dict_in; now rewrite HN).
  assert (HkT : "t_final" <> k) by (apply Hne; unfold dict_in; now rewrite HT).
  assert (HkU : "tau" <> k) by (apply Hne; unfold dict_in; now rewrite HU).
  unfold verify_parameters.
  rewrite (missing_required_ext (p1 ++ p2)%list) by (apply Hget; assumption).
  rewrite Hreq.
  assert (Hcross : cross_checks (p1 ++ (k, VStr "") :: p2)%list = cross_checks (p1 ++ p2)%list).
  { destruct (String.eqb_spec "output_step" k) as [<-|Hs].
    - assert (Hnone : dict_get "output_step" (p1 ++ p2)%list = None).
      { unfold dict_in in Hfresh. now destruct (dict_get "output_step" (p1 ++ p2)%list). }
      assert (Hsome : dict_get "output_step" (p1 ++ ("output_step", VStr "") :: p2)%list
                      = Some (VStr "")).
      { rewrite dict_get_app in Hnone |- *.
        destruct (dict_get "output_step" p1); [discriminate|reflexivity]. }
      unfold cross_checks, dict_in, dict_item.
      rewrite !Hget by assumption. rewrite HT, HU, Hnone, Hsome.
      cbn [of_option bind andb as_int].
      repeat match goal with |- context [if ?b then _ else _] => destruct b end;
        try reflexivity.
      all: repeat match goal with |- context [bind ?c _] => destruct c; cbn [bind] end;
        try reflexivity.
      all: repeat match goal with |- context [if ?b then _ else _] => destruct b end;
        reflexivity.
    - apply cross_checks_ext; apply Hget; assumption. }
  rewrite Hcross.
  assert (Hkeys : check_keys (p1 ++ (k, VStr "") :: p2)%list ig
                    (dict_keys (p1 ++ (k, VStr "") :: p2)%list) ""
                  = check_keys (p1 ++ p2)%list ig (dict_keys (p1 ++ p2)%list) "").
  { unfold dict_keys. rewrite !map_app. cbn [map fst].
    rewrite !check_keys_app.
    assert (Hext : forall l, Forall (fun k' => k' <> k) l ->
                     forall m, check_keys (p1 ++ (k, VStr "") :: p2)%list ig l m
                               = check_keys (p1 ++ p2)%list ig l m).
    { intros l Hl m. apply check_keys_ext. intros k' Hk'.
      rewrite List.Forall_forall in Hl. symmetry. apply check_key_ext.
      - symmetry. apply Hget. now apply Hl.
      - apply number_of_qubits_ext. symmetry. now apply Hget.
      - symmetry. now apply Hget. }
    assert (Hin : forall (q : dict) k', In k' (map fst q) -> dict_in k' q = true).
    { intros q k' Hk'. unfold dict_in. induction q as [|[k0 v0] q IHq]; [contradiction|].
      cbn. destruct (String.eqb_spec k0 k'); [reflexivity|].
      destruct Hk' as [Hk'|Hk']; [contradiction | auto]. }
    assert (H1 : Forall (fun k' => k' <> k) (map fst p1)).
    { apply List.Forall_forall. intros k' Hk'. apply Hne. unfold dict_in.
      rewrite dict_get_app. apply Hin in Hk'. unfold dict_in in Hk'.
      now destruct (dict_get k' p1). }
    assert (H2 : Forall (fun k' => k' <> k) (map fst p2)).
    { apply List.Forall_forall. intros k' Hk'. apply Hne. unfold dict_in.
      rewrite dict_get_app. apply Hin in Hk'. unfold dict_in in Hk'.
      destruct (dict_get k' p1); [reflexivity|]. now destruct (dict_get k' p2). }
    rewrite (Hext _ H1).
    destruct (check_keys (p1 ++ p2)%list ig (map fst p1) "") as [m|e]; cbn [bind];
      [|reflexivity].
    cbn [check_keys].
    assert (Hk : check_key (p1 ++ (k, VStr "") :: p2)%list ig k = Ok "").
    { unfold check_key, dict_item. rewrite dict_get_app.
      unfold dict_in in Hfresh. rewrite dict_get_app in Hfresh.
      destruct (dict_get k p1); [discriminate|].
      cbn [dict_get]. now rewrite String.eqb_refl. }
    rewrite Hk. cbn [bind]. rewrite append_nil_r. apply (Hext _ H2). }
  now rewrite Hkeys.
Qed.

Lemma verify_placeholder_entry_witness :
  verify_parameters (Some ([("N", VInt 2)] ++ ("no_such_key", VStr "")
                           :: [("t_final", VFloat f64_one); ("tau", VFloat f64_half)])%list)
    None
  = verify_parameters (Some minimal) None.
Proof.
  apply (verify_placeholder_entry [("N", VInt 2)]
           [("t_final", VFloat f64_one); ("tau", VFloat f64_half)] "no_such_key" None);
    vm_compute; reflexivity.
Defined.

(** X5. Added to an accepted configuration, a list under [1q_indices] is
    accepted exactly when its members are integers ([bool]s count, as 0
    and 1) that are smaller than [N] and differ from one another, and
    there are at most [N] of them.  No lower bound is checked: a negative
    integer passes. *)
Theorem verify_1q_indices (p : dict) (ignore_params : option (list string))
    (l : list PyVal) :
  verify_parameters (Some p) ignore_params = Ok "" ->
  dict_in "1q_indices" p = false ->
  verify_parameters (Some (p ++ [("1q_indices", VList l)])%list) ignore_params = Ok ""
  <-> exists zs, Forall2 (fun v z => as_int v = Some z) l zs
                 /\ Forall (fun z => z < _get_number_of_qubits p) zs
                 /\ Z.of_nat (length zs) <= _get_number_of_qubits p
                 /\ List.NoDup zs.
Proof.
  intros Hp Hfresh.
  rewrite verify_extend by (try assumption; cbn; intuition discriminate).
  assert (Hn : _get_number_of_qubits (p ++ [("1q_indices", VList l)])%list
               = _get_number_of_qubits p).
  { apply number_of_qubits_ext. now apply dict_get_snoc_ne. }
  unfold check_key, dict_item. rewrite dict_get_snoc_eq by assumption.
  cbn [of_option bind is_placeholder String.eqb Ascii.eqb Bool.eqb key_in existsb orb].
  unfold check_1q_indices. cbn [ne_str_truth bind negb]. rewrite Hn.
  set (n := _get_number_of_qubits p).
  split.
  - intros [_ H].
    destruct (n =? -1); [discriminate|].
    destruct (check_sites "1q_indices" n l) as [|c msg] eqn:Hs;
      cbn [String.eqb negb] in H; [|discriminate].
    apply check_sites_empty in Hs as (zs & H2 & Hlt).
    destruct (Z.gtb_spec (Z.of_nat (length l)) n) as [|Hlen]; [discriminate|].
    unfold set_len in H. rewrite (ints_hashable l zs H2) in H. cbn [bind] in H.
    destruct (Nat.eqb_spec (length (dedup l)) (length l)) as [Hd|]; [|discriminate].
    exists zs. rewrite <- (Forall2_length _ _ _ H2).
    repeat split; auto. now apply (dedup_ints l zs H2).
  - intros (zs & H2 & Hlt & Hlen & Hnd). split; [exact Hp|].
    assert (Hn1 : (n =? -1) = false) by (apply Z.eqb_neq; lia).
    rewrite Hn1.
    assert (Hs : check_sites "1q_indices" n l = "") by (apply check_sites_empty; eauto).
    rewrite Hs. cbn [String.eqb negb].
    rewrite (Forall2_length _ _ _ H2).
    replace (Z.of_nat (length zs) >? n) with false
      by (symmetry; rewrite Z.gtb_ltb; apply Z.ltb_ge; lia).
    unfold set_len. rewrite (ints_hashable l zs H2). cbn [bind].
    rewrite <- (Forall2_length _ _ _ H2).
    apply (dedup_ints l zs H2) in Hnd. rewrite Hnd, Nat.eqb_refl. reflexivity.
Qed.

Lemma verify_1q_indices_witness :
  verify_parameters (Some (minimal ++ [("1q_indices", VList [VInt 1; VInt (-3)])])%list) None
  = Ok "".
Proof.
  apply (verify_1q_indices minimal None [VInt 1; VInt (-3)]);
    [vm_compute; reflexivity | vm_compute; reflexivity |].
  exists [1; -3]. split; [repeat constructor|].
  split; [repeat constructor|].
  split; [vm_compute; discriminate|].
  repeat (apply List.NoDup_cons; [vm_compute; intuition discriminate|]).
  apply List.NoDup_nil.
Defined.

(** X6. Added to an accepted configuration, a list under [2q_indices] or
    [init_graph_state] is accepted exactly when the number of qubits [N]
    is known and the members of the list are tuples of two integers
    smaller than [N] each, no two of them the same pair, and there are at
    most [N * N] of them.  Again no lower bound is checked, and a pair may
    name one site twice. *)
Theorem verify_pairs (p : dict) (ignore_params : option (list string)) (key : string)
    (l : list PyVal) :
  key = "2q_indices" \/ key = "init_graph_state" ->
  verify_parameters (Some p) ignore_params = Ok "" ->
  dict_in key p = false ->
  verify_parameters (Some (p ++ [(key, VList l)])%list) ignore_params = Ok ""
  <-> exists pairs,
        Forall2 is_pair l pairs
        /\ Forall (fun ij => fst ij < _get_number_of_qubits p
                             /\ snd ij < _get_number_of_qubits p) pairs
        /\ Z.of_nat (length pairs) <= _get_number_of_qubits p ^ 2
        /\ _get_number_of_qubits p <> -1
        /\ List.NoDup pairs.
Proof.
  intros Hkey Hp Hfresh.
  rewrite verify_extend
    by (try assumption; destruct Hkey as [-> | ->]; cbn; intuition discriminate).
  assert (Hn : _get_number_of_qubits (p ++ [(key, VList l)])%list
               = _get_number_of_qubits p).
  { apply number_of_qubits_ext. apply dict_get_snoc_ne.
    destruct Hkey as [-> | ->]; discriminate. }
  assert (Hrule : check_key (p ++ [(key, VList l)])%list ignore_params key
                  = check_2q_indices (p ++ [(key, VList l)])%list key (VList l)).
  { unfold check_key, dict_item. rewrite dict_get_snoc_eq by assumption.
    destruct Hkey as [-> | ->]; reflexivity. }
  rewrite Hrule. unfold check_2q_indices. rewrite Hn.
  set (n := _get_number_of_qubits p).
  split.
  - intros [_ H].
    destruct (Z.eqb_spec n (-1)) as [|Hn1]; [discriminate|].
    destruct (check_pairs key n l) as [[|c msg]|e] eqn:Hs; cbn [bind String.eqb negb] in H;
      try discriminate.
    apply check_pairs_empty in Hs as (pairs & H2 & Hlt).
    destruct (Z.gtb_spec (Z.of_nat (length l)) (n ^ 2)) as [|Hlen]; [discriminate|].
    unfold set_len in H. rewrite (pairs_hashable l pairs H2) in H. cbn [bind] in H.
    destruct (Nat.eqb_spec (length (dedup l)) (length l)) as [Hd|]; [|discriminate].
    exists pairs. rewrite <- (Forall2_length _ _ _ H2).
    repeat split; auto.
    now apply (dedup_NoDup is_pair l pairs py_eqb_pairs H2).
  - intros (pairs & H2 & Hlt & Hlen & Hn1 & Hnd). split; [exact Hp|].
    apply Z.eqb_neq in Hn1. rewrite Hn1.
    assert (Hs : check_pairs key n l = Ok "") by (apply check_pairs_empty; eauto).
    rewrite Hs. cbn [bind String.eqb negb].
    rewrite (Forall2_length _ _ _ H2).
    replace (Z.of_nat (length pairs) >? n ^ 2) with false
      by (symmetry; rewrite Z.gtb_ltb; apply Z.ltb_ge; lia).
    unfold set_len. rewrite (pairs_hashable l pairs H2). cbn [bind].
    rewrite <- (Forall2_length _ _ _ H2).
    apply (dedup_NoDup is_pair l pairs py_eqb_pairs H2) in Hnd.
    rewrite Hnd, Nat.eqb_refl. reflexivity.
Qed.

Lemma verify_pairs_witness :
  verify_parameters
    (Some (minimal ++ [("2q_indices", VList [VTuple [VInt 0; VInt 1]; VTuple [VInt 1; VInt 1];
                                             VTuple [VInt (-7); VBool false]])])%list) None
  = Ok "".
Proof.
  apply (verify_pairs minimal None "2q_indices");
    [left; reflexivity | vm_compute; reflexivity | vm_compute; reflexivity |].
  exists [(0, 1); (1, 1); (-7, 0)].
  split; [repeat constructor; eexists _, _; repeat split; reflexivity|].
  split; [repeat constructor; vm_compute; reflexivity|].
  split; [vm_compute; discriminate|].
  split; [vm_compute; discriminate|].
  repeat (apply List.NoDup_cons; [vm_compute; intuition discriminate|]).
  apply List.NoDup_nil.
Defined.

(** X7. On a dictionary whose keys are strings, as [dict] has them, and
    whose values are [PyVal]s, the validator returns a text, and does not
    raise, whenever the dictionary keeps clear of five situations:
    [t_init] given while [t_final] is not a number; an array under
    [1q_indices]; a member of [2q_components] that is not a string; a
    tuple with fewer than two items in [2q_indices] or [init_graph_state];
    an integer [output_step] too large to be converted to a float.  (A key
    that is not a string is a further way to raise, in the message of the
    unknown key; it is outside [dict].) *)
Theorem verify_parameters_returns_text (p : dict) (ignore_params : option (list string)) :
  (dict_in "t_init" p = true ->
   exists t x, dict_get "t_final" p = Some t /\ as_num t = Some x) ->
  (forall a, dict_get "1q_indices" p <> Some (VArray a)) ->
  (forall v, dict_get "2q_components" p = Some v -> members_are_str v = true) ->
  (forall key v, key = "2q_indices" \/ key = "init_graph_state" ->
                 dict_get key p = Some v -> tuples_have_two v = true) ->
  (forall v k, dict_get "output_step" p = Some v -> as_int v = Some k ->
               exists f, float_of_int k = Ok f) ->
  exists msg, verify_parameters (Some p) ignore_params = Ok msg.
Proof.
  intros Htime H1q H2qc H2qi Hstep. unfold verify_parameters.
  destruct (missing_required p) eqn:Hreq; [eauto|].
  assert (Hkeys : exists msg, check_keys p ignore_params (dict_keys p) "" = Ok msg).
  { apply check_keys_returns, List.Forall_forall. intros key Hin.
    pose proof (in_keys_dict_in p key Hin) as Hd. unfold dict_in in Hd.
    unfold check_key, dict_item.
    destruct (dict_get key p) as [v|] eqn:Hv; [|discriminate]. cbn [of_option bind].
    destruct (is_placeholder v); [eauto|].
    cbn [key_in existsb].
    repeat match goal with
           | |- context [String.eqb key ?s] =>
               destruct (String.eqb_spec key s) as [->|?]; cbn [orb];
               [first [ apply check_N_returns | apply check_lattice_returns
                      | apply check_step_returns | apply check_site_vector_returns
                      | apply check_coupling_returns | apply check_init_pauli_state_returns
                      | apply check_bool_returns | apply check_trotter_order_returns
                      | apply check_max_dim_rho_returns | apply check_cut_off_returns
                      | apply check_metadata_returns | apply check_prefix_returns
                      | apply check_1q_components_returns | idtac ] |]
           end.
    - apply check_time_returns. intros _. apply Htime. unfold dict_in. now rewrite Hv.
    - apply check_time_returns. discriminate.
    - apply check_time_returns. discriminate.
    - apply check_1q_indices_returns. intros a ->. now apply (H1q a).
    - apply check_2q_components_returns. now apply H2qc.
    - apply check_2q_indices_returns. apply (H2qi "2q_indices"); auto.
    - apply check_2q_indices_returns. apply (H2qi "init_graph_state"); auto.
    - apply check_unknown_returns. }
  destruct Hkeys as [check_msg ->]. cbn [bind].
  assert (Hcross : exists more, cross_checks p = Ok more).
  { destruct (required_present p Hreq) as (_ & [t_final Hf] & [tau Ht]).
    unfold cross_checks, dict_in, dict_item, num_of. rewrite Hf, Ht.
    cbn [andb of_option bind].
    destruct (_is_float tau) eqn:Hft; cbn [andb]; [|eauto].
    destruct (_is_float t_final) eqn:Hff; [|eauto].
    assert (Hx : exists x, as_num tau = Some x) by (destruct tau; try discriminate; cbn; eauto).
    assert (Hy : exists y, as_num t_final = Some y)
      by (destruct t_final; try discriminate; cbn; eauto).
    destruct Hx as [x Hx], Hy as [y ->]. rewrite Hx. cbn [of_option bind].
    destruct (num_gt x (NInt 0) && num_gt y (NInt 0)); [|eauto].
    destruct (num_gt x y); [eauto|].
    destruct (dict_get "output_step" p) as [output_step|] eqn:Hos; [|eauto].
    destruct (as_int output_step) as [k|] eqn:Hk; [|eauto].
    destruct (k >? 0); [|eauto].
    assert (Hmul : exists span, num_mul (NInt k) x = Ok span).
    { destruct x as [a|g]; cbn [num_mul]; [eauto|].
      destruct (Hstep output_step k eq_refl Hk) as [f ->]. cbn [bind]. eauto. }
    destruct Hmul as [span ->]. cbn [bind]. destruct (num_gt span y); eauto. }
  destruct Hcross as [more ->]. cbn [bind]. eauto.
Qed.

Lemma verify_parameters_returns_text_witness :
  exists msg,
    verify_parameters
      (Some (minimal ++ [("t_init", VStr "now"); ("1q_indices", VInt 3);
                         ("2q_components", VList [VStr "ab"]);
                         ("2q_indices", VList [VTuple [VNone; VNone]; VInt 1]);
                         ("output_step", VInt 1000)])%list)
      None
    = Ok msg.
Proof.
  apply verify_parameters_returns_text.
  - intros _. exists (VFloat f64_one), (NFloat f64_one). split; reflexivity.
  - intros a. vm_compute. discriminate.
  - intros v. vm_compute. intros [= <-]. reflexivity.
  - intros key v [-> | ->]; vm_compute; [intros [= <-]; reflexivity | discriminate].
  - intros v k Hv. vm_compute in Hv. injection Hv as <-. intros [= <-].
    eexists. vm_compute. reflexivity.
Defined.

(** X8. A string under [init_pauli_state] stands for the list that holds
    this one string: the validator returns the same text for both, and
    [build] ends the same way for both, with the same lines printed and
    the same input file written. *)
Theorem init_pauli_state_string_or_list (E : env) (p : dict) (s : string)
    (ignore_params : option (list string)) (s0 : solver) (w : world) :
  s <> "" ->
  let p1 := dict_set "init_pauli_state" (VStr s) p in
  let p2 := dict_set "init_pauli_state" (VList [VStr s]) p in
  verify_parameters (Some p1) ignore_params = verify_parameters (Some p2) ignore_params
  /\ fst (fst (build E (Some p1) s0 w)) = fst (fst (build E (Some p2) s0 w))
  /\ snd (build E (Some p1) s0 w) = snd (build E (Some p2) s0 w).
Proof.
  intros Hs p1 p2.
  assert (Hp : alike_but "init_pauli_state" (VStr s) (VList [VStr s]) p1 p2)
    by apply alike_but_set.
  split; [now apply (string_or_list_verify p1 p2 s)|].
  unfold build.
  cbv beta iota delta [st_bind get_parameters st_lift st_print set_parameters st_ret
                       st_write_file set_paths st_raise _virtual_verify_parameters].
  cbn [parameters with_parameters].
  rewrite (string_or_list_verify p1 p2 s Hs Hp None).
  destruct (verify_parameters (Some p2) None) as [msg|e]; [|split; reflexivity].
  destruct (negb (msg =? "")%string); [split; reflexivity|].
  cbn [of_option].
  assert (Hop : output_prefix p1 = output_prefix p2).
  { unfold output_prefix. now rewrite (string_or_list_get p1 p2 s Hp) by discriminate. }
  assert (Hb : dict_get "b_unique_id" p1 = dict_get "b_unique_id" p2)
    by (apply (string_or_list_get p1 p2 s Hp); discriminate).
  assert (Hu : dict_get "unique_id" p1 = dict_get "unique_id" p2)
    by (apply (string_or_list_get p1 p2 s Hp); discriminate).
  rewrite Hop, Hb, Hu.
  destruct (output_prefix p2) as [op|e]; [|split; reflexivity].
  destruct (truthy _) as [b|e]; [|split; reflexivity].
  destruct b.
  - cbn [parameters with_parameters of_option].
    destruct (id_suffix _) as [sfx|e]; [|split; reflexivity].
    pose proof (alike_but_other "init_pauli_state" (VStr s) (VList [VStr s]) p1 p2
                  "unique_id" (VStr (uuid4_hex E)) ltac:(discriminate) Hp) as Hp'.
    rewrite (string_or_list_bonds _ _ s Hp').
    destruct (bond_indices _) as [[bb bnd]|e]; [|split; reflexivity].
    rewrite (string_or_list_write _ _ s Hp').
    destruct (write_input E _ (op ++ sfx) bb bnd) as [text [[]|e]]; split; reflexivity.
  - cbn [parameters with_parameters of_option].
    destruct (id_suffix _) as [sfx|e]; [|split; reflexivity].
    rewrite (string_or_list_bonds _ _ s Hp).
    destruct (bond_indices p2) as [[bb bnd]|e]; [|split; reflexivity].
    rewrite (string_or_list_write _ _ s Hp).
    destruct (write_input E p2 (op ++ sfx) bb bnd) as [text [[]|e]]; split; reflexivity.
Qed.

Lemma init_pauli_state_string_or_list_witness :
  verify_parameters (Some (dict_set "init_pauli_state" (VStr "+x") minimal)) None
  = verify_parameters (Some (dict_set "init_pauli_state" (VList [VStr "+x"]) minimal)) None.
Proof.
  apply (init_pauli_state_string_or_list (example_env 0) minimal "+x" None
           (__init__ (example_env 0) None None None) empty_world).
  discriminate.
Defined.

(** ** The writer of the input file *)

(** X9. [build] returns for every configuration that the validator
    accepts, that holds no array and whose integers can be printed: it
    then raises nowhere, neither on the way to the input file nor while it
    writes the lines of the file it has opened.  The condition on the
    integers is CPython's: beyond 4300 digits [str] raises on an integer
    that the validator has accepted, a limit that [str_of_Z] does not
    have and that the statement therefore leaves out.  The keys of the
    dictionary are strings, as [dict] has them. *)
Theorem build_returns_when_accepted (E : env) (parameters_arg : option dict) (s : solver)
    (w : world) (p : dict) :
  parameters (given parameters_arg s) = Some p ->
  verify_parameters (Some p) None = Ok "" ->
  array_free p ->
  printable p ->
  exists s' w', build E parameters_arg s w = (Ok tt, s', w').
Proof.
  intros Hp Hv Hfree _.
  destruct (validated_output_prefix p None Hv) as [op Hop].
  destruct (truthy_returns (default (VBool false) (dict_get "b_unique_id" p))) as [b Hb].
  { destruct (dict_get "b_unique_id" p) as [v|] eqn:Hg; unfold default, from_option, id;
      [|discriminate].
    intros a ->. now apply (Hfree "b_unique_id" a). }
  set (p' := if b then dict_set "unique_id" (VStr (uuid4_hex E)) p else p).
  assert (Hfree' : array_free p').
  { subst p'. destruct b; [|exact Hfree]. apply array_free_set; [exact Hfree|discriminate]. }
  assert (Hsfx : exists sfx,
             id_suffix (if b then VStr (uuid4_hex E)
                        else default (VStr "") (dict_get "unique_id" p)) = Ok sfx).
  { destruct b; [|rewrite (accepted_unique_id p Hv)]; cbn;
      try match goal with |- context [if ?c then _ else _] => destruct c end; eauto. }
  destruct Hsfx as [sfx Hsfx].
  assert (Hbond : bond_indices p' = Ok (false, ([], []))).
  { unfold bond_indices. now rewrite !array_free_interaction by exact Hfree'. }
  pose proof (build_run E parameters_arg s w p op b sfx false ([], []) Hp Hv Hop Hb) as Hrun.
  cbv zeta in Hrun. fold p' in Hrun. specialize (Hrun Hsfx Hbond).
  assert (Hw : snd (write_input E p' (op ++ sfx) false ([], [])) = Ok tt).
  { unfold write_input. rewrite snd_then_emit. apply write_keys_returns.
    apply List.Forall_forall. intros k Hk.
    apply in_keys_dict_in in Hk. unfold dict_in in Hk.
    destruct (dict_get k p') as [v|] eqn:Hg; [|discriminate].
    apply (write_key_accepted E p p' None _ _ k v Hg).
    - intros a ->. now apply (Hfree' k a).
    - destruct (String.eqb_spec k "unique_id") as [->|Hne]; [now left|right].
      assert (Hg' : dict_get k p = Some v).
      { subst p'. destruct b; [|exact Hg]. now rewrite dict_get_set_ne in Hg. }
      split; [exact Hg'|]. now apply (accepted_key p None k v). }
  rewrite Hw in Hrun. rewrite Hrun. eauto.
Qed.

Lemma build_returns_when_accepted_witness :
  exists s' w',
    build (example_env 0) (Some minimal) (__init__ (example_env 0) None None None) empty_world
    = (Ok tt, s', w').
Proof.
  apply (build_returns_when_accepted _ _ _ _ minimal);
    [reflexivity | vm_compute; reflexivity | |].
  - intros k a. vm_compute.
    repeat match goal with |- context [if ?c then _ else _] => destruct c end; discriminate.
  - intros k v. unfold minimal. cbn [dict_get].
    repeat match goal with |- context [if ?c then _ else _] => destruct c end;
      intros [= <-]; vm_compute; reflexivity.
Defined.

(** X10. When [build] returns, the recorded input path is the recorded
    output prefix followed by [.input.txt], with every backslash turned
    into a slash: it is not empty and holds no backslash, and the file of
    that path exists.  The output prefix is a base that is not empty and
    does not end with a slash, a dot or a backslash, followed by the id
    suffix, which is empty or a dot and the unique id. *)
Theorem build_recorded_paths (E : env) (parameters_arg : option dict) (s : solver)
    (w : world) (s' : solver) (w' : world) :
  build E parameters_arg s w = (Ok tt, s', w') ->
  s_input_file s' = replace_char (chr 92) "/" (s_output_path s' ++ ".input.txt")
  /\ s_input_file s' <> ""
  /\ Forall (fun c => c <> chr 92) (chars (s_input_file s'))
  /\ (exists text, files w' !! s_input_file s' = Some text)
  /\ (s_id_suffix s' = "" \/ s_id_suffix s' = "." ++ uuid4_hex E)
  /\ exists base,
       s_output_path s' = base ++ s_id_suffix s'
       /\ base <> ""
       /\ forall c, last_char base = Some c -> mem_char c ("/." ++ backslash) = false.
Proof.
  intros H. apply build_returns_inv in H
    as (p0 & op & b & sfx & bb & bnd & _ & Hv & Hop & _ & H).
  cbv zeta in H. destruct H as (Hsfx & _ & _ & -> & ->).
  cbn [s_input_file s_output_path s_id_suffix with_paths].
  split; [reflexivity|]. split; [|split; [|split; [|split]]].
  - unfold input_path. rewrite replace_char_app.
    rewrite (replace_char_none _ _ ".input.txt")
      by (repeat constructor).
    intros Hz. apply append_eq_nil in Hz as [_ Hz]. discriminate.
  - apply replace_char_removes. repeat constructor. discriminate.
  - eexists. apply files_write_file.
  - destruct b.
    + cbn in Hsfx. destruct (negb (uuid4_hex E =? "")%string); injection Hsfx as <-; auto.
    + rewrite (accepted_unique_id p0 Hv) in Hsfx. injection Hsfx as <-. auto.
  - exists op. split; [reflexivity|]. exact (output_prefix_base p0 op Hop).
Qed.

Lemma build_recorded_paths_witness :
  let s' := with_paths "lindblad.input.txt" "lindblad" ""
              (__init__ (example_env 0) (Some minimal) None None) in
  s_input_file s' = replace_char (chr 92) "/" (s_output_path s' ++ ".input.txt").
Proof.
  intros s'.
  eapply (build_recorded_paths (example_env 0) None
            (__init__ (example_env 0) (Some minimal) None None) empty_world).
  vm_compute. reflexivity.
Defined.

(** X11. A unique id makes [build] a call that cannot be repeated: once
    [build] has returned for a dictionary with [b_unique_id] set, it has
    stored the id in the dictionary under [unique_id], a key the validator
    has no rule for, and every later [build] on that dictionary raises with
    the message of the unknown key, prints nothing and writes nothing. *)
Theorem build_again_after_unique_id (E E' : env) (parameters_arg : option dict)
    (s : solver) (w : world) (s1 : solver) (w1 : world) (p : dict)
    (parameters_arg2 : option dict) (s2 : solver) (w2 : world) :
  build E parameters_arg s w = (Ok tt, s1, w1) ->
  parameters (given parameters_arg s) = Some p ->
  List.NoDup (dict_keys p) ->
  dict_get "b_unique_id" p = Some (VBool true) ->
  uuid4_hex E <> "" ->
  parameters (given parameters_arg2 s2) = parameters s1 ->
  parameters s1 = Some (dict_set "unique_id" (VStr (uuid4_hex E)) p)
  /\ build E' parameters_arg2 s2 w2
     = (Raise (Exception ("Error: unknown parameter key passed: unique_id" ++ nl)),
        given parameters_arg2 s2, w2).
Proof.
  intros H Hp Hnd Hb Hu H2.
  apply build_returns_inv in H as (p0 & op & b & sfx & bb & bnd & Hp0 & Hv & _ & Hw & H).
  rewrite Hp in Hp0. injection Hp0 as <-.
  unfold wants_unique_id in Hw. rewrite Hb in Hw. injection Hw as <-.
  cbv zeta in H. destruct H as (_ & _ & _ & -> & _).
  cbn [parameters with_paths with_parameters] in *.
  split; [reflexivity|].
  apply build_rejects; [|discriminate]. rewrite H2.
  set (p' := dict_set "unique_id" (VStr (uuid4_hex E)) p).
  apply verify_accepts in Hv as (Hreq & Hf & Hc).
  assert (Hget : forall k, k <> "unique_id" -> dict_get k p' = dict_get k p)
    by (intros k Hk; now apply dict_get_set_ne).
  destruct (dict_keys_set_cases "unique_id" (VStr (uuid4_hex E)) p Hnd)
    as (Hnd' & Hin' & Hold). fold p' in Hnd', Hin', Hold.
  unfold verify_parameters.
  rewrite (missing_required_ext p p') by (apply Hget; discriminate). rewrite Hreq.
  rewrite (cross_checks_ext p p') by (apply Hget; discriminate). rewrite Hc.
  rewrite (check_keys_one p' None "unique_id"
             ("Error: unknown parameter key passed: unique_id" ++ nl)
             (dict_keys p') "").
  - reflexivity.
  - intros k Hk Hne.
    rewrite (check_key_ext p p') by (try apply number_of_qubits_ext; apply Hget;
                                     try discriminate; exact Hne).
    rewrite List.Forall_forall in Hf. apply Hf. now apply Hold.
  - rewrite (check_key_unrecognised p' None "unique_id" (VStr (uuid4_hex E)) eq_refl)
      by apply dict_get_set_eq.
    cbn [is_placeholder]. destruct (uuid4_hex E); [contradiction|reflexivity].
  - exact Hnd'.
  - exact Hin'.
Qed.

Lemma build_again_after_unique_id_witness :
  let E := example_env 0 in
  let s := __init__ E (Some minimal_unique) None None in
  build E None (fst (built E None s empty_world)) (snd (built E None s empty_world))
  = (Raise (Exception ("Error: unknown parameter key passed: unique_id" ++ nl)),
     fst (built E None s empty_world), snd (built E None s empty_world)).
Proof.
  intros E s.
  refine (proj2 (build_again_after_unique_id E E None s empty_world
                   (fst (built E None s empty_world)) (snd (built E None s empty_world))
                   minimal_unique None (fst (built E None s empty_world))
                   (snd (built E None s empty_world)) _ _ _ _ _ _)).
  - vm_compute. reflexivity.
  - reflexivity.
  - repeat (apply List.NoDup_cons; [vm_compute; intuition discriminate|]).
    apply List.NoDup_nil.
  - reflexivity.
  - discriminate.
  - reflexivity.
Defined.

(** X12. The input file that [build] leaves holds, for every key of the
    dictionary but the flag [b_unique_id] and in the order of the
    dictionary, the text [key = body] and a line feed, where the body is
    what the branch of the key writes: the recorded output path for
    [output_files_prefix]; the entries at the bond indices, or the rows,
    of an array; the members of the lists of names and of indices, the
    indices counted from 1, joined by commas; and for any other key
    [str(value).strip("[]")].  The two lines of the bond indices that
    [build] has computed follow exactly when [J] or [J_z] is an array,
    and nothing else.  When no key and no body holds a line break, the
    lines of the file are these, one for every key; a body with a line
    break gives further lines. *)
Theorem build_writes_key_lines (E : env) (parameters_arg : option dict) (s : solver)
    (w : world) (s' : solver) (w' : world) :
  build E parameters_arg s w = (Ok tt, s', w') ->
  exists p bb b bodies text,
    parameters s' = Some p
    /\ bond_indices p = Ok (bb, b)
    /\ (bb = true <-> interaction p "J" <> None \/ interaction p "J_z" <> None)
    /\ Forall2 (line_body E p (s_output_path s') b) (written_keys p) bodies
    /\ files w' !! s_input_file s' = Some text
    /\ text = key_lines (written_keys p) bodies ++ (if bb then bond_lines b else "")
    /\ (Forall (fun key => one_line key = true) (written_keys p) ->
        Forall (fun body => one_line body = true) bodies ->
        file_lines text
        = (zip_with key_line (written_keys p) bodies
           ++ if bb then bond_line_list b else [])%list).
Proof.
  intros H. apply build_returns_inv in H
    as (p0 & op & b & sfx & bb & bnd & Hp0 & _ & _ & _ & H).
  cbv zeta in H. destruct H as (_ & Hbond & Hw & -> & ->).
  set (p := if b then dict_set "unique_id" (VStr (uuid4_hex E)) p0 else p0) in *.
  assert (Hp : parameters (if b then with_parameters (Some p) (given parameters_arg s)
                           else given parameters_arg s) = Some p).
  { subst p. destruct b; [reflexivity | exact Hp0]. }
  cbn [parameters s_input_file s_output_path with_paths].
  rewrite files_write_file.
  unfold write_input in Hw |- *.
  apply out_bind_inv in Hw as ([] & Hkeys & Htail & ->).
  apply write_keys_bodies in Hkeys as (bodies & Hb & ->).
  pose proof (bond_indices_flag p bb bnd Hbond) as Hflag. cbv beta.
  exists p, bb, bnd, bodies. eexists. split; [exact Hp|]. split; [exact Hbond|].
  split.
  { destruct bb; [tauto|]. destruct Hflag as [-> ->]. split; [discriminate|].
    intros [Hx|Hx]; now destruct Hx. }
  split; [exact Hb|]. split; [reflexivity|].
  assert (Htext : forall A B : string, A = B -> forall K : string, K ++ A = K ++ B)
    by (intros ? ? ->; reflexivity).
  split.
  { apply Htext. destruct bb; [|reflexivity]. cbn [out_bind emit fst].
    unfold bond_lines. now rewrite !bond_text_join. }
  intros Hk Hbodies.
  rewrite (Htext _ (if bb then bond_lines bnd else ""))
    by (destruct bb; [|reflexivity]; cbn [out_bind emit fst];
        unfold bond_lines; now rewrite !bond_text_join).
  rewrite key_lines_file_lines; [|exact (Forall2_length _ _ _ Hb)|exact Hk|exact Hbodies].
  f_equal. destruct bb; [apply bond_lines_file_lines | reflexivity].
Qed.

Lemma build_writes_key_lines_witness :
  let r := built (example_env 0) None
             (__init__ (example_env 0) (Some minimal_unique) None None) empty_world in
  exists p bodies text,
    parameters (fst r) = Some p
    /\ length bodies = length (written_keys p)
    /\ files (snd r) !! "lindblad.4a1f0c2e9b7d4e6f8a3b5c7d9e1f2a3b.input.txt" = Some text
    /\ text = key_lines (written_keys p) bodies.
Proof.
  intros r.
  destruct (build_writes_key_lines (example_env 0) None
              (__init__ (example_env 0) (Some minimal_unique) None None) empty_world
              (fst r) (snd r))
    as (p & bb & b & bodies & text & Hp & Hbond & _ & Hb & Hf & Ht & _).
  - vm_compute. reflexivity.
  - exists p, bodies, text. split; [exact Hp|]. split; [|split; [exact Hf|]].
    + symmetry. exact (Forall2_length _ _ _ Hb).
    + assert (Hbb : bb = false).
      { injection Hp as <-. vm_compute in Hbond. now injection Hbond as <- _. }
      rewrite Ht, Hbb. apply append_nil_r.
Defined.

(** X13. The line of a coupling matrix with more than one row holds the
    entries of the matrix at the positions of the bond indices, in their
    order and separated by commas: one value for every bond, also where
    the entry of this matrix is zero. *)
Theorem write_coupling_line (E : env) (p : dict) (s_output_path key : string)
    (a : ndarray) (r c : nat) (hits : list (nat * nat)) :
  key = "J" \/ key = "J_z" ->
  dict_get key p = Some (VArray a) ->
  shape a = [r; c] ->
  (1 < r)%nat ->
  well_formed a = true ->
  Forall (fun ij => (fst ij < r)%nat /\ (snd ij < c)%nat) hits ->
  write_key E p s_output_path (one_based (map fst hits), one_based (map snd hits)) key
  = (key_line key
       (join "," (map (fun ij => np_scalar_str E (dtype a) (entry a (fst ij) (snd ij)))
                    hits)),
     Ok tt).
Proof.
  intros Hkey Hget Hs Hr Hw Hhits.
  assert (Hl : length (data a) = (r * c)%nat).
  { unfold well_formed, nd_size in Hw. rewrite Hs in Hw. apply Nat.eqb_eq in Hw.
    cbn [fold_right] in Hw. lia. }
  assert (Hlen : nd_len a = Ok r) by (unfold nd_len; now rewrite Hs).
  assert (Hr' : (1 <? r)%nat = true) by now apply Nat.ltb_lt.
  unfold write_key, dict_item. rewrite Hget. cbn [of_option out_lift out_bind].
  assert (Hitems :
            write_sep_before
              (fun '(f, s) => np_item_str E a [Z.to_nat (f - 1); Z.to_nat (s - 1)])
              (combine (one_based (map fst hits)) (one_based (map snd hits))) false
            = (join "," (map (fun ij => np_scalar_str E (dtype a) (entry a (fst ij) (snd ij)))
                           hits), Ok tt)).
  { rewrite (write_sep_before_ok _
               (fun fs => np_scalar_str E (dtype a)
                            (entry a (Z.to_nat (fst fs - 1)) (Z.to_nat (snd fs - 1))))).
    - f_equal. f_equal. clear. unfold one_based.
      induction hits as [|[i j] hits IH]; [reflexivity|].
      cbn [map combine fst snd]. rewrite IH. f_equal.
      now replace (Z.to_nat (Z.of_nat i + 1 - 1)) with i by lia;
        replace (Z.to_nat (Z.of_nat j + 1 - 1)) with j by lia.
    - unfold one_based. clear -Hhits Hs Hl.
      induction Hhits as [|[i j] hits [Hi Hj] _ IH]; [constructor|].
      cbn [map combine fst snd] in *. constructor; [|exact IH]. cbn [fst snd].
      replace (Z.to_nat (Z.of_nat i + 1 - 1)) with i by lia.
      replace (Z.to_nat (Z.of_nat j + 1 - 1)) with j by lia.
      now apply (np_item_str_entry E a r c). }
  destruct Hkey as [-> | ->];
    cbn [String.eqb Ascii.eqb Bool.eqb orb]; rewrite Hlen; cbn [bind]; rewrite Hr';
    cbn [out_lift out_bind emit fst snd]; rewrite Hitems; cbn [out_bind emit];
    now rewrite <- key_line_intro.
Qed.

Lemma write_coupling_line_witness :
  write_key (example_env 0) coupled_pair "lindblad"
    (one_based (map fst [(0, 1); (1, 0); (1, 1)]%nat),
     one_based (map snd [(0, 1); (1, 0); (1, 1)]%nat)) "J"
  = (key_line "J" "1.0,0.5,0.0", Ok tt).
Proof.
  apply (write_coupling_line (example_env 0) coupled_pair "lindblad" "J" J_2x2 2 2
           [(0, 1); (1, 0); (1, 1)]%nat);
    [left; reflexivity | reflexivity | reflexivity | lia | reflexivity |].
  repeat constructor.
Defined.

(** X14. With one coupling matrix only, [J] or [J_z], as an array of [r] by
    [c], the two bond index lists that [build] computes are the row and
    the column numbers, counted from 1, of the positions where the matrix
    is not zero, row by row. *)
Theorem bond_indices_of_one_matrix (p : dict) (a : ndarray) (r c : nat) :
  (interaction p "J" = Some a /\ interaction p "J_z" = None)
  \/ (interaction p "J" = None /\ interaction p "J_z" = Some a) ->
  shape a = [r; c] ->
  well_formed a = true ->
  let hits := List.filter (nonzero_at a) (cells r c) in
  bond_indices p = Ok (true, (one_based (map fst hits), one_based (map snd hits)))
  /\ forall i j : nat,
       In (i, j) hits
       <-> (i < r)%nat /\ (j < c)%nat /\ num_nonzero (entry a i j) = true.
Proof.
  intros Ha Hs Hw hits. split.
  - assert (Hl : length (data a) = (r * c)%nat).
    { unfold well_formed, nd_size in Hw. rewrite Hs in Hw. apply Nat.eqb_eq in Hw.
      cbn [fold_right] in Hw. lia. }
    assert (Hscan : scan a (cell_nonzero a)
                    = Ok (add_hits (List.filter (nonzero_at a) (cells r c)) ([], []))).
    { apply (scan_hits a _ (nonzero_at a) r c Hs). intros i j Hi Hj.
      now apply (cell_nonzero_entry a r c). }
    unfold bond_indices.
    destruct Ha as [[-> ->]|[-> ->]]; rewrite Hscan; reflexivity.
  - intros i j. unfold hits. rewrite List.filter_In. unfold cells, nonzero_at.
    cbn [fst snd]. rewrite in_flat_map. split.
    + intros [(i0 & Hi0 & Hin) Hnz]. apply in_map_iff in Hin as (j0 & [= <- <-] & Hj0).
      apply in_seq in Hi0, Hj0. repeat split; auto; lia.
    + intros (Hi & Hj & Hnz). split; [|exact Hnz]. exists i. split; [apply in_seq; lia|].
      apply in_map_iff. exists j. split; [reflexivity | apply in_seq; lia].
Qed.

Lemma bond_indices_of_one_matrix_witness :
  bond_indices (minimal ++ [("J_z", VArray Jz_2x2)])%list = Ok (true, ([2], [2])).
Proof.
  apply (bond_indices_of_one_matrix (minimal ++ [("J_z", VArray Jz_2x2)])%list Jz_2x2 2 2);
    [right; split; reflexivity | reflexivity | reflexivity].
Defined.

(** X15. A coupling array has to have two dimensions for [build]: with an
    array under [J] or [J_z] that has fewer, and is not empty, [build]
    raises, whatever else the configuration holds, and leaves the files as
    they were. *)
Theorem build_coupling_needs_two_dimensions (E : env) (parameters_arg : option dict)
    (s : solver) (w : world) (p : dict) (a : ndarray) :
  parameters (given parameters_arg s) = Some p ->
  interaction p "J" = Some a \/ interaction p "J_z" = Some a ->
  (length (shape a) < 2)%nat ->
  nd_size a <> 0%nat ->
  exists e s' w', build E parameters_arg s w = (Raise e, s', w') /\ files w' = files w.
Proof.
  intros Hp Ha Hd Hn.
  pose proof (build_cases E parameters_arg s w) as H. cbv zeta in H.
  destruct (prepared (parameters (given parameters_arg s))) as [[op b]|].
  - destruct H as (p0 & Hp0 & [[e H]|(sfx & bb & bnd & _ & Hbond & _)]).
    + rewrite H. exists e. eexists _, _. split; [reflexivity|]. now destruct b.
    + exfalso. rewrite Hp in Hp0. injection Hp0 as <-.
      destruct (bond_indices_needs_two_dimensions p a Ha Hd Hn) as [e He].
      destruct b; [rewrite bond_indices_set_unique_id in Hbond|]; congruence.
  - destruct H as [e H]. rewrite H. eauto.
Qed.

Lemma build_coupling_needs_two_dimensions_witness :
  exists e s' w',
    build (example_env 0)
      (Some (minimal ++ [("J", VArray {| dtype := "float64"; shape := [1%nat];
                                         data := [NFloat f64_half] |})])%list)
      (__init__ (example_env 0) None None None) empty_world
    = (Raise e, s', w')
    /\ files w' = files empty_world.
Proof.
  eapply (build_coupling_needs_two_dimensions _ _ _ _ _
            {| dtype := "float64"; shape := [1%nat]; data := [NFloat f64_half] |});
    [reflexivity | left; reflexivity | vm_compute; lia | vm_compute; lia].
Defined.

(** ** The solver process *)

(** X16. [process_default_paths] returns a path it is given as it is, on
    every platform, so that [execute] finds the paths of the instance
    unchanged.  A path left out is replaced: on Windows by the default
    cygwin shell and by the solver below [/cygdrive/], in the directory of
    the module with every colon dropped and every backslash turned into a
    slash, a path that holds neither and is no longer than the directory;
    elsewhere by the empty string and the solver below the directory of
    the module. *)
Theorem process_default_paths_cases (E : env) (s_cygwin_path s_solver_path : option string) :
  let r := process_default_paths E s_cygwin_path s_solver_path in
  let windows := String.eqb (lower (platform_system E)) "windows" in
  let dir := of_chars (map (fun c => if Ascii.eqb c (chr 92) then "/"%char else c)
                         (List.filter (fun c => negb (Ascii.eqb c ":"))
                            (chars (module_dir E)))) in
  (forall c, s_cygwin_path = Some c -> fst r = c)
  /\ (forall v, s_solver_path = Some v -> snd r = v)
  /\ (s_cygwin_path = None -> fst r = if windows then DEFAULT_CYGWIN_PATH else "")
  /\ (s_solver_path = None ->
      snd r = if windows then "/cygdrive/" ++ dir ++ DEFAULT_EXECUTABLE_PATH ++ ".exe"
              else module_dir E ++ DEFAULT_EXECUTABLE_PATH)
  /\ Forall (fun c => c <> ":"%char /\ c <> chr 92) (chars dir)
  /\ (String.length dir <= String.length (module_dir E))%nat
  /\ forall E', process_default_paths E' (Some (fst r)) (Some (snd r)) = r.
Proof.
  cbv zeta.
  set (dir := of_chars (map (fun c => if Ascii.eqb c (chr 92) then "/"%char else c)
                          (List.filter (fun c => negb (Ascii.eqb c ":"))
                             (chars (module_dir E))))).
  assert (Hdir : replace_char (chr 92) "/" (replace_char ":"%char "" (module_dir E)) = dir).
  { rewrite <- (of_chars_chars (replace_char _ _ _)).
    now rewrite replace_char_one, replace_char_drop. }
  unfold process_default_paths. cbv zeta. rewrite Hdir.
  assert (Hlen : forall s, String.length s = length (chars s)).
  { intros s0. unfold chars. induction s0 as [|c s0 IH]; cbn; congruence. }
  split; [|split; [|split; [|split; [|split; [|split]]]]].
  - intros c ->. destruct s_solver_path; try reflexivity; now destruct (String.eqb _ "windows").
  - intros v ->. destruct s_cygwin_path; try reflexivity; now destruct (String.eqb _ "windows").
  - intros ->. destruct s_solver_path; try reflexivity; now destruct (String.eqb _ "windows").
  - intros ->. destruct s_cygwin_path; try reflexivity; now destruct (String.eqb _ "windows").
  - subst dir. rewrite chars_of_chars. apply List.Forall_forall. intros c Hc.
    apply in_map_iff in Hc as (x & <- & Hx). apply filter_In in Hx as [_ Hx].
    apply negb_true_iff in Hx. apply Ascii.eqb_neq in Hx.
    destruct (Ascii.eqb_spec x (chr 92)) as [->|Hb]; split; try discriminate; assumption.
  - subst dir. rewrite !Hlen, chars_of_chars, length_map. apply List.filter_length_le.
  - intros E'. symmetry. apply surjective_pairing.
Qed.

(** X17. Once an input file is recorded, [solve] runs the solver on that
    file as it is: the parameters of the instance are not validated and not
    written again, so that a change of the parameters after [build] has no
    effect on what [solve] does. *)
Theorem solve_keeps_recorded_input (E : env) (s : solver) (w : world)
    (parameters' : option dict) :
  s_input_file s <> "" ->
  solve E (with_parameters parameters' s) w
  = let '(r, s', w') := solve E s w in (r, with_parameters parameters' s', w').
Proof.
  intros H. apply String.eqb_neq in H. destruct s as [p f o c v i r0].
  cbn [s_input_file] in H.
  cbv beta iota delta [solve st_bind st_raise set_result with_parameters with_result
                       s_input_file s_cygwin_path s_solver_path s_output_path parameters
                       s_id_suffix result].
  rewrite H.
  destruct (execute E (Some c) (Some v) f w) as [code w1].
  destruct (negb (code =? 0)); [reflexivity|].
  destruct (load_output o w1) as [[r|e] w2]; reflexivity.
Qed.

Lemma solve_keeps_recorded_input_witness :
  let E := example_env 1 in
  let s := with_paths "lindblad.input.txt" "lindblad" "" (__init__ E (Some minimal) None None) in
  solve E (with_parameters None s) empty_world
  = let '(r, s', w') := solve E s empty_world in (r, with_parameters None s', w').
Proof.
  intros E s. apply (solve_keeps_recorded_input E s empty_world None). discriminate.
Defined.

(** X18. [solve] returns only after the solver has ended with exit code 0
    and the three output files have been read: the stored result is then
    what [load_output] has read from the files as the solver left them,
    under the recorded output prefix, and nothing else of the instance has
    changed since the solver was started.  The instance has an input file
    recorded, so that a further [solve] does not build again. *)
Theorem solve_returns (E : env) (s : solver) (w : world) (s' : solver) (w' : world) :
  solve E s w = (Ok tt, s', w') ->
  exists s1 w1 w2 r,
    solve_prepare E s w = (Ok tt, s1, w1)
    /\ execute E (Some (s_cygwin_path s1)) (Some (s_solver_path s1)) (s_input_file s1) w1
       = (0, w2)
    /\ load_output (s_output_path s1) w2 = (Ok r, w')
    /\ s' = with_result r s1
    /\ s_input_file s' <> "".
Proof.
  unfold solve, st_bind, st_raise, set_result. fold (solve_prepare E s w).
  destruct (solve_prepare E s w) as [[[[]|e] s1] w1] eqn:Hprep; [|discriminate].
  destruct (execute E _ _ _ w1) as [code w2] eqn:Hexec.
  destruct (Z.eqb_spec code 0) as [->|]; cbn [negb]; [|discriminate].
  destruct (load_output (s_output_path s1) w2) as [[r|e] w3] eqn:Hload; [|discriminate].
  intros [= <- <-]. exists s1, w1, w2, r. repeat split; auto.
  cbn [s_input_file with_result]. unfold solve_prepare in Hprep.
  destruct (String.eqb_spec (s_input_file s) "") as [_|Hne].
  - now apply build_returns_input_file in Hprep.
  - now injection Hprep as <- <-.
Qed.

Lemma solve_returns_witness :
  let E := example_env 0 in
  let s := with_paths "run/lindblad.input.txt" "run/lindblad" ""
             (__init__ E (Some minimal) None None) in
  s_input_file (snd (fst (solve E s three_files_world))) <> "".
Proof.
  intros E s.
  destruct (solve_returns E s three_files_world
              (snd (fst (solve E s three_files_world)))
              (snd (solve E s three_files_world)))
    as (s1 & w1 & w2 & r & _ & _ & _ & _ & H).
  - vm_compute. reflexivity.
  - exact H.
Defined.

(** ** The reader of the output files *)

(** X19. [load_output] returns only when the three output files are there
    and can be read: its result then holds the table of each file, under
    [obs-1q], [obs-2q] and [global] in that order; it has printed one line
    for each file and has changed no file. *)
Theorem load_output_returns (path : string) (w : world)
    (r : list (string * obs_map)) (w' : world) :
  load_output path w = (Ok r, w') ->
  (exists t1 t2 t3,
     r = [("obs-1q", t1); ("obs-2q", t2); ("global", t3)]
     /\ fst (_read_data_file path "obs-1q" w) = Ok t1
     /\ fst (_read_data_file path "obs-2q" w) = Ok t2
     /\ fst (_read_data_file path "global" w) = Ok t3)
  /\ (forall ty, In ty ["obs-1q"; "obs-2q"; "global"] ->
                 exists content, files w !! data_file path ty = Some content)
  /\ files w' = files w
  /\ console w'
     = (console w
        ++ map (fun ty => ("Loading output data file: " ++ data_file path ty)%string)
             ["obs-1q"; "obs-2q"; "global"])%list.
Proof.
  unfold load_output.
  assert (Hread : forall ty w0, files w0 = files w ->
             fst (_read_data_file path ty w0) = fst (_read_data_file path ty w)).
  { intros ty w0 Hw0. unfold _read_data_file. cbn [print files]. rewrite Hw0.
    now destruct (files w !! _). }
  assert (Hfile : forall ty t, fst (_read_data_file path ty w) = Ok t ->
             exists content, files w !! data_file path ty = Some content).
  { intros ty t. unfold _read_data_file, data_file. cbn [print files].
    destruct (files w !! _); [eauto|discriminate]. }
  pose proof (read_data_file_world path "obs-1q" w) as H1.
  destruct (_read_data_file path "obs-1q" w) as [[t1|e] w1] eqn:R1; [|discriminate].
  cbn [snd] in H1.
  pose proof (read_data_file_world path "obs-2q" w1) as H2.
  pose proof (Hread "obs-2q" w1) as E2.
  destruct (_read_data_file path "obs-2q" w1) as [[t2|e] w2] eqn:R2; [|discriminate].
  cbn [snd fst] in H2, E2.
  pose proof (read_data_file_world path "global" w2) as H3.
  pose proof (Hread "global" w2) as E3.
  destruct (_read_data_file path "global" w2) as [[t3|e] w3] eqn:R3; [|discriminate].
  cbn [snd fst] in H3, E3. subst w3 w2 w1.
  specialize (E2 eq_refl). specialize (E3 eq_refl).
  intros [= <- <-]. split; [|split; [|split]].
  - exists t1, t2, t3. cbn [fst]. auto.
  - intros ty [<-|[<-|[<-|[]]]]; eapply Hfile;
      [rewrite R1; reflexivity | symmetry; exact E2 | symmetry; exact E3].
  - reflexivity.
  - cbn [print console map]. now rewrite <- !app_assoc.
Qed.

Lemma load_output_returns_witness :
  files (snd (load_output "run/lindblad" three_files_world)) = files three_files_world.
Proof.
  refine (proj1 (proj2 (proj2 (load_output_returns "run/lindblad" three_files_world
                                 (match fst (load_output "run/lindblad" three_files_world) with
                                  | Ok r => r
                                  | Raise _ => []
                                  end)
                                 (snd (load_output "run/lindblad" three_files_world)) _)))).
  vm_compute. reflexivity.
Defined.

(** X20. Whatever an output file holds, the table read from it has no key
    twice, holds under every key as many times as values and one at least,
    and holds one sample for every line after the first that is not
    blank: no row is left out and none is read twice. *)
Theorem read_data_file_table (path ty : string) (w : world) (table : obs_map) :
  fst (_read_data_file path ty w) = Ok table ->
  List.NoDup (map fst table)
  /\ parallel table = true
  /\ exists content,
       files w !! data_file path ty = Some content
       /\ samples table = length (data_lines content).
Proof.
  unfold _read_data_file, data_file. cbn [print files].
  destruct (files w !! _) as [content|]; cbn [fst]; [|discriminate].
  rewrite read_lines_rows.
  destruct (rows_of ty (tail (file_lines content))) as [rows|e] eqn:Hrows; cbn [bind];
    [|discriminate].
  intros [= <-].
  destruct (add_rows_table rows []) as (H1 & H2 & H3); [constructor|reflexivity|].
  repeat split; auto. exists content. split; [reflexivity|].
  rewrite H3. cbn. now apply rows_of_length in Hrows.
Qed.

Lemma read_data_file_table_witness :
  exists content,
    files one_row_world !! data_file "run/lindblad" "obs-1q" = Some content
    /\ samples [(("z", [0]), ([f64_half], [f64_0732]))] = length (data_lines content).
Proof.
  apply (read_data_file_table "run/lindblad" "obs-1q" one_row_world
           [(("z", [0]), ([f64_half], [f64_0732]))]).
  vm_compute. reflexivity.
Defined.

(** X21. The first line of an output file is never read as data: a file
    whose first line ends with a line feed is read as the lines after that
    line, whatever the first line holds, and a file without a line break
    gives the empty table. *)
Theorem read_data_file_skips_first_line (path ty : string) (w : world)
    (first rest : string) :
  forallb line_char (chars first) = true ->
  (files w !! data_file path ty = Some (first ++ nl ++ rest) ->
   fst (_read_data_file path ty w) = read_lines ty (file_lines rest) [])
  /\ (files w !! data_file path ty = Some first ->
      fst (_read_data_file path ty w) = Ok []).
Proof.
  intros Hfirst.
  assert (Hf : Forall (fun c => line_char c = true) (chars first))
    by (apply List.Forall_forall; exact (proj1 (List.forallb_forall _ _) Hfirst)).
  unfold _read_data_file, data_file. cbn [print files]. split; intros ->; cbn [fst].
  - now rewrite file_lines_first.
  - now rewrite file_lines_one.
Qed.

Lemma read_data_file_skips_first_line_witness :
  fst (_read_data_file "run/lindblad" "obs-1q"
         {| files := {[ "run/lindblad.obs-1q.dat" := "0.5 z 1 0.732" ]}; console := [] |})
  = Ok [].
Proof.
  apply (read_data_file_skips_first_line "run/lindblad" "obs-1q" _ "0.5 z 1 0.732" "");
    reflexivity.
Defined.

(** X22. [_read_data_line] returns only for one of the three output types
    and a row with words enough: three for [obs-1q], four for [obs-2q], two
    for [global]; on anything else it raises. *)
Theorem read_data_line_returns_only (ty : string) (words : list string)
    (result result' : obs_map) :
  _read_data_line ty words result = Ok result' ->
  (ty = "obs-1q" /\ (3 <= length words)%nat)
  \/ (ty = "obs-2q" /\ (4 <= length words)%nat)
  \/ (ty = "global" /\ (2 <= length words)%nat).
Proof.
  unfold _read_data_line, word.
  destruct (words !! 0%nat) as [w0|] eqn:H0; cbn [of_option bind]; [|discriminate].
  destruct (to_float w0); cbn [bind]; [|discriminate].
  destruct (words !! 1%nat) as [w1|] eqn:H1; cbn [of_option bind]; [|discriminate].
  destruct (last words); cbn [of_option bind]; [|discriminate].
  destruct (to_float _); cbn [bind]; [|discriminate].
  apply lookup_lt_Some in H1.
  destruct (String.eqb_spec ty "obs-1q") as [->|_].
  { destruct (words !! 2%nat) eqn:H2; cbn [of_option bind]; [|discriminate].
    apply lookup_lt_Some in H2. intros _. left. split; [reflexivity|lia]. }
  destruct (String.eqb_spec ty "obs-2q") as [->|_].
  { destruct (words !! 2%nat) eqn:H2; cbn [of_option bind]; [|discriminate].
    destruct (to_int _); cbn [bind]; [|discriminate].
    destruct (words !! 3%nat) eqn:H3; cbn [of_option bind]; [|discriminate].
    apply lookup_lt_Some in H3. intros _. right. left. split; [reflexivity|lia]. }
  destruct (String.eqb_spec ty "global") as [->|_]; [|discriminate].
  intros _. right. right. split; [reflexivity|lia].
Qed.

Lemma read_data_line_returns_only_witness :
  ("global" = "obs-1q" /\ (3 <= length ["0.5"; "tr_rho"; "1.0"])%nat)
  \/ ("global" = "obs-2q" /\ (4 <= length ["0.5"; "tr_rho"; "1.0"])%nat)
  \/ ("global" = "global" /\ (2 <= length ["0.5"; "tr_rho"; "1.0"])%nat).
Proof.
  eapply (read_data_line_returns_only "global" ["0.5"; "tr_rho"; "1.0"] []).
  vm_compute. reflexivity.
Defined.

(** ** The data of the plots *)

(** X23. [prepare_curve_data] returns exactly when the result holds the
    output type and, unless the table of the type is [None]: for [obs-1q]
    there is an index; for [obs-2q] the name has two letters and there are
    two indices; for [global] the name, in lower case, is one of the five
    with a label.  It raises otherwise, also when the table holds data for
    the name. *)
Theorem prepare_curve_data_returns (result : result_dict) (s_output_type s_obs_name : string)
    (q_indices : list Z) :
  (exists out, prepare_curve_data result s_output_type s_obs_name q_indices = Ok out)
  <-> exists obs_dict,
        str_get s_output_type result = Some obs_dict
        /\ (obs_dict = None
            \/ (s_output_type = "obs-1q" -> (1 <= length q_indices)%nat)
               /\ (s_output_type = "obs-2q" ->
                   (2 <= String.length s_obs_name)%nat /\ (2 <= length q_indices)%nat)
               /\ (s_output_type = "global" -> labelled s_obs_name = true)).
Proof.
  assert (Hlen : String.length s_obs_name = length (chars (lower s_obs_name))).
  { rewrite lower_length. unfold chars. induction s_obs_name; cbn; congruence. }
  unfold prepare_curve_data, labelled.
  destruct (str_get s_output_type result) as [[table|]|]; cbn [of_option bind].
  3: { split; [intros [? [=]] | intros (? & [=] & _)]. }
  2: { split; [eauto | eauto]. }
  destruct (String.eqb_spec s_output_type "obs-1q") as [->|H1].
  { pose proof (index_at_returns q_indices 0) as Hi. split.
    - intros [out H]. eexists. split; [reflexivity|right].
      split; [|split; discriminate]. intros _. apply Hi.
      destruct (index_at q_indices 0); [eauto|discriminate].
    - intros (d & [= <-] & [[=]|(H & _)]).
      destruct (proj2 Hi (H eq_refl)) as [q0 ->]. cbn [bind]. eauto. }
  destruct (String.eqb_spec s_output_type "obs-2q") as [->|H2].
  { pose proof (pair_label_returns (lower s_obs_name) q_indices) as Hp.
    rewrite <- Hlen in Hp. split.
    - intros [out H]. eexists. split; [reflexivity|right].
      split; [discriminate|split; [|discriminate]]. intros _. apply Hp.
      destruct (pair_label _ _); [eauto|discriminate].
    - intros (d & [= <-] & [[=]|(_ & H & _)]).
      destruct (proj2 Hp (H eq_refl)) as [l ->]. cbn [bind]. eauto. }
  destruct (String.eqb_spec s_output_type "global") as [->|H3].
  { split.
    - intros [out H]. eexists. split; [reflexivity|right].
      split; [discriminate|split; [discriminate|]]. intros _.
      destruct (str_get _ LINDBLADMPO_TEX_LABELS); [reflexivity|discriminate].
    - intros (d & [= <-] & [[=]|(_ & _ & H)]). specialize (H eq_refl).
      destruct (str_get _ LINDBLADMPO_TEX_LABELS); [|discriminate]. cbn. eauto. }
  split; [|cbn; eauto].
  intros _. eexists. split; [reflexivity|right]. repeat split; intros; contradiction.
Qed.

(** X24. On a result of [load_output], [prepare_2q_correlation_data]
    returns for every name of two letters and every pair of indices.  It
    gives no data unless the two single-site observables and the pair
    observable are there with one number of times; the data are then the
    times of the first observable and, time by time, the value of the pair
    less the product of the values of the two sites, as many as times. *)
Theorem correlation_data_of_loaded_output (path : string) (w w' : world)
    (r : list (string * obs_map)) (s_obs_name : string) (q_indices : list Z) :
  load_output path w = (Ok r, w') ->
  (2 <= String.length s_obs_name)%nat ->
  (2 <= length q_indices)%nat ->
  exists out label,
    prepare_2q_correlation_data (loaded r) s_obs_name q_indices = Ok (out, label)
    /\ (out = None -> label = "")
    /\ forall ts vs,
         out = Some (ts, vs) ->
         exists t1 t2 c0 c1 q0 q1 vs0 ts1 vs1 ts2 vs2,
           str_get "obs-1q" (loaded r) = Some (Some t1)
           /\ str_get "obs-2q" (loaded r) = Some (Some t2)
           /\ char_at (lower s_obs_name) 0 = Ok c0
           /\ char_at (lower s_obs_name) 1 = Ok c1
           /\ index_at q_indices 0 = Ok q0
           /\ index_at q_indices 1 = Ok q1
           /\ obs_get (c0, [q0]) t1 = Some (ts, vs0)
           /\ obs_get (c1, [q1]) t1 = Some (ts1, vs1)
           /\ obs_get (lower s_obs_name, q_indices) t2 = Some (ts2, vs2)
           /\ length ts1 = length ts /\ length ts2 = length ts
           /\ vs = connected_values vs0 vs1 vs2
           /\ length vs = length ts
           /\ label = sigma_label c0 q0 ++ " " ++ sigma_label c1 q1.
Proof.
  intros Hload Hname Hq.
  assert (Hlen : String.length s_obs_name = length (chars (lower s_obs_name))).
  { rewrite lower_length. unfold chars. clear. induction s_obs_name; cbn; congruence. }
  rewrite Hlen in Hname.
  apply load_output_tables in Hload as (t1 & t2 & t3 & -> & R1 & R2 & _).
  apply read_data_file_parallel in R1, R2.
  unfold prepare_2q_correlation_data. cbn [loaded map fst snd str_get String.eqb Ascii.eqb
                                            Bool.eqb of_option bind].
  destruct (proj2 (char_at_returns (lower s_obs_name) 0)) as [c0 H0]; [lia|].
  destruct (proj2 (index_at_returns q_indices 0)) as [q0 Hq0]; [lia|].
  destruct (proj2 (char_at_returns (lower s_obs_name) 1)) as [c1 H1]; [lia|].
  destruct (proj2 (index_at_returns q_indices 1)) as [q1 Hq1]; [lia|].
  rewrite H0, Hq0, H1, Hq1. cbn [bind].
  destruct (obs_get (c0, [q0]) t1) as [[ts0 vs0]|] eqn:G0.
  2: { exists None, "". split; [reflexivity|]. split; [reflexivity|discriminate]. }
  destruct (obs_get (c1, [q1]) t1) as [[ts1 vs1]|] eqn:G1.
  2: { exists None, "". split; [reflexivity|]. split; [reflexivity|discriminate]. }
  destruct (obs_get (lower s_obs_name, q_indices) t2) as [[ts2 vs2]|] eqn:G2.
  2: { exists None, "". split; [reflexivity|]. split; [reflexivity|discriminate]. }
  cbn [fst snd].
  destruct (Nat.eqb_spec (length ts0) (length ts1)) as [E1|]; cbn [andb].
  2: { exists None, "". split; [reflexivity|]. split; [reflexivity|discriminate]. }
  destruct (Nat.eqb_spec (length ts0) (length ts2)) as [E2|].
  2: { exists None, "". split; [reflexivity|]. split; [reflexivity|discriminate]. }
  pose proof (parallel_get t1 _ _ _ R1 G0) as L0.
  pose proof (parallel_get t1 _ _ _ R1 G1) as L1.
  pose proof (parallel_get t2 _ _ _ R2 G2) as L2.
  destruct (connected_same vs0 vs1 vs2) as [Hc Hl]; [lia|lia|].
  rewrite Hc. cbn [bind]. unfold pair_label. rewrite H0, Hq0, H1, Hq1. cbn [bind].
  eexists _, _. split; [reflexivity|]. split; [discriminate|].
  intros ts vs [= <- <-].
  exists t1, t2, c0, c1, q0, q1, vs0, ts1, vs1, ts2, vs2.
  unfold connected_values. repeat split; auto; lia.
Qed.

Lemma correlation_data_of_loaded_output_witness :
  exists out label,
    prepare_2q_correlation_data
      (loaded (match fst (load_output "run/lindblad" three_files_world) with
               | Ok r => r
               | Raise _ => []
               end)) "ZZ" [0; 1]
    = Ok (out, label)
    /\ forall ts vs, out = Some (ts, vs) -> length vs = length ts.
Proof.
  destruct (correlation_data_of_loaded_output "run/lindblad" three_files_world
              (snd (load_output "run/lindblad" three_files_world))
              (match fst (load_output "run/lindblad" three_files_world) with
               | Ok r => r
               | Raise _ => []
               end) "ZZ" [0; 1])
    as (out & label & H & Hout).
  - vm_compute. reflexivity.
  - vm_compute. lia.
  - vm_compute. lia.
  - exists out, label. split; [exact H|].
    intros ts vs Hs. destruct Hout as [_ Hout].
    destruct (Hout ts vs Hs) as (? & ? & ? & ? & ? & ? & ? & ? & ? & ? & ? & Hd).
    apply Hd.
Defined.
